(** * The capture-dispatch-response pipeline of the screenshot assistant

    A shallow embedding of the orchestration methods of [AIAssistantApp]
    (src/main.py): hotkey callbacks, screenshot acquisition, the bounded
    screenshot history, the background API worker, the response handler and
    the streaming handler.  Methods are state transformers over the fields
    of the application object; every call to a collaborator (logger, Qt
    signal, overlay, clipboard, thread, timer) is recorded in a trace, so
    that "how many times" and "in which order" are statements about lists. *)

From Stdlib Require Import ZArith List String Ascii Bool Lia DecimalString.
From stdpp Require Import gmap strings list fin_maps.
Import ListNotations.

Local Open Scope string_scope.
Local Open Scope list_scope.

(** ** Python values *)

(** [bytes]: an encoded image as handed around by the capture code. *)
Definition bytes := list Byte.byte.

(** A prompt is a JSON object read from the configuration: a [dict] with
    string keys; the pipeline reads the keys [name] and [content]. *)
Abbreviation Prompt := (gmap string string).

(** Exceptions (all subclasses of [Exception], which is what the
    [except Exception] clauses of the source catch). *)
Inductive Exn :=
| KeyError (key : string)            (* d[key] on a dict without key *)
| IndexError                          (* list.pop on an empty list *)
| AttributeError (attr : string)      (* None.attr *)
| CollaboratorError (msg : string).   (* raised by an external collaborator *)

(** [str(e)] *)
Definition exn_str (e : Exn) : string :=
  match e with
  | KeyError k => "'" +:+ k +:+ "'"
  | IndexError => "pop from empty list"
  | AttributeError a => "'NoneType' object has no attribute '" +:+ a +:+ "'"
  | CollaboratorError m => m
  end.

(** Truth value of a [str] and of an optional [dict]. *)
Definition str_truthy (s : string) : bool :=
  match s with EmptyString => false | _ => true end.

Definition opt_str_truthy (o : option string) : bool :=
  match o with Some s => str_truthy s | None => false end.

Definition prompt_truthy (o : option Prompt) : bool :=
  match o with Some d => bool_decide (d ≠ ∅) | None => false end.

(** Python strings are sequences of code points; the model keeps their
    UTF-8 bytes.  [py_len] and [py_take] count code points: a byte of the
    form 10xxxxxx continues the code point before it. *)
Definition is_continuation (a : ascii) : bool :=
  let n := nat_of_ascii a in (128 <=? n)%nat && (n <? 192)%nat.

Fixpoint py_len (s : string) : nat :=
  match s with
  | EmptyString => 0
  | String a r => (if is_continuation a then 0 else 1) + py_len r
  end.

(** [s[:n]] *)
Fixpoint py_take (n : nat) (s : string) : string :=
  match s with
  | EmptyString => EmptyString
  | String a r =>
      if is_continuation a then String a (py_take n r)
      else match n with
           | O => EmptyString
           | S n' => String a (py_take n' r)
           end
  end.

(** [sum(len(img) for img in imgs)] *)
Definition total_size (imgs : list bytes) : nat :=
  fold_right (fun img acc => length img + acc) 0 imgs.

(** ** Collaborator calls recorded in the trace *)

Inductive Level := INFO | WARNING | ERROR.

(** [prompt.get('name', f'...{n}')]: the name of a prompt, or the numbered
    default of a prompt without one. *)
Inductive PromptName :=
| Named (name : string)
| Numbered (number : Z).

(** The messages passed to [log_manager.add_log], with the values the
    f-strings interpolate (sizes in bytes, where the source prints MB). *)
Inductive LogMsg :=
| Log_screenshot_save_failed (e : Exn)
| Log_overlay_missing
| Log_toast_failed (e : Exn)
| Log_provider_switched (new_provider : string)
| Log_provider_switch_failed (e : Exn)
| Log_no_prompts
| Log_send_prompt (number : Z) (name : PromptName)
| Log_index_reset_send (name : PromptName)
| Log_send_prompt_failed (e : Exn)
| Log_display_failed (e : Exn)
| Log_prompt_failed (e : Exn)
| Log_text (s : string)
| Log_response_begin (len : nat)
| Log_code_copied (len : nat) (content_hash : string)
| Log_clipboard_failed
| Log_no_code_block
| Log_response_preview (preview : string)
| Log_response_shown
| Log_history_empty
| Log_history_cleared (count size : nat)
| Log_history_clear_failed (e : Exn)
| Log_selector_failed (e : Exn)
| Log_selector_done
| Log_selector_cancelled
| Log_selector_only_done
| Log_history_limit (limit : nat)
| Log_history_saved (count size : nat)
| Log_history_count (count : nat)
| Log_current_size (size : nat)
| Log_using_provider (provider : string)
| Log_sending (count : nat) (provider : string) (size : nat)
| Log_cleanup_done (count size : nat)
| Log_cleanup_failed (e : Exn)
| Log_stream_begin
| Log_chunk (number : nat) (is_complete : bool)
| Log_stream_end (len : nat)
| Log_chunk_appended (head : string)
| Log_stream_failed (e : Exn)
| Log_stream_processed (len : nat)
| Log_stream_process_failed (e : Exn)
| Log_trigger (name : string)
| Log_screen_captured.

(** Which handler a [ScreenshotSelector] has connected to its
    [screenshot_taken] signal. *)
Inductive SelectorKind := ForPrompt | ForHistory.

Inductive LabelText :=
| Label_no_prompts
| Label_current (number : Z) (name : PromptName)
| Label_error.

Inductive Effect :=
| Log (m : LogMsg) (lvl : Level)
| EmitTriggerScreenshot (with_prompt : bool)   (* trigger_screenshot_signal.emit *)
| EmitApiResponse (response : string)          (* api_response_signal.emit *)
| CaptureScreen                                (* capture_screen() *)
| SelectorStart (k : SelectorKind)             (* ScreenshotSelector() ... start_capture() *)
| SelectorClose
| ThreadStart (all_images : list bytes) (prompt : Prompt) (provider : string)
| SingleShotCleanup                            (* QTimer.singleShot(0, _cleanup_screenshot_history) *)
| GcCollect
| ExtractCodeBlocks (text : string)
| CopyToClipboard (text : string)
| MarkdownRender (text : string)
| OverlayToggle
| OverlayHandleResponse (html : string)
| OverlayStartStreaming
| OverlayFinishStreaming
| OverlayContentChunk (text : string)
| RadioSetChecked (provider : string)
| ToastShow (new_provider : string)
| SetPromptLabel (t : LabelText).

(** ** Configuration *)

(** Modelled from the spec: the configuration collaborator
    ([ai_assistant.core.config_manager.ConfigManager], not part of the
    sources at hand) is a persisted key/value store with
    [get(path, default)] and [set(path, value)].  The record holds the three
    keys the pipeline uses; [None] is an absent key, for which [get] returns
    the default given by the caller. *)
Record Config := {
  cfg_provider : option string;
  cfg_prompts : option (list Prompt);
  cfg_current_prompt_index : option Z
}.

Definition cfg_set_provider (v : string) (c : Config) : Config :=
  {| cfg_provider := Some v;
     cfg_prompts := cfg_prompts c;
     cfg_current_prompt_index := cfg_current_prompt_index c |}.

Definition cfg_set_current_prompt_index (v : Z) (c : Config) : Config :=
  {| cfg_provider := cfg_provider c;
     cfg_prompts := cfg_prompts c;
     cfg_current_prompt_index := Some v |}.

(** ** The application object *)

Record App := {
  screenshot_history : list bytes;
  screenshot_selector : option SelectorKind;
  pending_prompt : option Prompt;
  current_prompt_index : Z;
  overlay : bool;                          (* [self.overlay] is not [None] *)
  provider_radios : option (list string);  (* keys of the radio dict, if built *)
  current_prompt_label : bool;             (* [hasattr(self, 'current_prompt_label')] *)
  config_manager : Config;
  trace : list Effect                      (* collaborator calls, newest first *)
}.

Definition set_screenshot_history (v : list bytes) (s : App) : App :=
  {| screenshot_history := v;
     screenshot_selector := screenshot_selector s;
     pending_prompt := pending_prompt s;
     current_prompt_index := current_prompt_index s;
     overlay := overlay s;
     provider_radios := provider_radios s;
     current_prompt_label := current_prompt_label s;
     config_manager := config_manager s;
     trace := trace s |}.

Definition set_screenshot_selector (v : option SelectorKind) (s : App) : App :=
  {| screenshot_history := screenshot_history s;
     screenshot_selector := v;
     pending_prompt := pending_prompt s;
     current_prompt_index := current_prompt_index s;
     overlay := overlay s;
     provider_radios := provider_radios s;
     current_prompt_label := current_prompt_label s;
     config_manager := config_manager s;
     trace := trace s |}.

Definition set_pending_prompt (v : option Prompt) (s : App) : App :=
  {| screenshot_history := screenshot_history s;
     screenshot_selector := screenshot_selector s;
     pending_prompt := v;
     current_prompt_index := current_prompt_index s;
     overlay := overlay s;
     provider_radios := provider_radios s;
     current_prompt_label := current_prompt_label s;
     config_manager := config_manager s;
     trace := trace s |}.

Definition set_current_prompt_index (v : Z) (s : App) : App :=
  {| screenshot_history := screenshot_history s;
     screenshot_selector := screenshot_selector s;
     pending_prompt := pending_prompt s;
     current_prompt_index := v;
     overlay := overlay s;
     provider_radios := provider_radios s;
     current_prompt_label := current_prompt_label s;
     config_manager := config_manager s;
     trace := trace s |}.

Definition set_config_manager (v : Config) (s : App) : App :=
  {| screenshot_history := screenshot_history s;
     screenshot_selector := screenshot_selector s;
     pending_prompt := pending_prompt s;
     current_prompt_index := current_prompt_index s;
     overlay := overlay s;
     provider_radios := provider_radios s;
     current_prompt_label := current_prompt_label s;
     config_manager := v;
     trace := trace s |}.

Definition add_effect (e : Effect) (s : App) : App :=
  {| screenshot_history := screenshot_history s;
     screenshot_selector := screenshot_selector s;
     pending_prompt := pending_prompt s;
     current_prompt_index := current_prompt_index s;
     overlay := overlay s;
     provider_radios := provider_radios s;
     current_prompt_label := current_prompt_label s;
     config_manager := config_manager s;
     trace := e :: trace s |}.

(** ** Method bodies: state and exceptions *)

Inductive Outcome (A : Type) :=
| Returned (a : A)
| Raised (e : Exn).
Arguments Returned {A} a.
Arguments Raised {A} e.

(** A method body: runs on the object, changes it, and returns or raises.
    What it did to the object before raising stays done. *)
Definition Py (A : Type) : Type := App -> Outcome A * App.

Definition ret {A} (a : A) : Py A := fun s => (Returned a, s).

Definition raise {A} (e : Exn) : Py A := fun s => (Raised e, s).

Definition bind {A B} (m : Py A) (k : A -> Py B) : Py B :=
  fun s =>
    match m s with
    | (Returned a, s') => k a s'
    | (Raised e, s') => (Raised e, s')
    end.

Declare Scope py_scope.
Delimit Scope py_scope with py.
Notation "x <- y ; z" := (bind y (fun x => z))
  (at level 20, y at level 100, z at level 200, only parsing) : py_scope.
Notation "y ;; z" := (bind y (fun _ => z))
  (at level 100, z at level 200, only parsing, right associativity) : py_scope.
Local Open Scope py_scope.

(** [try: body except Exception as e: handler] *)
Definition try_except {A} (body : Py A) (handler : Exn -> Py A) : Py A :=
  fun s =>
    match body s with
    | (Returned a, s') => (Returned a, s')
    | (Raised e, s') => handler e s'
    end.

(** [try: body finally: final] *)
Definition try_finally {A} (body : Py A) (final : Py unit) : Py A :=
  fun s =>
    let '(r, s') := body s in
    match final s' with
    | (Returned _, s'') => (r, s'')
    | (Raised e, s'') => (Raised e, s'')
    end.

Definition read {A} (f : App -> A) : Py A := fun s => (Returned (f s), s).

Definition update (f : App -> App) : Py unit := fun s => (Returned tt, f s).

Definition effect (e : Effect) : Py unit := update (add_effect e).

(** The result of a collaborator that may raise. *)
Definition lift {A} (o : Outcome A) : Py A := fun s => (o, s).

Definition add_log (m : LogMsg) (lvl : Level) : Py unit := effect (Log m lvl).

(** [config_manager.get(key, default)] and [config_manager.set(key, v)] *)
Definition config_get {A} (field : Config -> option A) (dflt : A) : Py A :=
  read (fun s => default dflt (field (config_manager s))).

Definition config_set (setter : Config -> Config) : Py unit :=
  update (fun s => set_config_manager (setter (config_manager s)) s).

(** [self.overlay.m(...)]: an [AttributeError] while the overlay is [None]. *)
Definition overlay_call (attr : string) (e : Effect) : Py unit :=
  present <- read overlay;
  if present then effect e else raise (AttributeError attr).

(** [d[key]] *)
Definition getitem (d : Prompt) (key : string) : Py string :=
  match d !! key with
  | Some v => ret v
  | None => raise (KeyError key)
  end.

(** ** The world outside the application object *)

(** How starting the interactive selector turns out. *)
Inductive SelectorLaunch :=
| SelectorShown                       (* start_capture() returned *)
| SelectorCtorRaises (e : Exn)        (* ScreenshotSelector() raised *)
| SelectorStartRaises (e : Exn).      (* start_capture() raised *)

(** A provider service: [analyze_images(images, text)]. *)
Definition Service := list bytes -> string -> Outcome (option string).

(** The constants of [ai_assistant.utils.constants] and the collaborators
    the methods call.  None of them is among the sources at hand; the
    methods are embedded over every value they may take. *)
Record World := {
  MAX_SCREENSHOT_HISTORY : nat;
  use_selector : bool;                  (* SCREENSHOT_MODE.get("use_selector", True) *)
  capture_screen : Outcome bytes;
  selector_launch : SelectorLaunch;
  get_service : string -> Outcome Service;
  extract_code_blocks : string -> Outcome string;
  copy_to_clipboard : string -> Outcome bool;
  md5_hexdigest8 : string -> string;
  markdown_render : string -> Outcome string;
  toast_show_message : string -> Outcome unit
}.

(** ** The screenshot history *)

(** [self.screenshot_history.pop(0)] *)
Definition history_pop0 : Py bytes :=
  h <- read screenshot_history;
  match h with
  | [] => raise IndexError
  | removed :: rest => update (set_screenshot_history rest);; ret removed
  end.

(** [self.screenshot_history.append(png)] *)
Definition history_append (png : bytes) : Py unit :=
  update (fun s => set_screenshot_history (screenshot_history s ++ [png]) s).

Definition save_screenshot_to_history (w : World) (png : bytes) : Py unit :=
  try_except
    (h <- read screenshot_history;
     (if (MAX_SCREENSHOT_HISTORY w <=? length h)%nat
      then (_ <- history_pop0;
            add_log (Log_history_limit (MAX_SCREENSHOT_HISTORY w)) INFO)
      else ret tt);;
     history_append png;;
     h' <- read screenshot_history;
     add_log (Log_history_saved (length h') (total_size h')) INFO)
    (fun e => add_log (Log_screenshot_save_failed e) ERROR).

Definition clear_screenshot_history : Py unit :=
  try_except
    (h <- read screenshot_history;
     match h with
     | [] => add_log Log_history_empty INFO
     | _ :: _ =>
         update (set_screenshot_history []);;
         effect GcCollect;;
         add_log (Log_history_cleared (length h) (total_size h)) INFO
     end)
    (fun e => add_log (Log_history_clear_failed e) ERROR).

Definition _cleanup_screenshot_history : Py unit :=
  try_except
    (h <- read screenshot_history;
     match h with
     | [] => ret tt
     | _ :: _ =>
         update (set_screenshot_history []);;
         effect GcCollect;;
         add_log (Log_cleanup_done (length h) (total_size h)) INFO
     end)
    (fun e => add_log (Log_cleanup_failed e) WARNING).

(** ** Dispatch to the provider *)

Definition _async_api_worker (w : World)
    (all_images : list bytes) (prompt : Prompt) (provider : string) : Py unit :=
  try_finally
    (try_except
       (service <- lift (get_service w provider);
        content <- getitem prompt "content";
        md <- lift (service all_images content);
        match md with
        | Some text =>
            if str_truthy text then effect (EmitApiResponse text)
            else effect (EmitApiResponse "API调用失败，未获得响应")
        | None => effect (EmitApiResponse "API调用失败，未获得响应")
        end)
       (fun e =>
          let error_msg := "API调用异常: " +:+ exn_str e in
          add_log (Log_text error_msg) ERROR;;
          effect (EmitApiResponse ("错误: " +:+ error_msg))))
    (effect SingleShotCleanup).

(** The worker thread is started here; its body, [_async_api_worker], runs
    later, on that thread. *)
Definition _start_async_api_request
    (all_images : list bytes) (prompt : Prompt) (provider : string) : Py unit :=
  effect (ThreadStart all_images prompt provider).

Definition process_prompt_with_screenshot
    (current_png : bytes) (prompt : Prompt) : Py unit :=
  try_except
    (h <- read screenshot_history;
     add_log (Log_history_count (length h)) INFO;;
     add_log (Log_current_size (length current_png)) INFO;;
     let all_images := h ++ [current_png] in
     provider <- config_get cfg_provider "Gemini";
     add_log (Log_using_provider provider) INFO;;
     add_log (Log_sending (length all_images) provider (total_size all_images)) INFO;;
     _start_async_api_request all_images prompt provider)
    (fun e =>
       add_log (Log_prompt_failed e) ERROR;;
       overlay_call "handle_response"
         (OverlayHandleResponse ("错误: " +:+ exn_str e))).

Definition trigger_prompt (w : World) (prompt : Prompt) : Py unit :=
  try_except
    (name <- getitem prompt "name";
     add_log (Log_trigger name) INFO;;
     if use_selector w then
       update (set_pending_prompt (Some prompt));;
       effect (EmitTriggerScreenshot true)
     else
       effect CaptureScreen;;
       current_png <- lift (capture_screen w);
       add_log Log_screen_captured INFO;;
       process_prompt_with_screenshot current_png prompt)
    (fun e => add_log (Log_prompt_failed e) ERROR).

(** ** Prompt selection *)

(** [prompt.get('name', <numbered default>)] *)
Definition prompt_name (prompt : Prompt) (number : Z) : PromptName :=
  match prompt !! "name" with
  | Some n => Named n
  | None => Numbered number
  end.

(** [0 <= index < len(prompts)] *)
Definition index_in_range (index : Z) (prompts : list Prompt) : bool :=
  (0 <=? index)%Z && (index <? Z.of_nat (length prompts))%Z.

(** [prompts[index]] for a non-negative index *)
Definition prompts_getitem (prompts : list Prompt) (index : Z) : Py Prompt :=
  match prompts !! Z.to_nat index with
  | Some p => ret p
  | None => raise IndexError
  end.

Definition send_current_prompt (w : World) : Py unit :=
  try_except
    (prompts <- config_get cfg_prompts [];
     match prompts with
     | [] => add_log Log_no_prompts WARNING
     | first :: _ =>
         index <- read current_prompt_index;
         if index_in_range index prompts then
           current_prompt <- prompts_getitem prompts index;
           add_log (Log_send_prompt (index + 1)
                      (prompt_name current_prompt (index + 1))) INFO;;
           trigger_prompt w current_prompt
         else
           update (set_current_prompt_index 0);;
           config_set (cfg_set_current_prompt_index 0);;
           add_log (Log_index_reset_send (prompt_name first 1)) INFO;;
           trigger_prompt w first
     end)
    (fun e => add_log (Log_send_prompt_failed e) ERROR).

(** [if hasattr(self, 'current_prompt_label'): ...setText(t)] *)
Definition set_label (t : LabelText) : Py unit :=
  has <- read current_prompt_label;
  if has then effect (SetPromptLabel t) else ret tt.

Definition update_current_prompt_display : Py unit :=
  try_except
    (prompts <- config_get cfg_prompts [];
     match prompts with
     | [] => set_label Label_no_prompts
     | first :: _ =>
         index <- read current_prompt_index;
         display_text <-
           (if index_in_range index prompts then
              prompt <- prompts_getitem prompts index;
              ret (Label_current (index + 1) (prompt_name prompt (index + 1)))
            else
              update (set_current_prompt_index 0);;
              if prompt_truthy (Some first)
              then ret (Label_current 1 (prompt_name first 1))
              else ret Label_no_prompts);
         set_label display_text
     end)
    (fun e =>
       add_log (Log_display_failed e) ERROR;;
       set_label Label_error).

(** ** Toggles *)

Definition handle_toggle_overlay : Py unit :=
  present <- read overlay;
  if present then effect OverlayToggle
  else add_log Log_overlay_missing WARNING.

(** Checking the radio button of the new provider is recorded as a call; the
    button's own handler stores the provider it is labelled with, the value
    the configuration already holds at that point. *)
Definition handle_toggle_provider (w : World) : Py unit :=
  try_except
    (current_provider <- config_get cfg_provider "Gemini";
     let new_provider :=
       if decide (current_provider = "Gemini") then "GPT" else "Gemini" in
     config_set (cfg_set_provider new_provider);;
     radios <- read provider_radios;
     match radios with
     | Some keys =>
         if decide (new_provider ∈ keys)
         then effect (RadioSetChecked new_provider)
         else ret tt
     | None => ret tt
     end;;
     try_except
       (effect (ToastShow new_provider);;
        lift (toast_show_message w new_provider))
       (fun toast_error => add_log (Log_toast_failed toast_error) WARNING);;
     add_log (Log_provider_switched new_provider) INFO)
    (fun e => add_log (Log_provider_switch_failed e) ERROR).

(** ** Capture *)

Definition capture_screenshot_only (w : World) : Py unit :=
  try_except
    (if use_selector w then
       update (set_pending_prompt None);;
       effect (EmitTriggerScreenshot false)
     else
       effect CaptureScreen;;
       png <- lift (capture_screen w);
       save_screenshot_to_history w png)
    (fun e => add_log (Log_screenshot_save_failed e) ERROR).

(** [self.screenshot_selector = ScreenshotSelector()], connecting its
    signals, and [start_capture()]. *)
Definition launch_selector (w : World) (k : SelectorKind) : Py unit :=
  match selector_launch w with
  | SelectorCtorRaises e => raise e
  | SelectorStartRaises e =>
      update (set_screenshot_selector (Some k));; raise e
  | SelectorShown =>
      update (set_screenshot_selector (Some k));; effect (SelectorStart k)
  end.

(** [if self.screenshot_selector: close, and forget it] *)
Definition close_selector : Py unit :=
  sel <- read screenshot_selector;
  match sel with
  | Some _ => effect SelectorClose;; update (set_screenshot_selector None)
  | None => ret tt
  end.

Definition start_smart_screenshot (w : World) : Py unit :=
  try_except
    (launch_selector w ForPrompt)
    (fun e =>
       add_log (Log_selector_failed e) ERROR;;
       pending <- read pending_prompt;
       match pending with
       | Some prompt =>
           if prompt_truthy pending then
             effect CaptureScreen;;
             png <- lift (capture_screen w);
             process_prompt_with_screenshot png prompt
           else ret tt
       | None => ret tt
       end).

Definition on_screenshot_taken (png_data : bytes) : Py unit :=
  add_log Log_selector_done INFO;;
  close_selector;;
  pending <- read pending_prompt;
  match pending with
  | Some prompt =>
      if prompt_truthy pending then
        process_prompt_with_screenshot png_data prompt;;
        update (set_pending_prompt None)
      else ret tt
  | None => ret tt
  end.

Definition on_screenshot_cancelled : Py unit :=
  add_log Log_selector_cancelled INFO;;
  close_selector;;
  update (set_pending_prompt None).

Definition start_smart_screenshot_only (w : World) : Py unit :=
  try_except
    (launch_selector w ForHistory)
    (fun e =>
       add_log (Log_selector_failed e) ERROR;;
       effect CaptureScreen;;
       png <- lift (capture_screen w);
       save_screenshot_to_history w png).

Definition on_screenshot_only_taken (w : World) (png_data : bytes) : Py unit :=
  add_log Log_selector_only_done INFO;;
  close_selector;;
  save_screenshot_to_history w png_data.

Definition handle_screenshot_in_main_thread (w : World) (with_prompt : bool) : Py unit :=
  if with_prompt then start_smart_screenshot w
  else start_smart_screenshot_only w.

(** ** Responses *)

Definition red_paragraph (text : string) : string :=
  "<p style='color: red;'>" +:+ text +:+ "</p>".

Definition handle_api_response (w : World) (response : string) : Py unit :=
  try_except
    (if String.prefix "错误:" response then
       add_log (Log_text response) ERROR;;
       overlay_call "handle_response" (OverlayHandleResponse (red_paragraph response))
     else
       add_log (Log_response_begin (py_len response)) INFO;;
       effect (ExtractCodeBlocks response);;
       code_blocks <- lift (extract_code_blocks w response);
       (if str_truthy code_blocks then
          let content_hash := md5_hexdigest8 w code_blocks in
          effect (CopyToClipboard code_blocks);;
          copied <- lift (copy_to_clipboard w code_blocks);
          if copied : bool
          then add_log (Log_code_copied (py_len code_blocks) content_hash) INFO
          else add_log Log_clipboard_failed WARNING
        else
          add_log Log_no_code_block INFO;;
          let preview :=
            if str_truthy response && (200 <? py_len response)%nat
            then py_take 200 response +:+ "..."
            else response in
          add_log (Log_response_preview preview) INFO);;
       effect (MarkdownRender response);;
       html <- lift (markdown_render w response);
       overlay_call "handle_response" (OverlayHandleResponse html);;
       add_log Log_response_shown INFO)
    (fun e =>
       let error_msg := "处理API响应失败: " +:+ exn_str e in
       add_log (Log_text error_msg) ERROR;;
       overlay_call "handle_response" (OverlayHandleResponse (red_paragraph error_msg))).

(** ** Streaming *)

(** The source's comment on this method: it no longer copies code, to avoid
    doing it twice; it only logs the length. *)
Definition _process_complete_response (md_content : string) : Py unit :=
  try_except
    (add_log (Log_stream_processed (py_len md_content)) INFO)
    (fun e => add_log (Log_stream_process_failed e) ERROR).

(** Runs a method body and hands its outcome to the caller, so that the
    caller's local variables survive an exception. *)
Definition reify {A} (m : Py A) : Py (Outcome A) :=
  fun s => let '(r, s') := m s in (Returned r, s').

(** A response stream: what each [next()] of the generator gives, an item
    [(chunk_text, is_complete)] or an exception; the end of the list is the
    end of the iteration. *)
Definition Stream := list (Outcome (string * bool)).

(** The [for] loop of [_handle_streaming_response], from the given values of
    the locals [full_response] and [chunk_count].  It returns [full_response]
    as the loop leaves it, and whether the loop was left by an exception. *)
Fixpoint stream_loop (response_stream : Stream)
    (full_response : string) (chunk_count : nat) : Py (string * Outcome unit) :=
  match response_stream with
  | [] => ret (full_response, Returned tt)
  | Raised e :: _ => ret (full_response, Raised e)
  | Returned (chunk_text, is_complete) :: rest =>
      let chunk_count := S chunk_count in
      add_log (Log_chunk chunk_count is_complete) INFO;;
      if is_complete then
        r <- reify (add_log (Log_stream_end (py_len full_response)) INFO;;
                    overlay_call "finish_streaming" OverlayFinishStreaming;;
                    _process_complete_response full_response);
        ret (full_response, r)
      else
        let full_response := full_response +:+ chunk_text in
        r <- reify (add_log (Log_chunk_appended (py_take 50 chunk_text)) INFO;;
                    overlay_call "content_chunk" (OverlayContentChunk chunk_text));
        match r with
        | Raised e => ret (full_response, Raised e)
        | Returned _ => stream_loop rest full_response chunk_count
        end
  end.

(** The [except] clause of [_handle_streaming_response]; [full_response] is
    [None] while the local is not bound yet. *)
Definition streaming_failed (w : World)
    (full_response : option string) (e : Exn) : Py unit :=
  overlay_call "finish_streaming" OverlayFinishStreaming;;
  add_log (Log_stream_failed e) ERROR;;
  match full_response with
  | Some text =>
      if str_truthy text then
        effect (MarkdownRender text);;
        html <- lift (markdown_render w text);
        overlay_call "handle_response" (OverlayHandleResponse html)
      else ret tt
  | None => ret tt
  end.

Definition _handle_streaming_response (w : World) (response_stream : Stream) : Py unit :=
  started <- reify (overlay_call "start_streaming" OverlayStartStreaming;;
                    add_log Log_stream_begin INFO);
  match started with
  | Raised e => streaming_failed w None e
  | Returned _ =>
      left <- stream_loop response_stream "" 0;
      match left with
      | (full_response, Raised e) => streaming_failed w (Some full_response) e
      | (_, Returned _) => ret tt
      end
  end.

(** ** Running methods, and reading traces *)

(** The object after a method ran on it, and how the method ended. *)
Definition run {A} (m : Py A) (s : App) : App := snd (m s).

Definition outcome {A} (m : Py A) (s : App) : Outcome A := fst (m s).

(** The object as [__init__] leaves it. *)
Definition initial_app (cfg : Config) : App :=
  {| screenshot_history := [];
     screenshot_selector := None;
     pending_prompt := None;
     current_prompt_index := default 0%Z (cfg_current_prompt_index cfg);
     overlay := false;
     provider_radios := None;
     current_prompt_label := false;
     config_manager := cfg;
     trace := [] |}.

(** Saving the images [pngs] to the history, one call after the other. *)
Definition save_all (w : World) (pngs : list bytes) (s : App) : App :=
  fold_left (fun s png => run (save_screenshot_to_history w png) s) pngs s.

(** The last [n] elements of a list, in the order of the list. *)
Definition last_n {A} (n : nat) (l : list A) : list A :=
  drop (length l - n) l.

(** How many recorded calls satisfy [p]. *)
Fixpoint count_effects (p : Effect -> bool) (l : list Effect) : nat :=
  match l with
  | [] => 0
  | e :: rest => (if p e then 1 else 0) + count_effects p rest
  end.

Definition is_api_response (e : Effect) : bool :=
  match e with EmitApiResponse _ => true | _ => false end.

Definition is_capture_screen (e : Effect) : bool :=
  match e with CaptureScreen => true | _ => false end.

Definition is_thread_start (e : Effect) : bool :=
  match e with ThreadStart _ _ _ => true | _ => false end.

Definition is_extract_or_copy (e : Effect) : bool :=
  match e with ExtractCodeBlocks _ | CopyToClipboard _ => true | _ => false end.

(** The history a call of [save_screenshot_to_history] leaves, as a function
    of the history it finds. *)
Definition pushed (limit : nat) (h : list bytes) (png : bytes) : list bytes :=
  if (limit <=? length h)%nat
  then match h with [] => [] | _ :: rest => rest ++ [png] end
  else h ++ [png].

(** The provider adapter fails with [e] on a request: [get_service] raises
    it, or the service it returns raises it when asked to analyse. *)
Definition provider_raises (w : World)
    (all_images : list bytes) (prompt : Prompt) (provider : string) (e : Exn) : Prop :=
  get_service w provider = Raised e
  \/ exists service content,
       get_service w provider = Returned service
       /\ prompt !! "content" = Some content
       /\ service all_images content = Raised e.

(** The response string the worker emits for an exception. *)
Definition failure_response (e : Exn) : string :=
  "错误: " +:+ ("API调用异常: " +:+ exn_str e).

(** The chunks of a stream, joined in the order of arrival. *)
Definition join (chunks : list string) : string :=
  fold_right String.append "" chunks.

(** A stream that yields the given chunks, then the completion item, and
    whatever the generator would yield after it. *)
Definition chunks_then_complete
    (chunks : list string) (last_text : string) (after : Stream) : Stream :=
  map (fun c => Returned (c, false)) chunks ++ Returned (last_text, true) :: after.

Definition is_finish_streaming (e : Effect) : bool :=
  match e with OverlayFinishStreaming => true | _ => false end.

Definition is_stream_processed (e : Effect) : bool :=
  match e with Log (Log_stream_processed _) _ => true | _ => false end.

(** A world whose provider adapter raises on every request. *)
Definition offline_world : World :=
  {| MAX_SCREENSHOT_HISTORY := 3;
     use_selector := true;
     capture_screen := Returned [Byte.x50; Byte.x4e; Byte.x47];
     selector_launch := SelectorShown;
     get_service := fun _ =>
       Returned (fun _ _ => Raised (CollaboratorError "quota exceeded"));
     extract_code_blocks := fun _ => Returned "";
     copy_to_clipboard := fun _ => Returned true;
     md5_hexdigest8 := fun _ => "d41d8cd9";
     markdown_render := fun text => Returned ("<p>" +:+ text +:+ "</p>");
     toast_show_message := fun _ => Returned tt |}.

(** The provider a dispatch would read: [config_manager.get("provider", "Gemini")]. *)
Definition configured_provider (s : App) : string :=
  default "Gemini" (cfg_provider (config_manager s)).

(** ** Sample worlds and values, for evaluating the methods *)

Definition echo_service : Service :=
  fun _ text => Returned (Some text).

(** A world in which every collaborator does its work. *)
Definition calm_world (limit : nat) (selector : bool) : World :=
  {| MAX_SCREENSHOT_HISTORY := limit;
     use_selector := selector;
     capture_screen := Returned [Byte.x50; Byte.x4e; Byte.x47];
     selector_launch := SelectorShown;
     get_service := fun _ => Returned echo_service;
     extract_code_blocks := fun _ => Returned "";
     copy_to_clipboard := fun _ => Returned true;
     md5_hexdigest8 := fun _ => "d41d8cd9";
     markdown_render := fun text => Returned ("<p>" +:+ text +:+ "</p>");
     toast_show_message := fun _ => Returned tt |}.

(** A world in which neither the selector nor the screen capture works. *)
Definition blind_world : World :=
  {| MAX_SCREENSHOT_HISTORY := 3;
     use_selector := true;
     capture_screen := Raised (CollaboratorError "screen grab failed");
     selector_launch := SelectorStartRaises (CollaboratorError "no display");
     get_service := fun _ => Returned echo_service;
     extract_code_blocks := fun _ => Returned "";
     copy_to_clipboard := fun _ => Returned true;
     md5_hexdigest8 := fun _ => "d41d8cd9";
     markdown_render := fun text => Returned ("<p>" +:+ text +:+ "</p>");
     toast_show_message := fun _ => Returned tt |}.

(** A world in which the selector cannot start but the screen capture works. *)
Definition no_selector_world : World :=
  {| MAX_SCREENSHOT_HISTORY := 3;
     use_selector := true;
     capture_screen := Returned [Byte.x50; Byte.x4e; Byte.x47];
     selector_launch := SelectorStartRaises (CollaboratorError "no display");
     get_service := fun _ => Returned echo_service;
     extract_code_blocks := fun _ => Returned "";
     copy_to_clipboard := fun _ => Returned true;
     md5_hexdigest8 := fun _ => "d41d8cd9";
     markdown_render := fun text => Returned ("<p>" +:+ text +:+ "</p>");
     toast_show_message := fun _ => Returned tt |}.

Definition image_A : bytes := [Byte.x41].
Definition image_B : bytes := [Byte.x42].
Definition image_C : bytes := [Byte.x43].
Definition image_D : bytes := [Byte.x44].

Definition prompt_explain : Prompt :=
  <["name" := "explain"]> (<["content" := "Explain this code"]> ∅).

Definition prompt_fix : Prompt :=
  <["name" := "fix"]> (<["content" := "Fix this code"]> ∅).

Definition empty_config : Config :=
  {| cfg_provider := None; cfg_prompts := None; cfg_current_prompt_index := None |}.

(** The object once listening has started: the overlay exists. *)
Definition listening_app (cfg : Config) : App :=
  {| screenshot_history := [];
     screenshot_selector := None;
     pending_prompt := None;
     current_prompt_index := default 0%Z (cfg_current_prompt_index cfg);
     overlay := true;
     provider_radios := None;
     current_prompt_label := true;
     config_manager := cfg;
     trace := [] |}.

(** ** Switching the current prompt *)

(** [str(n)] for an integer *)
Definition str_of_Z (z : Z) : string := NilZero.string_of_int (Z.to_int z).

(** [prompt.get('name', f'提示词{number}')], as the text it is *)
Definition prompt_name_text (prompt : Prompt) (number : Z) : string :=
  match prompt !! "name" with
  | Some n => n
  | None => "提示词" +:+ str_of_Z number
  end.

(** The messages of [switch_prompt] are kept as the texts the f-strings
    build; the toast is recorded with its whole message. *)
Definition switch_prompt (w : World) (index : Z) : Py unit :=
  try_except
    (prompts <- config_get cfg_prompts [];
     if index_in_range index prompts then
       update (set_current_prompt_index index);;
       config_set (cfg_set_current_prompt_index index);;
       prompt <- prompts_getitem prompts index;
       let name := prompt_name_text prompt (index + 1) in
       add_log (Log_text ("🔄 切换到提示词 " +:+ str_of_Z (index + 1) +:+ ": " +:+ name)) INFO;;
       update_current_prompt_display;;
       try_except
         (let message := "📝 提示词 " +:+ str_of_Z (index + 1) +:+ ": " +:+ name in
          effect (ToastShow message);;
          lift (toast_show_message w message))
         (fun toast_error => add_log (Log_toast_failed toast_error) WARNING)
     else
       add_log (Log_text ("⚠️ 提示词索引 " +:+ str_of_Z (index + 1) +:+ " 超出范围")) WARNING)
    (fun e => add_log (Log_text ("切换提示词失败: " +:+ exn_str e)) ERROR).

(** ** Validating the basic settings *)

(** The per-provider part of the settings dictionary that
    [_read_basic_settings] collects from the form. *)
Record ProviderSettings := {
  api_key : string;
  base_url : string;
  use_proxy : bool;
  model : string
}.

Record BasicSettings := {
  bs_provider : option string;     (* [None] while no radio button is checked *)
  bs_proxy : string;
  bs_background_opacity : Z;
  bs_show_log_tab : bool;
  bs_gemini : ProviderSettings;
  bs_gpt : ProviderSettings
}.

(** [_validate_basic_settings]: whether the settings pass, and the title and
    text of the message otherwise.  [validate_proxy_url] is
    [NetworkUtils.validate_proxy_url], which is not among the sources at hand. *)
Definition _validate_basic_settings
    (validate_proxy_url : string -> bool * string) (settings : BasicSettings)
    : bool * option string * option string :=
  if negb (opt_str_truthy (bs_provider settings)) then
    (false, Some "选择错误", Some "请选择一个AI服务商")
  else
    let provider := default "" (bs_provider settings) in
    let gemini := bs_gemini settings in
    let gpt := bs_gpt settings in
    let provider_error :=
      if decide (provider = "Gemini") then
        if negb (str_truthy (api_key gemini)) then Some "请输入 Gemini API Key"
        else if negb (str_truthy (base_url gemini)) then Some "请输入 Gemini Base URL"
        else None
      else if decide (provider = "GPT") then
        if negb (str_truthy (api_key gpt)) then Some "请输入 GPT API Key"
        else if negb (str_truthy (base_url gpt)) then Some "请输入 GPT Base URL"
        else None
      else None in
    match provider_error with
    | Some message => (false, Some "输入错误", Some message)
    | None =>
        let proxy := bs_proxy settings in
        if str_truthy proxy then
          let '(valid, error) := validate_proxy_url proxy in
          if valid then (true, None, None)
          else (false, Some "代理设置错误", Some error)
        else (true, None, None)
    end.

(** What [_validate_basic_settings] accepts, spelled out. *)
Definition settings_acceptable
    (validate_proxy_url : string -> bool * string) (settings : BasicSettings) : Prop :=
  exists provider,
    bs_provider settings = Some provider
    /\ provider <> ""
    /\ (provider = "Gemini" ->
        api_key (bs_gemini settings) <> "" /\ base_url (bs_gemini settings) <> "")
    /\ (provider = "GPT" ->
        api_key (bs_gpt settings) <> "" /\ base_url (bs_gpt settings) <> "")
    /\ (bs_proxy settings <> "" ->
        fst (validate_proxy_url (bs_proxy settings)) = true).

(** ** The prompt manager (ui/prompt_manager.py) *)

Definition cfg_set_prompts (v : list Prompt) (c : Config) : Config :=
  {| cfg_provider := cfg_provider c;
     cfg_prompts := Some v;
     cfg_current_prompt_index := cfg_current_prompt_index c |}.

(** Message boxes and log lines of the widget. *)
Inductive PmEffect :=
| PmWarning (title text : string)        (* QMessageBox.warning *)
| PmInformation (title text : string)    (* QMessageBox.information *)
| PmQuestion (title text : string)       (* QMessageBox.question *)
| PmLog (message : string).              (* log_manager.add_log *)

(** The [PromptManagerWidget]: the configuration it shares with the
    application, its combo box (item text and item data, and the current
    index, [-1] for none), its three edit fields and the character count it
    displays. *)
Record PromptManagerWidget := {
  pm_config : Config;
  prompts_combo : list (string * Prompt);
  combo_index : Z;
  prompt_name_edit : string;
  prompt_hotkey_edit : string;
  prompt_content_edit : string;
  char_count_label : nat;
  pm_trace : list PmEffect                 (* newest first *)
}.

Definition Ui (A : Type) : Type :=
  PromptManagerWidget -> Outcome A * PromptManagerWidget.

Definition uret {A} (a : A) : Ui A := fun s => (Returned a, s).

Definition uraise {A} (e : Exn) : Ui A := fun s => (Raised e, s).

Definition ubind {A B} (m : Ui A) (k : A -> Ui B) : Ui B :=
  fun s =>
    match m s with
    | (Returned a, s') => k a s'
    | (Raised e, s') => (Raised e, s')
    end.

Declare Scope ui_scope.
Delimit Scope ui_scope with ui.
Notation "x <- y ; z" := (ubind y (fun x => z))
  (at level 20, y at level 100, z at level 200, only parsing) : ui_scope.
Notation "y ;; z" := (ubind y (fun _ => z))
  (at level 100, z at level 200, only parsing, right associativity) : ui_scope.
Local Open Scope ui_scope.

Definition uread {A} (f : PromptManagerWidget -> A) : Ui A :=
  fun s => (Returned (f s), s).

Definition uupdate (f : PromptManagerWidget -> PromptManagerWidget) : Ui unit :=
  fun s => (Returned tt, f s).

Definition pm_set_config (v : Config) (s : PromptManagerWidget) : PromptManagerWidget :=
  {| pm_config := v;
     prompts_combo := prompts_combo s;
     combo_index := combo_index s;
     prompt_name_edit := prompt_name_edit s;
     prompt_hotkey_edit := prompt_hotkey_edit s;
     prompt_content_edit := prompt_content_edit s;
     char_count_label := char_count_label s;
     pm_trace := pm_trace s |}.

Definition pm_set_combo (items : list (string * Prompt)) (index : Z)
    (s : PromptManagerWidget) : PromptManagerWidget :=
  {| pm_config := pm_config s;
     prompts_combo := items;
     combo_index := index;
     prompt_name_edit := prompt_name_edit s;
     prompt_hotkey_edit := prompt_hotkey_edit s;
     prompt_content_edit := prompt_content_edit s;
     char_count_label := char_count_label s;
     pm_trace := pm_trace s |}.

Definition pm_set_name (v : string) (s : PromptManagerWidget) : PromptManagerWidget :=
  {| pm_config := pm_config s;
     prompts_combo := prompts_combo s;
     combo_index := combo_index s;
     prompt_name_edit := v;
     prompt_hotkey_edit := prompt_hotkey_edit s;
     prompt_content_edit := prompt_content_edit s;
     char_count_label := char_count_label s;
     pm_trace := pm_trace s |}.

Definition pm_set_hotkey (v : string) (s : PromptManagerWidget) : PromptManagerWidget :=
  {| pm_config := pm_config s;
     prompts_combo := prompts_combo s;
     combo_index := combo_index s;
     prompt_name_edit := prompt_name_edit s;
     prompt_hotkey_edit := v;
     prompt_content_edit := prompt_content_edit s;
     char_count_label := char_count_label s;
     pm_trace := pm_trace s |}.

Definition pm_set_content (v : string) (s : PromptManagerWidget) : PromptManagerWidget :=
  {| pm_config := pm_config s;
     prompts_combo := prompts_combo s;
     combo_index := combo_index s;
     prompt_name_edit := prompt_name_edit s;
     prompt_hotkey_edit := prompt_hotkey_edit s;
     prompt_content_edit := v;
     char_count_label := char_count_label s;
     pm_trace := pm_trace s |}.

Definition pm_set_char_count (v : nat) (s : PromptManagerWidget) : PromptManagerWidget :=
  {| pm_config := pm_config s;
     prompts_combo := prompts_combo s;
     combo_index := combo_index s;
     prompt_name_edit := prompt_name_edit s;
     prompt_hotkey_edit := prompt_hotkey_edit s;
     prompt_content_edit := prompt_content_edit s;
     char_count_label := v;
     pm_trace := pm_trace s |}.

Definition pm_add_effect (e : PmEffect) (s : PromptManagerWidget) : PromptManagerWidget :=
  {| pm_config := pm_config s;
     prompts_combo := prompts_combo s;
     combo_index := combo_index s;
     prompt_name_edit := prompt_name_edit s;
     prompt_hotkey_edit := prompt_hotkey_edit s;
     prompt_content_edit := prompt_content_edit s;
     char_count_label := char_count_label s;
     pm_trace := e :: pm_trace s |}.

Definition ueffect (e : PmEffect) : Ui unit := uupdate (pm_add_effect e).

(** [d[key]] in a widget method *)
Definition ugetitem (d : Prompt) (key : string) : Ui string :=
  match d !! key with
  | Some v => uret v
  | None => uraise (KeyError key)
  end.

(** [self.config_manager.get("prompts", [])] *)
Definition pm_get_prompts : Ui (list Prompt) :=
  uread (fun s => default [] (cfg_prompts (pm_config s))).

(** [self.config_manager.set("prompts", prompts)] *)
Definition pm_store_prompts (prompts : list Prompt) : Ui unit :=
  uupdate (fun s => pm_set_config (cfg_set_prompts prompts (pm_config s)) s).

Definition update_char_count : Ui unit :=
  content <- uread prompt_content_edit;
  uupdate (pm_set_char_count (py_len content)).

Definition clear_prompt_fields : Ui unit :=
  uupdate (pm_set_name "");;
  uupdate (pm_set_hotkey "");;
  uupdate (pm_set_content "");;
  update_char_count.

(** [if prompt:] on the item data of a combo box entry *)
Definition on_prompt_selected (index : Z) : Ui unit :=
  if (0 <=? index)%Z then
    items <- uread prompts_combo;
    match snd <$> (items !! Z.to_nat index) with
    | Some prompt =>
        if prompt_truthy (Some prompt) then
          name <- ugetitem prompt "name";
          uupdate (pm_set_name name);;
          hotkey <- ugetitem prompt "hotkey";
          uupdate (pm_set_hotkey hotkey);;
          content <- ugetitem prompt "content";
          uupdate (pm_set_content content);;
          update_char_count
        else uret tt
    | None => uret tt
    end
  else uret tt.

(** The loop of [load_prompts_list] that fills the combo box. *)
Fixpoint add_items (prompts : list Prompt) : Ui unit :=
  match prompts with
  | [] => uret tt
  | prompt :: rest =>
      name <- ugetitem prompt "name";
      hotkey <- ugetitem prompt "hotkey";
      let item_text := name +:+ " (" +:+ hotkey +:+ ")" in
      uupdate (fun s => pm_set_combo (prompts_combo s ++ [(item_text, prompt)])
                          (combo_index s) s);;
      add_items rest
  end.

(** The combo box has a placeholder text, so filling it selects nothing;
    its index-changed signal is connected to [on_prompt_selected], which
    therefore also runs when [setCurrentIndex(0)] changes the index, with the
    index the explicit call passes. *)
Definition load_prompts_list : Ui unit :=
  uupdate (pm_set_combo [] (-1));;
  prompts <- pm_get_prompts;
  add_items prompts;;
  match prompts with
  | _ :: _ =>
      uupdate (fun s => pm_set_combo (prompts_combo s) 0 s);;
      on_prompt_selected 0
  | [] => clear_prompt_fields
  end.

(** [not all([name, hotkey, content])] *)
Definition incomplete (name hotkey content : string) : bool :=
  negb (str_truthy name && str_truthy hotkey && str_truthy content).

Definition new_prompt (name hotkey content : string) : Prompt :=
  <["name" := name]> (<["hotkey" := hotkey]> (<["content" := content]> ∅)).

(** The loop of [add_prompt] over the stored prompts: whether one of them
    has the hotkey. *)
Fixpoint hotkey_taken (prompts : list Prompt) (hotkey : string) : Ui bool :=
  match prompts with
  | [] => uret false
  | prompt :: rest =>
      h <- ugetitem prompt "hotkey";
      if decide (h = hotkey) then uret true else hotkey_taken rest hotkey
  end.

(** [strip] is [str.strip]. *)
Definition add_prompt (strip : string -> string) : Ui unit :=
  name <- uread (fun s => strip (prompt_name_edit s));
  hotkey <- uread (fun s => strip (prompt_hotkey_edit s));
  content <- uread (fun s => strip (prompt_content_edit s));
  if incomplete name hotkey content then
    ueffect (PmWarning "警告" "请填写完整信息")
  else
    prompts <- pm_get_prompts;
    taken <- hotkey_taken prompts hotkey;
    if taken : bool then
      ueffect (PmWarning "警告" "快捷键已存在")
    else
      pm_store_prompts (prompts ++ [new_prompt name hotkey content]);;
      load_prompts_list;;
      clear_prompt_fields;;
      ueffect (PmLog ("添加提示词: " +:+ name));;
      ueffect (PmInformation "成功" ("已添加提示词: " +:+ name)).

(** The loop of [update_prompt]: whether a prompt other than the one at
    [index] has the hotkey; [i] is the position of the head of the list. *)
Fixpoint hotkey_taken_by_other (prompts : list Prompt) (i : Z) (index : Z)
    (hotkey : string) : Ui bool :=
  match prompts with
  | [] => uret false
  | prompt :: rest =>
      if decide (i = index) then hotkey_taken_by_other rest (i + 1) index hotkey
      else
        h <- ugetitem prompt "hotkey";
        if decide (h = hotkey) then uret true
        else hotkey_taken_by_other rest (i + 1) index hotkey
  end.

(** [prompts[index] = value] for a non-negative index *)
Definition setitem (prompts : list Prompt) (index : Z) (value : Prompt)
    : Ui (list Prompt) :=
  if (index <? Z.of_nat (length prompts))%Z
  then uret (<[Z.to_nat index := value]> prompts)
  else uraise IndexError.

Definition update_prompt (strip : string -> string) : Ui unit :=
  index <- uread combo_index;
  if (index <? 0)%Z then
    ueffect (PmWarning "警告" "请先选择要更新的提示词")
  else
    name <- uread (fun s => strip (prompt_name_edit s));
    hotkey <- uread (fun s => strip (prompt_hotkey_edit s));
    content <- uread (fun s => strip (prompt_content_edit s));
    if incomplete name hotkey content then
      ueffect (PmWarning "警告" "请填写完整信息")
    else
      prompts <- pm_get_prompts;
      taken <- hotkey_taken_by_other prompts 0 index hotkey;
      if taken : bool then
        ueffect (PmWarning "警告" "快捷键已存在")
      else
        prompts' <- setitem prompts index (new_prompt name hotkey content);
        pm_store_prompts prompts';;
        load_prompts_list;;
        ueffect (PmLog ("更新提示词: " +:+ name));;
        ueffect (PmInformation "成功" ("已更新提示词: " +:+ name)).

(** [confirmed]: the user answers the question with Yes. *)
Definition delete_prompt (confirmed : bool) : Ui unit :=
  index <- uread combo_index;
  if (index <? 0)%Z then
    ueffect (PmWarning "警告" "请先选择要删除的提示词")
  else
    prompts <- pm_get_prompts;
    if (index <? Z.of_nat (length prompts))%Z then
      match prompts !! Z.to_nat index with
      | Some prompt =>
          name <- ugetitem prompt "name";
          ueffect (PmQuestion "确认" ("确定要删除提示词 '" +:+ name +:+ "' 吗？"));;
          if confirmed then
            pm_store_prompts (delete (Z.to_nat index) prompts);;
            load_prompts_list;;
            clear_prompt_fields;;
            ueffect (PmLog ("删除提示词: " +:+ name));;
            ueffect (PmInformation "成功" ("已删除提示词: " +:+ name))
          else uret tt
      | None => uraise IndexError
      end
    else uret tt.

(** The user picks an entry of the combo box: the index changes and the
    connected [on_prompt_selected] runs. *)
Definition user_selects (index : Z) : Ui unit :=
  uupdate (fun s => pm_set_combo (prompts_combo s) index s);;
  on_prompt_selected index.

Definition urun {A} (m : Ui A) (s : PromptManagerWidget) : PromptManagerWidget :=
  snd (m s).

Definition uoutcome {A} (m : Ui A) (s : PromptManagerWidget) : Outcome A :=
  fst (m s).

(** The hotkeys of the stored prompts, in order ([None] for a prompt
    without the key). *)
Definition hotkeys (prompts : list Prompt) : list (option string) :=
  map (fun p : Prompt => p !! "hotkey") prompts.

(** A prompt as the manager writes it: it has the three keys. *)
Definition well_formed (p : Prompt) : Prop :=
  is_Some (p !! "name") /\ is_Some (p !! "hotkey") /\ is_Some (p !! "content").

Definition stored_prompts (s : PromptManagerWidget) : list Prompt :=
  default [] (cfg_prompts (pm_config s)).

(** A prompt manager freshly opened on a configuration, before its first
    [load_prompts_list]. *)
Definition blank_manager (cfg : Config) : PromptManagerWidget :=
  {| pm_config := cfg;
     prompts_combo := [];
     combo_index := -1;
     prompt_name_edit := "";
     prompt_hotkey_edit := "";
     prompt_content_edit := "";
     char_count_label := 0;
     pm_trace := [] |}.

Local Close Scope ui_scope.

(** ** Further readings of the trace *)

Definition is_overlay_response (e : Effect) : bool :=
  match e with OverlayHandleResponse _ => true | _ => false end.

Definition is_copy (e : Effect) : bool :=
  match e with CopyToClipboard _ => true | _ => false end.

Definition is_extract (e : Effect) : bool :=
  match e with ExtractCodeBlocks _ => true | _ => false end.

Definition is_cleanup_timer (e : Effect) : bool :=
  match e with SingleShotCleanup => true | _ => false end.

Definition is_content_chunk (e : Effect) : bool :=
  match e with OverlayContentChunk _ => true | _ => false end.

Definition is_error_log (e : Effect) : bool :=
  match e with Log _ ERROR => true | _ => false end.

Definition is_signal (e : Effect) : bool :=
  match e with
  | EmitTriggerScreenshot _ | EmitApiResponse _ => true
  | _ => false
  end.

(** The text the worker emits when the provider returns nothing. *)
Definition no_response_text : string := "API调用失败，未获得响应".

(** The provider answers a request without raising, with [None] or with an
    empty text. *)
Definition provider_returns_nothing (w : World)
    (all_images : list bytes) (prompt : Prompt) (provider : string) : Prop :=
  exists service content,
    get_service w provider = Returned service
    /\ prompt !! "content" = Some content
    /\ (service all_images content = Returned None
        \/ service all_images content = Returned (Some "")).

(** The provider answers a request with the text [text]. *)
Definition provider_returns (w : World)
    (all_images : list bytes) (prompt : Prompt) (provider : string)
    (text : string) : Prop :=
  exists service content,
    get_service w provider = Returned service
    /\ prompt !! "content" = Some content
    /\ service all_images content = Returned (Some text).

(** Two objects with the same fields, the traces apart. *)
Definition same_fields (s s' : App) : Prop :=
  screenshot_history s' = screenshot_history s
  /\ screenshot_selector s' = screenshot_selector s
  /\ pending_prompt s' = pending_prompt s
  /\ current_prompt_index s' = current_prompt_index s
  /\ overlay s' = overlay s
  /\ provider_radios s' = provider_radios s
  /\ current_prompt_label s' = current_prompt_label s
  /\ config_manager s' = config_manager s.

(** A stream that yields the given chunks, none of them a completion item,
    and then goes on as [rest]. *)
Definition chunks_then (chunks : list string) (rest : Stream) : Stream :=
  map (fun c => Returned (c, false)) chunks ++ rest.

(** The object after the loop forwarded the given chunks to the overlay,
    the first of them being chunk number [S chunk_count]. *)
Fixpoint forwarded (chunks : list string) (chunk_count : nat) (s : App) : App :=
  match chunks with
  | [] => s
  | chunk :: rest =>
      forwarded rest (S chunk_count)
        (add_effect (OverlayContentChunk chunk)
           (add_effect (Log (Log_chunk_appended (py_take 50 chunk)) INFO)
              (add_effect (Log (Log_chunk (S chunk_count) false) INFO) s)))
  end.

(** A world that differs from a calm one in that showing a toast fails. *)
Definition toastless_world : World :=
  {| MAX_SCREENSHOT_HISTORY := 3;
     use_selector := true;
     capture_screen := Returned [Byte.x50; Byte.x4e; Byte.x47];
     selector_launch := SelectorShown;
     get_service := fun _ => Returned echo_service;
     extract_code_blocks := fun _ => Returned "";
     copy_to_clipboard := fun _ => Returned true;
     md5_hexdigest8 := fun _ => "d41d8cd9";
     markdown_render := fun text => Returned ("<p>" +:+ text +:+ "</p>");
     toast_show_message := fun _ => Raised (CollaboratorError "no screen") |}.

(** A world whose provider answers with nothing. *)
Definition silent_world : World :=
  {| MAX_SCREENSHOT_HISTORY := 3;
     use_selector := true;
     capture_screen := Returned [Byte.x50; Byte.x4e; Byte.x47];
     selector_launch := SelectorShown;
     get_service := fun _ => Returned (fun _ _ => Returned None);
     extract_code_blocks := fun _ => Returned "";
     copy_to_clipboard := fun _ => Returned true;
     md5_hexdigest8 := fun _ => "d41d8cd9";
     markdown_render := fun text => Returned ("<p>" +:+ text +:+ "</p>");
     toast_show_message := fun _ => Returned tt |}.

(** A configuration with the two sample prompts. *)
Definition two_prompts : Config :=
  {| cfg_provider := None;
     cfg_prompts := Some [prompt_explain; prompt_fix];
     cfg_current_prompt_index := None |}.

(** Prompts that lack a key, and one whose content is an error text. *)
Definition prompt_nameless : Prompt := <["content" := "Explain"]> ∅.

Definition prompt_contentless : Prompt := <["name" := "explain"]> ∅.

Definition prompt_error_echo : Prompt :=
  <["name" := "echo"]> (<["content" := "错误: 404"]> ∅).

(** ** Reading the prompt manager *)

(** A widget method that leaves the configuration and the message trace
    alone, however it ends. *)
Definition keeps_config {A} (m : Ui A) : Prop :=
  forall s, pm_config (urun m s) = pm_config s /\ pm_trace (urun m s) = pm_trace s.

(** The combo box entry of a prompt that has a name and a hotkey. *)
Definition item_of (p : Prompt) : string * Prompt :=
  (default "" (p !! "name") +:+ " (" +:+ default "" (p !! "hotkey") +:+ ")", p).

(** The edit fields showing a prompt that has the three keys. *)
Definition showing (p : Prompt) (s : PromptManagerWidget) : PromptManagerWidget :=
  pm_set_char_count (py_len (default "" (p !! "content")))
    (pm_set_content (default "" (p !! "content"))
       (pm_set_hotkey (default "" (p !! "hotkey"))
          (pm_set_name (default "" (p !! "name")) s))).

(** The edit fields emptied. *)
Definition cleared (s : PromptManagerWidget) : PromptManagerWidget :=
  pm_set_char_count 0 (pm_set_content "" (pm_set_hotkey "" (pm_set_name "" s))).

(** The widget after its list was reloaded from well-formed prompts. *)
Definition reloaded (s : PromptManagerWidget) : PromptManagerWidget :=
  match stored_prompts s with
  | [] => cleared (pm_set_combo [] (-1) s)
  | first :: _ =>
      showing first (pm_set_combo (map item_of (stored_prompts s)) 0 s)
  end.

(** A prompt other than the one at [index] has the hotkey. *)
Definition taken_by_other (prompts : list Prompt) (index : Z) (hotkey : string) : Prop :=
  exists i p, prompts !! i = Some p /\ Z.of_nat i <> index /\ p !! "hotkey" = Some hotkey.

(** A prompt manager on a configuration with the two sample prompts, given
    a hotkey each, its list loaded. *)
Definition prompt_one : Prompt := new_prompt "explain" "alt+1" "Explain this code".

Definition prompt_two : Prompt := new_prompt "fix" "alt+2" "Fix this code".

Definition sample_manager : PromptManagerWidget :=
  urun load_prompts_list
    (blank_manager
       {| cfg_provider := None;
          cfg_prompts := Some [prompt_one; prompt_two];
          cfg_current_prompt_index := None |}).

(** What the user typed into the three fields. *)
Definition typed (name hotkey content : string) (s : PromptManagerWidget)
    : PromptManagerWidget :=
  pm_set_content content (pm_set_hotkey hotkey (pm_set_name name s)).

(** A stand-in for [str.strip] that removes nothing. *)
Definition no_strip (s : string) : string := s.

(** * Properties *)

Ltac run_method :=
  unfold run, outcome, try_except, try_finally, bind, ret, raise, read,
    update, effect, add_log, lift, reify, config_get, config_set; simpl.

(** ** The bounded history *)

Lemma save_history (w : World) (png : bytes) (s : App) :
  screenshot_history (run (save_screenshot_to_history w png) s)
  = pushed (MAX_SCREENSHOT_HISTORY w) (screenshot_history s) png.
Proof.
  destruct s as [h sel pending index ov radios label cfg tr].
  unfold save_screenshot_to_history, history_pop0, history_append, pushed.
  run_method.
  destruct (MAX_SCREENSHOT_HISTORY w <=? length h)%nat;
    [destruct h |]; reflexivity.
Qed.

Lemma save_all_app (w : World) (xs ys : list bytes) (s : App) :
  save_all w (xs ++ ys) s = save_all w ys (save_all w xs s).
Proof. unfold save_all. apply fold_left_app. Qed.

Lemma pushed_last_n (limit : nat) (h : list bytes) (png : bytes) :
  length h <= limit ->
  pushed limit h png = last_n limit (h ++ [png]).
Proof.
  intros Hle. unfold pushed, last_n. rewrite length_app. simpl.
  destruct (Nat.leb_spec limit (length h)) as [Hfull | Hroom].
  - destruct h as [| old rest]; simpl in *.
    + replace limit with 0 by lia. reflexivity.
    + replace (S (length rest + 1) - limit) with 1 by lia. reflexivity.
  - replace (length h + 1 - limit) with 0 by lia. reflexivity.
Qed.

Lemma length_last_n {A} (n : nat) (l : list A) :
  length (last_n n l) = min (length l) n.
Proof. unfold last_n. rewrite length_drop. lia. Qed.

Lemma last_n_app_last_n {A} (n : nat) (l r : list A) :
  last_n n (last_n n l ++ r) = last_n n (l ++ r).
Proof.
  unfold last_n. rewrite !length_app, length_drop.
  rewrite <- (drop_app_le l r (length l - n)) by lia.
  rewrite drop_drop. f_equal. lia.
Qed.

Lemma last_n_all {A} (n : nat) (l : list A) :
  length l <= n -> last_n n l = l.
Proof. intros H. unfold last_n. replace (length l - n) with 0 by lia. reflexivity. Qed.

Lemma save_all_history (w : World) (pngs : list bytes) (s : App) :
  length (screenshot_history s) <= MAX_SCREENSHOT_HISTORY w ->
  screenshot_history (save_all w pngs s)
  = last_n (MAX_SCREENSHOT_HISTORY w) (screenshot_history s ++ pngs).
Proof.
  revert s. induction pngs as [| png pngs IH]; intros s Hle.
  - simpl. rewrite app_nil_r. symmetry. now apply last_n_all.
  - change (save_all w (png :: pngs) s)
      with (save_all w pngs (run (save_screenshot_to_history w png) s)).
    rewrite IH; rewrite save_history, pushed_last_n by exact Hle.
    + rewrite last_n_app_last_n, <- app_assoc. reflexivity.
    + rewrite length_last_n. lia.
Qed.

Lemma save_history_bound (w : World) (png : bytes) (s : App) :
  length (screenshot_history s) <= MAX_SCREENSHOT_HISTORY w ->
  length (screenshot_history (run (save_screenshot_to_history w png) s))
  <= MAX_SCREENSHOT_HISTORY w.
Proof.
  intros Hle. rewrite save_history, pushed_last_n, length_last_n by exact Hle. lia.
Qed.

(** C2, as stated, does not hold from every state.  With limit 3, one save
    on the empty history leaves [A]; saving B from there leaves [A; B], which
    is not the last [min 1 3 = 1] saved images, [B]: the images the history
    held before are kept as long as there is room.  And a history longer than
    the limit, here [A; B; C; D], loses one image and gains one with every
    save, so that it stays longer than the limit. *)
Lemma earlier_images_stay_in_history :
  let w := calm_world 3 true in
  let s := run (save_screenshot_to_history w image_A) (initial_app empty_config) in
  let s' := save_all w [image_B] s in
  let crowded := set_screenshot_history [image_A; image_B; image_C; image_D]
                   (initial_app empty_config) in
  screenshot_history s = [image_A]
  /\ screenshot_history s' = [image_A; image_B]
  /\ last_n (min (length [image_B]) (MAX_SCREENSHOT_HISTORY w)) [image_B] = [image_B]
  /\ screenshot_history s'
     <> last_n (min (length [image_B]) (MAX_SCREENSHOT_HISTORY w)) [image_B]
  /\ screenshot_history (save_all w [image_A] crowded)
     = [image_B; image_C; image_D; image_A]
  /\ ~ length (screenshot_history (save_all w [image_A] crowded))
       <= MAX_SCREENSHOT_HISTORY w.
Proof.
  cbv zeta. repeat apply conj; try reflexivity.
  - intros Heq. vm_compute in Heq. discriminate Heq.
  - vm_compute. lia.
Qed.

(** C2, amended.  From a history within the limit, saving any images one
    after the other keeps the history within [MAX_SCREENSHOT_HISTORY] after
    every single save; the history then holds the last
    [MAX_SCREENSHOT_HISTORY] images of the old history followed by the saved
    ones, in that order; from an empty history these are exactly the last
    [min n MAX_SCREENSHOT_HISTORY] of the [n] saved images; and with limit 3,
    saving A, B, C, D to an empty history leaves [B; C; D]. *)
Theorem history_keeps_last_images (w : World) (s : App) (pngs : list bytes) :
  length (screenshot_history s) <= MAX_SCREENSHOT_HISTORY w ->
  (forall k, length (screenshot_history (save_all w (take k pngs) s))
             <= MAX_SCREENSHOT_HISTORY w)
  /\ screenshot_history (save_all w pngs s)
     = last_n (MAX_SCREENSHOT_HISTORY w) (screenshot_history s ++ pngs)
  /\ (screenshot_history s = [] ->
      screenshot_history (save_all w pngs s)
      = last_n (min (length pngs) (MAX_SCREENSHOT_HISTORY w)) pngs)
  /\ (screenshot_history s = [] -> MAX_SCREENSHOT_HISTORY w = 3 ->
      forall A B C D, pngs = [A; B; C; D] ->
      screenshot_history (save_all w pngs s) = [B; C; D]).
Proof.
  intros Hle. repeat split.
  - intros k. rewrite save_all_history by exact Hle.
    rewrite length_last_n. lia.
  - now apply save_all_history.
  - intros Hnil. rewrite save_all_history by exact Hle. rewrite Hnil. simpl.
    unfold last_n. f_equal. lia.
  - intros Hnil Hmax A B C D ->. rewrite save_all_history by exact Hle.
    rewrite Hnil, Hmax. reflexivity.
Qed.

Lemma history_keeps_last_images_witness :
  screenshot_history
    (save_all (calm_world 3 true) [image_A; image_B; image_C; image_D]
       (initial_app empty_config))
  = [image_B; image_C; image_D].
Proof.
  assert (Hle : length (screenshot_history (initial_app empty_config))
                <= MAX_SCREENSHOT_HISTORY (calm_world 3 true)) by (simpl; lia).
  destruct (history_keeps_last_images (calm_world 3 true)
              (initial_app empty_config)
              [image_A; image_B; image_C; image_D] Hle) as (_ & _ & _ & Habcd).
  apply (Habcd eq_refl eq_refl image_A image_B image_C image_D eq_refl).
Defined.

(** ** Clearing the history *)

(** C9. Clearing leaves an empty history and never raises, so clearing
    twice is clearing once; on a history that is already empty neither
    [clear_screenshot_history] nor [_cleanup_screenshot_history] changes any
    field of the object or raises: the former writes one line to the log,
    the latter does nothing at all, and neither emits a signal. *)
Theorem clear_history_idempotent (s : App) :
  screenshot_history (run clear_screenshot_history s) = []
  /\ screenshot_history (run _cleanup_screenshot_history s) = []
  /\ outcome clear_screenshot_history s = Returned tt
  /\ outcome _cleanup_screenshot_history s = Returned tt
  /\ screenshot_history (run clear_screenshot_history (run clear_screenshot_history s))
     = screenshot_history (run clear_screenshot_history s)
  /\ (screenshot_history s = [] ->
      run clear_screenshot_history s = add_effect (Log Log_history_empty INFO) s
      /\ run _cleanup_screenshot_history s = s).
Proof.
  destruct s as [h sel pending index ov radios label cfg tr].
  unfold clear_screenshot_history, _cleanup_screenshot_history.
  destruct h as [| img h]; run_method.
  all: repeat split; try reflexivity; congruence.
Qed.

Lemma clear_history_idempotent_witness :
  run clear_screenshot_history (initial_app empty_config)
  = add_effect (Log Log_history_empty INFO) (initial_app empty_config)
  /\ run _cleanup_screenshot_history (initial_app empty_config)
     = initial_app empty_config.
Proof.
  apply (clear_history_idempotent (initial_app empty_config)). reflexivity.
Defined.

(** ** Switching the provider *)

Lemma toggle_provider_config (w : World) (s : App) :
  configured_provider (run (handle_toggle_provider w) s)
  = if decide (configured_provider s = "Gemini") then "GPT" else "Gemini".
Proof.
  destruct s as [h sel pending index ov radios label cfg tr].
  unfold handle_toggle_provider, configured_provider. run_method.
  destruct radios as [keys |]; simpl;
    [destruct (decide (_ ∈ keys)); simpl |];
    destruct (toast_show_message w _); reflexivity.
Qed.

(** C10. One toggle turns a configured Gemini into GPT and a configured GPT
    into Gemini, so two toggles give back either of the two; anything that
    is not Gemini is turned into Gemini, and a provider that is neither of
    the two does not come back after two toggles. *)
Theorem toggle_provider_involution (w1 w2 : World) (s : App) :
  let toggled := run (handle_toggle_provider w1) s in
  let toggled_twice := run (handle_toggle_provider w2) toggled in
  (configured_provider s = "Gemini" -> configured_provider toggled = "GPT")
  /\ (configured_provider s = "GPT" -> configured_provider toggled = "Gemini")
  /\ (configured_provider s ∈ ["Gemini"; "GPT"] ->
      configured_provider toggled_twice = configured_provider s)
  /\ (configured_provider s ≠ "Gemini" -> configured_provider toggled = "Gemini")
  /\ (configured_provider s ∉ ["Gemini"; "GPT"] ->
      configured_provider toggled_twice ≠ configured_provider s).
Proof.
  cbv zeta. rewrite !toggle_provider_config.
  destruct (decide (configured_provider s = "Gemini")) as [Hg | Hg].
  - rewrite Hg. repeat apply conj; intros H; try reflexivity; try congruence.
    exfalso. apply H. rewrite elem_of_cons. now left.
  - repeat apply conj; intros H; try reflexivity; try congruence.
    + rewrite !elem_of_cons, elem_of_nil in H.
      destruct H as [H | [H | []]]; [congruence | now rewrite H].
    + intros Heq. apply H. rewrite <- Heq, !elem_of_cons. right. now left.
Qed.

Lemma toggle_provider_involution_witness :
  configured_provider
    (run (handle_toggle_provider (calm_world 3 true))
       (run (handle_toggle_provider (calm_world 3 true)) (initial_app empty_config)))
  = configured_provider (initial_app empty_config).
Proof.
  apply (toggle_provider_involution (calm_world 3 true) (calm_world 3 true)
           (initial_app empty_config)).
  unfold configured_provider. simpl. rewrite elem_of_cons. now left.
Defined.

(** ** The background worker *)

(** C3. Whatever the provider does (returns text, returns nothing or an
    empty text, or raises; whatever the images, the prompt and the provider
    name), a run of the worker returns normally and emits the response signal
    exactly once. *)
Theorem worker_emits_one_response (w : World)
    (all_images : list bytes) (prompt : Prompt) (provider : string) (s : App) :
  outcome (_async_api_worker w all_images prompt provider) s = Returned tt
  /\ count_effects is_api_response
       (trace (run (_async_api_worker w all_images prompt provider) s))
     = 1 + count_effects is_api_response (trace s).
Proof.
  destruct s as [h sel pending index ov radios label cfg tr].
  unfold _async_api_worker, getitem. run_method.
  destruct (get_service w provider) as [service | e]; simpl; [| split; reflexivity].
  destruct (prompt !! "content") as [content |]; simpl; [| split; reflexivity].
  destruct (service all_images content) as [[text |] | e]; simpl;
    [destruct (str_truthy text); simpl | |]; split; reflexivity.
Qed.

Lemma worker_on_failure (w : World)
    (all_images : list bytes) (prompt : Prompt) (provider : string) (e : Exn) (s : App) :
  provider_raises w all_images prompt provider e ->
  _async_api_worker w all_images prompt provider s
  = (Returned tt,
     add_effect SingleShotCleanup
       (add_effect (EmitApiResponse (failure_response e))
          (add_effect (Log (Log_text ("API调用异常: " +:+ exn_str e)) ERROR) s))).
Proof.
  intros [Hfactory | (service & content & Hfactory & Hcontent & Hanalyze)];
    unfold _async_api_worker, getitem; run_method; rewrite Hfactory; simpl.
  - reflexivity.
  - rewrite Hcontent. simpl. rewrite Hanalyze. reflexivity.
Qed.

Lemma failure_response_is_error (e : Exn) :
  String.prefix "错误:" (failure_response e) = true.
Proof. reflexivity. Qed.

Lemma handle_failure_response (w : World) (e : Exn) (s : App) :
  overlay s = true ->
  handle_api_response w (failure_response e) s
  = (Returned tt,
     add_effect (OverlayHandleResponse (red_paragraph (failure_response e)))
       (add_effect (Log (Log_text (failure_response e)) ERROR) s)).
Proof.
  intros Hoverlay. unfold handle_api_response.
  rewrite failure_response_is_error.
  unfold overlay_call. run_method. rewrite Hoverlay. reflexivity.
Qed.

Lemma trigger_prompt_selector (w : World) (prompt : Prompt) (name : string) (s : App) :
  use_selector w = true ->
  prompt !! "name" = Some name ->
  trigger_prompt w prompt s
  = (Returned tt,
     add_effect (EmitTriggerScreenshot true)
       (set_pending_prompt (Some prompt)
          (add_effect (Log (Log_trigger name) INFO) s))).
Proof.
  intros Hselector Hname. unfold trigger_prompt, getitem.
  rewrite Hname, Hselector. reflexivity.
Qed.

Lemma trigger_prompt_traditional (w : World) (prompt : Prompt) (name : string)
    (png : bytes) (s : App) :
  use_selector w = false ->
  capture_screen w = Returned png ->
  prompt !! "name" = Some name ->
  trigger_prompt w prompt s
  = process_prompt_with_screenshot png prompt
      (add_effect (Log Log_screen_captured INFO)
         (add_effect CaptureScreen
            (add_effect (Log (Log_trigger name) INFO) s))).
Proof.
  intros Hselector Hcapture Hname. unfold trigger_prompt, getitem.
  rewrite Hname, Hselector. run_method. rewrite Hcapture. simpl.
  unfold process_prompt_with_screenshot. run_method. reflexivity.
Qed.

Lemma process_prompt_dispatches (png : bytes) (prompt : Prompt) (s : App) :
  process_prompt_with_screenshot png prompt s
  = (Returned tt,
     let all_images := screenshot_history s ++ [png] in
     add_effect (ThreadStart all_images prompt (configured_provider s))
       (add_effect (Log (Log_sending (length all_images) (configured_provider s)
                           (total_size all_images)) INFO)
          (add_effect (Log (Log_using_provider (configured_provider s)) INFO)
             (add_effect (Log (Log_current_size (length png)) INFO)
                (add_effect (Log (Log_history_count (length (screenshot_history s))) INFO)
                   s))))).
Proof. reflexivity. Qed.

(** C4. When the provider adapter raises (from [get_service] or from the
    analysis call), the worker returns normally and emits one response, the
    error text with the message of the exception; with the overlay in
    place, the response handler takes that text for an error, logs it at
    level ERROR, shows it in red in the overlay and returns normally; it
    starts no thread and emits no response, so nothing is retried; and a
    prompt request made afterwards is taken up: with the selector the prompt
    becomes the pending one and the capture signal is emitted, without the
    selector the screen is captured and a worker thread is started. *)
Theorem provider_failure_is_surfaced (w w_ui : World)
    (all_images : list bytes) (prompt : Prompt) (provider : string)
    (e : Exn) (s : App) (next : Prompt) (name : string) :
  provider_raises w all_images prompt provider e ->
  overlay s = true ->
  next !! "name" = Some name ->
  let worker := _async_api_worker w all_images prompt provider in
  let s1 := run worker s in
  let handler := handle_api_response w_ui (failure_response e) in
  let s2 := run handler s1 in
  outcome worker s = Returned tt
  /\ trace s1
     = SingleShotCleanup
       :: EmitApiResponse (failure_response e)
       :: Log (Log_text ("API调用异常: " +:+ exn_str e)) ERROR
       :: trace s
  /\ String.prefix "错误:" (failure_response e) = true
  /\ outcome handler s1 = Returned tt
  /\ trace s2
     = OverlayHandleResponse (red_paragraph (failure_response e))
       :: Log (Log_text (failure_response e)) ERROR
       :: trace s1
  /\ count_effects is_thread_start (trace s2) = count_effects is_thread_start (trace s)
  /\ count_effects is_api_response (trace s2) = 1 + count_effects is_api_response (trace s)
  /\ (forall w_next, use_selector w_next = true ->
        let request := trigger_prompt w_next next in
        outcome request s2 = Returned tt
        /\ pending_prompt (run request s2) = Some next
        /\ trace (run request s2)
           = EmitTriggerScreenshot true :: Log (Log_trigger name) INFO :: trace s2)
  /\ (forall w_next png, use_selector w_next = false ->
        capture_screen w_next = Returned png ->
        let request := trigger_prompt w_next next in
        outcome request s2 = Returned tt
        /\ count_effects is_thread_start (trace (run request s2))
           = 1 + count_effects is_thread_start (trace s2)).
Proof.
  intros Hraises Hoverlay Hname. cbv zeta. unfold run, outcome.
  rewrite (worker_on_failure _ _ _ _ _ _ Hraises). simpl.
  rewrite handle_failure_response by exact Hoverlay. simpl.
  repeat apply conj; try reflexivity.
  - intros w_next Hselector.
    rewrite (trigger_prompt_selector _ _ _ _ Hselector Hname). simpl.
    repeat apply conj; reflexivity.
  - intros w_next png Hselector Hcapture.
    rewrite (trigger_prompt_traditional _ _ _ _ _ Hselector Hcapture Hname).
    rewrite process_prompt_dispatches. simpl. split; reflexivity.
Qed.

Lemma provider_failure_is_surfaced_witness :
  let e := CollaboratorError "quota exceeded" in
  let s1 := run (_async_api_worker offline_world [image_A] prompt_explain "Gemini")
              (listening_app empty_config) in
  let s2 := run (handle_api_response offline_world (failure_response e)) s1 in
  trace s2
  = [ OverlayHandleResponse (red_paragraph (failure_response e));
      Log (Log_text (failure_response e)) ERROR;
      SingleShotCleanup;
      EmitApiResponse (failure_response e);
      Log (Log_text "API调用异常: quota exceeded") ERROR ]
  /\ pending_prompt (run (trigger_prompt offline_world prompt_fix) s2) = Some prompt_fix.
Proof.
  assert (Hraises : provider_raises offline_world [image_A] prompt_explain "Gemini"
                      (CollaboratorError "quota exceeded")).
  { right. exists (fun _ _ => Raised (CollaboratorError "quota exceeded")),
      "Explain this code". repeat split; reflexivity. }
  destruct (provider_failure_is_surfaced offline_world offline_world
              [image_A] prompt_explain "Gemini" (CollaboratorError "quota exceeded")
              (listening_app empty_config) prompt_fix "fix"
              Hraises eq_refl eq_refl)
    as (_ & Hworker & _ & _ & Hhandler & _ & _ & Hselector & _).
  split.
  - rewrite Hhandler, Hworker. reflexivity.
  - apply (Hselector offline_world eq_refl).
Defined.

(** ** The pending prompt *)

(** C1, as stated, does not hold: a second prompt request made while the
    first is still pending is taken up like the first; it replaces the
    pending prompt and emits the capture signal again, and a capture-only
    request made in its place clears the pending prompt. *)
Lemma second_request_not_rejected :
  let w := calm_world 3 true in
  let s1 := run (trigger_prompt w prompt_explain) (listening_app empty_config) in
  let s2 := run (trigger_prompt w prompt_fix) s1 in
  let s2' := run (capture_screenshot_only w) s1 in
  pending_prompt s1 = Some prompt_explain
  /\ pending_prompt s2 = Some prompt_fix
  /\ pending_prompt s2 <> pending_prompt s1
  /\ trace s2 = EmitTriggerScreenshot true :: Log (Log_trigger "fix") INFO :: trace s1
  /\ pending_prompt s2' = None
  /\ trace s2' = EmitTriggerScreenshot false :: trace s1.
Proof.
  cbv zeta. repeat apply conj; try reflexivity.
  change (Some prompt_fix <> Some prompt_explain).
  intros Heq.
  assert (Hname : prompt_fix !! "name" = prompt_explain !! "name") by congruence.
  vm_compute in Hname. discriminate Hname.
Qed.

(** C1, amended.  The pending prompt is one field of the object, so there
    is never more than one; with the selector in use, a prompt request made
    while a prompt is pending returns normally, puts its own prompt in place
    of the pending one and emits the capture signal, logging only that it was
    triggered; a capture-only request made then returns normally, clears the
    pending prompt and emits the capture signal. *)
Theorem pending_prompt_is_replaced (w : World) (s : App)
    (first second : Prompt) (name : string) :
  use_selector w = true ->
  pending_prompt s = Some first ->
  second !! "name" = Some name ->
  let with_prompt := trigger_prompt w second in
  let capture_only := capture_screenshot_only w in
  outcome with_prompt s = Returned tt
  /\ pending_prompt (run with_prompt s) = Some second
  /\ (second <> first -> pending_prompt (run with_prompt s) <> pending_prompt s)
  /\ trace (run with_prompt s)
     = EmitTriggerScreenshot true :: Log (Log_trigger name) INFO :: trace s
  /\ outcome capture_only s = Returned tt
  /\ pending_prompt (run capture_only s) = None
  /\ trace (run capture_only s) = EmitTriggerScreenshot false :: trace s.
Proof.
  intros Hselector Hpending Hname. cbv zeta. unfold run, outcome.
  rewrite (trigger_prompt_selector _ _ _ _ Hselector Hname).
  unfold capture_screenshot_only. rewrite Hselector. simpl.
  repeat apply conj; try reflexivity.
  intros Hdiff. rewrite Hpending. congruence.
Qed.

Lemma pending_prompt_is_replaced_witness :
  let s1 := run (trigger_prompt (calm_world 3 true) prompt_explain)
              (listening_app empty_config) in
  pending_prompt (run (trigger_prompt (calm_world 3 true) prompt_fix) s1)
  = Some prompt_fix
  /\ pending_prompt (run (capture_screenshot_only (calm_world 3 true)) s1) = None.
Proof.
  destruct (pending_prompt_is_replaced (calm_world 3 true)
              (run (trigger_prompt (calm_world 3 true) prompt_explain)
                 (listening_app empty_config))
              prompt_explain prompt_fix "fix" eq_refl eq_refl eq_refl)
    as (_ & Hreplaced & _ & _ & _ & Hcleared & _).
  split; [exact Hreplaced | exact Hcleared].
Defined.

(** ** Streaming *)

Lemma append_empty_r (s : string) : s +:+ "" = s.
Proof.
  induction s as [| a s IH]; [reflexivity |].
  change (String a (s +:+ "") = String a s). now rewrite IH.
Qed.

Lemma append_assoc (s t u : string) : (s +:+ t) +:+ u = s +:+ (t +:+ u).
Proof.
  induction s as [| a s IH]; [reflexivity |].
  change (String a ((s +:+ t) +:+ u) = String a (s +:+ (t +:+ u))). now rewrite IH.
Qed.

(** The loop on a stream that completes: what it returns and what it
    records, from any values of its locals. *)
Lemma stream_loop_completes (chunks : list string) (last_text : string) (after : Stream) :
  forall (full_response : string) (chunk_count : nat) (s : App),
  overlay s = true ->
  let loop := stream_loop (chunks_then_complete chunks last_text after)
                full_response chunk_count in
  let text := full_response +:+ join chunks in
  outcome loop s = Returned (text, Returned tt)
  /\ overlay (run loop s) = true
  /\ (exists earlier,
        trace (run loop s)
        = Log (Log_stream_processed (py_len text)) INFO
          :: OverlayFinishStreaming :: earlier)
  /\ count_effects is_stream_processed (trace (run loop s))
     = 1 + count_effects is_stream_processed (trace s)
  /\ count_effects is_finish_streaming (trace (run loop s))
     = 1 + count_effects is_finish_streaming (trace s)
  /\ count_effects is_extract_or_copy (trace (run loop s))
     = count_effects is_extract_or_copy (trace s).
Proof.
  induction chunks as [| chunk chunks IH]; intros full_response chunk_count s Hoverlay.
  - destruct s as [h sel pending index ov radios label cfg tr].
    simpl in Hoverlay. subst ov.
    cbv zeta. change (join []) with "". rewrite append_empty_r.
    unfold chunks_then_complete, _process_complete_response, overlay_call. simpl.
    run_method. repeat apply conj; try reflexivity. eexists. reflexivity.
  - cbv zeta.
    set (s1 := add_effect (OverlayContentChunk chunk)
                 (add_effect (Log (Log_chunk_appended (py_take 50 chunk)) INFO)
                    (add_effect (Log (Log_chunk (S chunk_count) false) INFO) s))).
    assert (Hstep :
      stream_loop (chunks_then_complete (chunk :: chunks) last_text after)
        full_response chunk_count s
      = stream_loop (chunks_then_complete chunks last_text after)
          (full_response +:+ chunk) (S chunk_count) s1).
    { destruct s as [h sel pending index ov radios label cfg tr].
      simpl in Hoverlay. subst ov. reflexivity. }
    assert (Hoverlay1 : overlay s1 = true) by exact Hoverlay.
    destruct (IH (full_response +:+ chunk) (S chunk_count) s1 Hoverlay1)
      as (Hout & Hov & Hhead & Hprocessed & Hfinish & Hextract).
    unfold run, outcome in *. rewrite Hstep.
    change (join (chunk :: chunks)) with (chunk +:+ join chunks).
    rewrite <- append_assoc.
    repeat apply conj; assumption.
Qed.

(** C5, as stated, does not hold: on the chunks "ab", "cd", "ef" and a
    completion item the text is "abcdef" and the complete response is
    processed once, but code extraction and the clipboard write run zero
    times, not once. *)
Lemma streaming_copies_no_code :
  let stream := chunks_then_complete ["ab"; "cd"; "ef"] "" [] in
  let s := listening_app empty_config in
  let handler := _handle_streaming_response (calm_world 3 true) stream in
  outcome (stream_loop stream "" 0) s = Returned ("abcdef", Returned tt)
  /\ outcome handler s = Returned tt
  /\ count_effects is_stream_processed (trace (run handler s)) = 1
  /\ count_effects is_extract_or_copy (trace (run handler s)) = 0
  /\ count_effects is_extract_or_copy (trace (run handler s)) <> 1.
Proof. cbv zeta. repeat apply conj; try reflexivity. discriminate. Qed.

(** C5, amended.  With the overlay in place, on a stream that yields chunks
    and then a completion item the text passed on at completion is the
    chunks before the completion item joined in order of arrival; the
    handler returns normally, and finishes the overlay stream and processes
    the complete text exactly once, as its last two actions; it runs code
    extraction and the clipboard write not at all, neither per chunk nor at
    completion. *)
Theorem streaming_joins_chunks (w : World)
    (chunks : list string) (last_text : string) (after : Stream) (s : App) :
  overlay s = true ->
  let stream := chunks_then_complete chunks last_text after in
  let handler := _handle_streaming_response w stream in
  let started :=
    add_effect (Log Log_stream_begin INFO) (add_effect OverlayStartStreaming s) in
  outcome (stream_loop stream "" 0) started = Returned (join chunks, Returned tt)
  /\ outcome handler s = Returned tt
  /\ (exists earlier,
        trace (run handler s)
        = Log (Log_stream_processed (py_len (join chunks))) INFO
          :: OverlayFinishStreaming :: earlier)
  /\ count_effects is_stream_processed (trace (run handler s))
     = 1 + count_effects is_stream_processed (trace s)
  /\ count_effects is_finish_streaming (trace (run handler s))
     = 1 + count_effects is_finish_streaming (trace s)
  /\ count_effects is_extract_or_copy (trace (run handler s))
     = count_effects is_extract_or_copy (trace s).
Proof.
  intros Hoverlay. cbv zeta.
  set (started :=
         add_effect (Log Log_stream_begin INFO) (add_effect OverlayStartStreaming s)).
  assert (Hstarted : overlay started = true) by exact Hoverlay.
  destruct (stream_loop_completes chunks last_text after "" 0 started Hstarted)
    as (Hout & _ & Hhead & Hprocessed & Hfinish & Hextract).
  change ("" +:+ join chunks) with (join chunks) in Hout, Hhead.
  assert (Hhandler :
    _handle_streaming_response w (chunks_then_complete chunks last_text after) s
    = (Returned tt,
       run (stream_loop (chunks_then_complete chunks last_text after) "" 0) started)).
  { unfold _handle_streaming_response, overlay_call. run_method.
    rewrite Hoverlay. simpl. fold started.
    unfold outcome in Hout.
    destruct (stream_loop (chunks_then_complete chunks last_text after) "" 0 started)
      as [left s'].
    simpl in Hout. subst left. reflexivity. }
  unfold run, outcome in *. rewrite Hhandler. simpl.
  repeat apply conj; try assumption. reflexivity.
Qed.

Lemma streaming_joins_chunks_witness :
  outcome
    (stream_loop (chunks_then_complete ["ab"; "cd"; "ef"] "" []) "" 0)
    (add_effect (Log Log_stream_begin INFO)
       (add_effect OverlayStartStreaming (listening_app empty_config)))
  = Returned ("abcdef", Returned tt).
Proof.
  apply (streaming_joins_chunks (calm_world 3 true) ["ab"; "cd"; "ef"] "" []
           (listening_app empty_config) eq_refl).
Defined.

(** ** Capture failures *)

(** C6.  A prompt request is pending and the selector cannot start.  When
    the full-screen capture fails as well, one capture was attempted, but its
    exception leaves the slot [handle_screenshot_in_main_thread] unhandled,
    nothing beyond the selector failure is logged, and the prompt stays
    pending; the capture-only slot lets the exception out in the same way.
    When the full-screen capture works, the request is dispatched and the
    prompt stays pending all the same. *)
Lemma fallback_capture_failure_escapes :
  let requested :=
    run (trigger_prompt blind_world prompt_explain) (listening_app empty_config) in
  let slot := handle_screenshot_in_main_thread blind_world true in
  let slot_only := handle_screenshot_in_main_thread blind_world false in
  let recovered := handle_screenshot_in_main_thread no_selector_world true in
  pending_prompt requested = Some prompt_explain
  /\ outcome slot requested = Raised (CollaboratorError "screen grab failed")
  /\ trace (run slot requested)
     = [ CaptureScreen;
         Log (Log_selector_failed (CollaboratorError "no display")) ERROR;
         EmitTriggerScreenshot true;
         Log (Log_trigger "explain") INFO ]
  /\ count_effects is_capture_screen (trace (run slot requested)) = 1
  /\ pending_prompt (run slot requested) = Some prompt_explain
  /\ outcome slot_only requested = Raised (CollaboratorError "screen grab failed")
  /\ outcome recovered requested = Returned tt
  /\ count_effects is_capture_screen (trace (run recovered requested)) = 1
  /\ count_effects is_thread_start (trace (run recovered requested)) = 1
  /\ pending_prompt (run recovered requested) = Some prompt_explain.
Proof. cbv zeta. repeat apply conj; reflexivity. Qed.

(** ** Dispatch *)

(** C7, as stated, does not hold: with image A in the history, a pending
    prompt and a capture B, the request is dispatched with [A; B], and the
    history still holds A alone afterwards: B was not appended to it. *)
Lemma current_image_not_stored :
  let s := set_pending_prompt (Some prompt_explain)
             (set_screenshot_history [image_A] (listening_app empty_config)) in
  let s' := run (on_screenshot_taken image_B) s in
  hd_error (trace s') = Some (ThreadStart [image_A; image_B] prompt_explain "Gemini")
  /\ screenshot_history s' = [image_A]
  /\ ~ In image_B (screenshot_history s').
Proof.
  cbv zeta. repeat apply conj; try reflexivity.
  intros [Hin | []]. discriminate Hin.
Qed.

(** C7, amended.  A capture made for a prompt is not appended to the
    history.  On each of the three ways such a capture succeeds -
    [on_screenshot_taken] receiving the selector's image while a non-empty
    prompt is pending, the full-screen capture that [start_smart_screenshot]
    falls back to when the selector cannot be started while a non-empty
    prompt is pending, and the full-screen capture of [trigger_prompt] when
    the selector is not in use - the method returns normally, exactly one
    worker thread is started, as the last recorded action, for the images of
    the history followed by the capture, with the prompt and the provider
    configured at that moment, and the history itself is left as it was.
    [on_screenshot_taken] then releases the pending prompt. *)
Theorem dispatch_sends_history_then_capture
    (w : World) (png : bytes) (prompt : Prompt) (s : App) :
  prompt <> ∅ ->
  let dispatched (capture : Py unit) :=
    outcome capture s = Returned tt
    /\ hd_error (trace (run capture s))
       = Some (ThreadStart (screenshot_history s ++ [png]) prompt
                 (configured_provider s))
    /\ count_effects is_thread_start (trace (run capture s))
       = 1 + count_effects is_thread_start (trace s)
    /\ screenshot_history (run capture s) = screenshot_history s in
  (pending_prompt s = Some prompt ->
   dispatched (on_screenshot_taken png)
   /\ pending_prompt (run (on_screenshot_taken png) s) = None)
  /\ (pending_prompt s = Some prompt ->
      selector_launch w <> SelectorShown ->
      capture_screen w = Returned png ->
      dispatched (start_smart_screenshot w))
  /\ (use_selector w = false ->
      capture_screen w = Returned png ->
      is_Some (prompt !! "name") ->
      dispatched (trigger_prompt w prompt)).
Proof.
  intros Hnonempty. cbv zeta.
  destruct s as [h sel pending index ov radios label cfg tr].
  repeat apply conj.
  - intros Hpending. simpl in Hpending. subst pending.
    unfold on_screenshot_taken, close_selector, prompt_truthy. run_method.
    destruct sel as [k |]; simpl;
      rewrite (bool_decide_eq_true_2 _ Hnonempty);
      repeat apply conj; reflexivity.
  - intros Hpending Hlaunch Hcapture. simpl in Hpending. subst pending.
    unfold start_smart_screenshot, launch_selector, prompt_truthy.
    destruct (selector_launch w) as [| e | e]; [congruence | |];
      run_method;
      rewrite (bool_decide_eq_true_2 _ Hnonempty), Hcapture;
      repeat apply conj; reflexivity.
  - intros Hselector Hcapture [name Hname].
    unfold run, outcome.
    rewrite (trigger_prompt_traditional w prompt name png _ Hselector Hcapture Hname).
    rewrite process_prompt_dispatches.
    repeat apply conj; reflexivity.
Qed.

Lemma dispatch_sends_history_then_capture_witness :
  let s := set_pending_prompt (Some prompt_explain)
             (set_screenshot_history [image_A] (listening_app empty_config)) in
  let sent (png : bytes) :=
    Some (ThreadStart [image_A; png] prompt_explain "Gemini") in
  (hd_error (trace (run (on_screenshot_taken image_B) s)) = sent image_B
   /\ screenshot_history (run (on_screenshot_taken image_B) s) = [image_A]
   /\ pending_prompt (run (on_screenshot_taken image_B) s) = None)
  /\ (hd_error (trace (run (start_smart_screenshot no_selector_world) s))
      = sent (Byte.x50 :: Byte.x4e :: Byte.x47 :: nil)
      /\ screenshot_history (run (start_smart_screenshot no_selector_world) s)
         = [image_A])
  /\ (hd_error (trace (run (trigger_prompt (calm_world 3 false) prompt_explain) s))
      = sent (Byte.x50 :: Byte.x4e :: Byte.x47 :: nil)
      /\ screenshot_history (run (trigger_prompt (calm_world 3 false) prompt_explain) s)
         = [image_A]).
Proof.
  assert (Hnonempty : prompt_explain <> ∅).
  { intros Heq.
    assert (Hname : prompt_explain !! "name" = (∅ : Prompt) !! "name") by congruence.
    vm_compute in Hname. discriminate Hname. }
  assert (Hnamed : is_Some (prompt_explain !! "name")).
  { exists "explain". reflexivity. }
  assert (Hfails : selector_launch no_selector_world <> SelectorShown).
  { simpl. discriminate. }
  cbv zeta. repeat apply conj.
  - destruct (dispatch_sends_history_then_capture (calm_world 3 true) image_B
                prompt_explain
                (set_pending_prompt (Some prompt_explain)
                   (set_screenshot_history [image_A] (listening_app empty_config)))
                Hnonempty) as (Htaken & _ & _).
    destruct (Htaken eq_refl) as ((_ & Hhead & _ & _) & _). exact Hhead.
  - destruct (dispatch_sends_history_then_capture (calm_world 3 true) image_B
                prompt_explain
                (set_pending_prompt (Some prompt_explain)
                   (set_screenshot_history [image_A] (listening_app empty_config)))
                Hnonempty) as (Htaken & _ & _).
    destruct (Htaken eq_refl) as ((_ & _ & _ & Hhistory) & _). exact Hhistory.
  - destruct (dispatch_sends_history_then_capture (calm_world 3 true) image_B
                prompt_explain
                (set_pending_prompt (Some prompt_explain)
                   (set_screenshot_history [image_A] (listening_app empty_config)))
                Hnonempty) as (Htaken & _ & _).
    destruct (Htaken eq_refl) as (_ & Hreleased). exact Hreleased.
  - destruct (dispatch_sends_history_then_capture no_selector_world
                (Byte.x50 :: Byte.x4e :: Byte.x47 :: nil) prompt_explain
                (set_pending_prompt (Some prompt_explain)
                   (set_screenshot_history [image_A] (listening_app empty_config)))
                Hnonempty) as (_ & Hfallback & _).
    destruct (Hfallback eq_refl Hfails eq_refl) as (_ & Hhead & _ & _). exact Hhead.
  - destruct (dispatch_sends_history_then_capture no_selector_world
                (Byte.x50 :: Byte.x4e :: Byte.x47 :: nil) prompt_explain
                (set_pending_prompt (Some prompt_explain)
                   (set_screenshot_history [image_A] (listening_app empty_config)))
                Hnonempty) as (_ & Hfallback & _).
    destruct (Hfallback eq_refl Hfails eq_refl) as (_ & _ & _ & Hhistory).
    exact Hhistory.
  - destruct (dispatch_sends_history_then_capture (calm_world 3 false)
                (Byte.x50 :: Byte.x4e :: Byte.x47 :: nil) prompt_explain
                (set_pending_prompt (Some prompt_explain)
                   (set_screenshot_history [image_A] (listening_app empty_config)))
                Hnonempty) as (_ & _ & Hdirect).
    destruct (Hdirect eq_refl eq_refl Hnamed) as (_ & Hhead & _ & _). exact Hhead.
  - destruct (dispatch_sends_history_then_capture (calm_world 3 false)
                (Byte.x50 :: Byte.x4e :: Byte.x47 :: nil) prompt_explain
                (set_pending_prompt (Some prompt_explain)
                   (set_screenshot_history [image_A] (listening_app empty_config)))
                Hnonempty) as (_ & _ & Hdirect).
    destruct (Hdirect eq_refl eq_refl Hnamed) as (_ & _ & _ & Hhistory).
    exact Hhistory.
Defined.

(** ** The current prompt index *)

(** A prompt request returns normally and touches neither the prompt index
    nor the configuration. *)
Lemma trigger_prompt_keeps_index (w : World) (prompt : Prompt) (s : App) :
  outcome (trigger_prompt w prompt) s = Returned tt
  /\ current_prompt_index (run (trigger_prompt w prompt) s) = current_prompt_index s
  /\ config_manager (run (trigger_prompt w prompt) s) = config_manager s.
Proof.
  destruct s as [h sel pending index ov radios label cfg tr].
  unfold trigger_prompt, getitem, process_prompt_with_screenshot,
    _start_async_api_request.
  run_method.
  destruct (prompt !! "name") as [name |]; simpl; [| repeat split; reflexivity].
  destruct (use_selector w); simpl; [repeat split; reflexivity |].
  destruct (capture_screen w) as [png | e]; simpl; repeat split; reflexivity.
Qed.

Lemma index_in_range_lookup (index : Z) (prompts : list Prompt) :
  index_in_range index prompts = true ->
  exists prompt, prompts !! Z.to_nat index = Some prompt.
Proof.
  unfold index_in_range. intros Hrange.
  apply andb_true_iff in Hrange as [Hlow Hhigh].
  apply Z.leb_le in Hlow. apply Z.ltb_lt in Hhigh.
  apply lookup_lt_is_Some_2. lia.
Qed.

(** C8, as stated, does not hold.  With one prompt configured and the index
    5 stored, refreshing the display resets the index in memory but leaves 5
    in the configuration; and with no prompt configured, neither sending nor
    refreshing resets the stored index 3. *)
Lemma index_reset_not_always_persisted :
  let one_prompt :=
    {| cfg_provider := None; cfg_prompts := Some [prompt_explain];
       cfg_current_prompt_index := Some 5%Z |} in
  let no_prompt :=
    {| cfg_provider := None; cfg_prompts := Some [];
       cfg_current_prompt_index := Some 3%Z |} in
  let shown := run update_current_prompt_display (listening_app one_prompt) in
  let sent := run (send_current_prompt (calm_world 3 true)) (listening_app no_prompt) in
  let shown_none := run update_current_prompt_display (listening_app no_prompt) in
  current_prompt_index (listening_app one_prompt) = 5%Z
  /\ current_prompt_index shown = 0%Z
  /\ cfg_current_prompt_index (config_manager shown) = Some 5%Z
  /\ current_prompt_index sent = 3%Z
  /\ cfg_current_prompt_index (config_manager sent) = Some 3%Z
  /\ trace sent = [Log Log_no_prompts WARNING]
  /\ current_prompt_index shown_none = 3%Z.
Proof. cbv zeta. repeat apply conj; reflexivity. Qed.

(** C8, amended.  With no prompt configured, sending and refreshing the
    display leave the index and the configuration as they are.  With
    prompts configured and the stored index out of range, sending sets the
    index to 0 in memory and in the configuration and goes on with the first
    prompt, and refreshing the display sets the index to 0 in memory and
    shows the first prompt.  With the stored index in range, sending goes on
    with the prompt at that index, and neither sending nor refreshing changes
    the index or the configuration. *)
Theorem prompt_index_reset_when_out_of_range (w : World) (s : App) :
  let prompts := default [] (cfg_prompts (config_manager s)) in
  let index := current_prompt_index s in
  let sent := run (send_current_prompt w) s in
  let shown := run update_current_prompt_display s in
  outcome (send_current_prompt w) s = Returned tt
  /\ outcome update_current_prompt_display s = Returned tt
  /\ match prompts with
     | [] =>
         current_prompt_index sent = index
         /\ config_manager sent = config_manager s
         /\ current_prompt_index shown = index
         /\ config_manager shown = config_manager s
     | first :: _ =>
         if index_in_range index prompts then
           (exists prompt,
              prompts !! Z.to_nat index = Some prompt
              /\ sent = run (trigger_prompt w prompt)
                          (add_effect
                             (Log (Log_send_prompt (index + 1)
                                     (prompt_name prompt (index + 1))) INFO) s)
              /\ trace shown
                 = if current_prompt_label s
                   then SetPromptLabel
                          (Label_current (index + 1) (prompt_name prompt (index + 1)))
                        :: trace s
                   else trace s)
           /\ current_prompt_index sent = index
           /\ config_manager sent = config_manager s
           /\ current_prompt_index shown = index
           /\ config_manager shown = config_manager s
         else
           sent = run (trigger_prompt w first)
                    (add_effect (Log (Log_index_reset_send (prompt_name first 1)) INFO)
                       (set_config_manager
                          (cfg_set_current_prompt_index 0 (config_manager s))
                          (set_current_prompt_index 0 s)))
           /\ current_prompt_index sent = 0%Z
           /\ cfg_current_prompt_index (config_manager sent) = Some 0%Z
           /\ current_prompt_index shown = 0%Z
           /\ trace shown
              = if current_prompt_label s
                then SetPromptLabel
                       (if prompt_truthy (Some first)
                        then Label_current 1 (prompt_name first 1)
                        else Label_no_prompts)
                     :: trace s
                else trace s
     end.
Proof.
  cbv zeta.
  destruct s as [h sel pending index ov radios label cfg tr].
  unfold send_current_prompt, update_current_prompt_display, set_label,
    prompts_getitem.
  run_method.
  destruct (default [] (cfg_prompts cfg)) as [| first rest] eqn:Hprompts; simpl.
  { destruct label; repeat apply conj; reflexivity. }
  destruct (index_in_range index (first :: rest)) eqn:Hrange; simpl.
  - destruct (index_in_range_lookup _ _ Hrange) as [prompt Hlookup].
    rewrite Hlookup. simpl.
    match goal with
    | |- context [trigger_prompt w prompt ?s0] =>
        destruct (trigger_prompt_keeps_index w prompt s0) as (Hout & Hindex & Hconfig);
        unfold run, outcome in Hout, Hindex, Hconfig;
        destruct (trigger_prompt w prompt s0) as [out s'] eqn:Htrigger
    end.
    simpl in *. subst out.
    destruct label; simpl; repeat apply conj; try assumption; try reflexivity;
      exists prompt; unfold run; rewrite Htrigger; repeat apply conj; reflexivity.
  - match goal with
    | |- context [trigger_prompt w first ?s0] =>
        destruct (trigger_prompt_keeps_index w first s0) as (Hout & Hindex & Hconfig);
        unfold run, outcome in Hout, Hindex, Hconfig;
        destruct (trigger_prompt w first s0) as [out s'] eqn:Htrigger
    end.
    simpl in *. subst out.
    destruct label, (bool_decide (first <> ∅)); simpl;
      unfold run; rewrite ?Htrigger;
      repeat apply conj; try assumption; try reflexivity;
      now rewrite Hconfig.
Qed.

(** * Further properties *)

(** ** Missing keys *)

(** X1. A prompt without the key [name] is not triggered: the [KeyError]
    is caught and logged at level ERROR, and nothing else happens: no
    prompt becomes pending, no signal is emitted, the screen is not
    captured. *)
Theorem trigger_prompt_needs_name (w : World) (prompt : Prompt) (s : App) :
  prompt !! "name" = None ->
  trigger_prompt w prompt s
  = (Returned tt, add_effect (Log (Log_prompt_failed (KeyError "name")) ERROR) s).
Proof.
  intros Hname. unfold trigger_prompt, getitem. rewrite Hname. reflexivity.
Qed.

Lemma trigger_prompt_needs_name_witness :
  pending_prompt
    (run (trigger_prompt (calm_world 3 true) prompt_nameless)
       (listening_app empty_config))
  = None.
Proof.
  assert (Hname : prompt_nameless !! "name" = None) by reflexivity.
  unfold run.
  rewrite (trigger_prompt_needs_name (calm_world 3 true)
             prompt_nameless (listening_app empty_config) Hname).
  reflexivity.
Defined.

(** X2. When the provider service is available but the prompt has no key
    [content], the worker reports the [KeyError] as a failure response,
    whatever the service would have answered, and schedules the cleanup. *)
Theorem worker_needs_content (w : World) (service : Service)
    (all_images : list bytes) (prompt : Prompt) (provider : string) (s : App) :
  get_service w provider = Returned service ->
  prompt !! "content" = None ->
  _async_api_worker w all_images prompt provider s
  = (Returned tt,
     add_effect SingleShotCleanup
       (add_effect (EmitApiResponse (failure_response (KeyError "content")))
          (add_effect (Log (Log_text "API调用异常: 'content'") ERROR) s))).
Proof.
  intros Hservice Hcontent. unfold _async_api_worker, getitem. run_method.
  rewrite Hservice. simpl. rewrite Hcontent. reflexivity.
Qed.

Lemma worker_needs_content_witness :
  hd_error
    (trace (run (_async_api_worker (calm_world 3 true) [image_A]
                   prompt_contentless "Gemini")
              (listening_app empty_config)))
  = Some SingleShotCleanup.
Proof.
  assert (Hcontent : prompt_contentless !! "content" = None) by reflexivity.
  unfold run.
  rewrite (worker_needs_content (calm_world 3 true) echo_service [image_A]
             prompt_contentless "Gemini" (listening_app empty_config)
             eq_refl Hcontent).
  reflexivity.
Defined.

(** ** What the response handler takes for an error *)

(** X3. When the provider returns nothing ([None] or an empty text), the
    worker emits a fixed text that does not carry the error prefix; the
    response handler therefore treats it as an answer: it searches it for
    code, renders it as markdown and shows the result, and logs nothing at
    level ERROR. *)
Theorem empty_result_is_shown_as_answer (w w_ui : World)
    (all_images : list bytes) (prompt : Prompt) (provider : string)
    (html : string) (s : App) :
  provider_returns_nothing w all_images prompt provider ->
  overlay s = true ->
  extract_code_blocks w_ui no_response_text = Returned "" ->
  markdown_render w_ui no_response_text = Returned html ->
  let s1 := run (_async_api_worker w all_images prompt provider) s in
  let s2 := run (handle_api_response w_ui no_response_text) s1 in
  trace s1 = SingleShotCleanup :: EmitApiResponse no_response_text :: trace s
  /\ String.prefix "错误:" no_response_text = false
  /\ outcome (handle_api_response w_ui no_response_text) s1 = Returned tt
  /\ trace s2
     = Log Log_response_shown INFO
       :: OverlayHandleResponse html
       :: MarkdownRender no_response_text
       :: Log (Log_response_preview no_response_text) INFO
       :: Log Log_no_code_block INFO
       :: ExtractCodeBlocks no_response_text
       :: Log (Log_response_begin 13) INFO
       :: trace s1
  /\ count_effects is_error_log (trace s2) = count_effects is_error_log (trace s).
Proof.
  intros (service & content & Hservice & Hcontent & Hnothing) Hoverlay Hextract Hrender.
  cbv zeta.
  assert (Hworker :
    _async_api_worker w all_images prompt provider s
    = (Returned tt,
       add_effect SingleShotCleanup (add_effect (EmitApiResponse no_response_text) s))).
  { unfold _async_api_worker, getitem. run_method.
    rewrite Hservice. simpl. rewrite Hcontent. simpl.
    destruct Hnothing as [-> | ->]; reflexivity. }
  unfold run, outcome. rewrite Hworker. simpl.
  unfold handle_api_response, overlay_call.
  change (String.prefix "错误:" no_response_text) with false.
  run_method. rewrite Hextract. simpl. rewrite Hrender. simpl.
  rewrite Hoverlay. simpl. repeat apply conj; reflexivity.
Qed.

Lemma empty_result_is_shown_as_answer_witness :
  hd_error
    (trace
       (run (handle_api_response silent_world no_response_text)
          (run (_async_api_worker silent_world [image_A] prompt_explain "Gemini")
             (listening_app empty_config))))
  = Some (Log Log_response_shown INFO).
Proof.
  assert (Hnothing : provider_returns_nothing silent_world [image_A] prompt_explain "Gemini").
  { exists (fun _ _ => Returned None), "Explain this code".
    repeat split; try reflexivity. left. reflexivity. }
  destruct (empty_result_is_shown_as_answer silent_world silent_world [image_A]
              prompt_explain "Gemini" ("<p>" +:+ no_response_text +:+ "</p>")
              (listening_app empty_config) Hnothing eq_refl eq_refl eq_refl)
    as (_ & _ & _ & Htrace & _).
  rewrite Htrace. reflexivity.
Defined.

Lemma error_prefix_nonempty (text : string) :
  String.prefix "错误:" text = true -> str_truthy text = true.
Proof. destruct text; [discriminate | reflexivity]. Qed.

(** X4. A text that the provider returns without raising, but which begins
    with the error prefix, is emitted as it is and then taken for a failure
    by the response handler: it is logged at level ERROR and shown in red,
    and it is neither searched for code nor rendered as markdown. *)
Theorem answer_with_error_prefix_is_an_error (w w_ui : World)
    (all_images : list bytes) (prompt : Prompt) (provider : string)
    (text : string) (s : App) :
  provider_returns w all_images prompt provider text ->
  String.prefix "错误:" text = true ->
  overlay s = true ->
  let s1 := run (_async_api_worker w all_images prompt provider) s in
  let s2 := run (handle_api_response w_ui text) s1 in
  trace s1 = SingleShotCleanup :: EmitApiResponse text :: trace s
  /\ outcome (handle_api_response w_ui text) s1 = Returned tt
  /\ trace s2
     = OverlayHandleResponse (red_paragraph text) :: Log (Log_text text) ERROR :: trace s1.
Proof.
  intros (service & content & Hservice & Hcontent & Hanswer) Hprefix Hoverlay.
  cbv zeta.
  assert (Hworker :
    _async_api_worker w all_images prompt provider s
    = (Returned tt,
       add_effect SingleShotCleanup (add_effect (EmitApiResponse text) s))).
  { unfold _async_api_worker, getitem. run_method.
    rewrite Hservice. simpl. rewrite Hcontent. simpl. rewrite Hanswer. simpl.
    rewrite (error_prefix_nonempty _ Hprefix). reflexivity. }
  unfold run, outcome. rewrite Hworker. simpl.
  unfold handle_api_response, overlay_call. rewrite Hprefix.
  run_method. rewrite Hoverlay. repeat apply conj; reflexivity.
Qed.

Lemma answer_with_error_prefix_is_an_error_witness :
  hd_error
    (trace
       (run (handle_api_response (calm_world 3 true) "错误: 404")
          (run (_async_api_worker (calm_world 3 true) [image_A]
                  prompt_error_echo "Gemini")
             (listening_app empty_config))))
  = Some (OverlayHandleResponse (red_paragraph "错误: 404")).
Proof.
  assert (Hanswer : provider_returns (calm_world 3 true) [image_A]
                      prompt_error_echo "Gemini" "错误: 404").
  { exists echo_service, "错误: 404". repeat split; reflexivity. }
  destruct (answer_with_error_prefix_is_an_error (calm_world 3 true) (calm_world 3 true)
              [image_A] prompt_error_echo "Gemini" "错误: 404"
              (listening_app empty_config) Hanswer eq_refl eq_refl)
    as (_ & _ & Htrace).
  rewrite Htrace. reflexivity.
Defined.

(** ** The response handler and the overlay *)

Ltac case_outcomes :=
  repeat match goal with
    | |- context [match ?o with Returned _ => _ | Raised _ => _ end] =>
        destruct o; simpl
    | |- context [if ?b then _ else _] => destruct b; simpl
    end.

(** X5. With the overlay in place, the response handler returns normally
    for every response, whatever the code extraction, the clipboard and the
    markdown renderer do (they may raise); it shows exactly one thing in the
    overlay, writes to the clipboard at most once, starts no thread, emits no
    signal, and changes no field of the object. *)
Theorem response_is_shown_exactly_once (w : World) (response : string) (s : App) :
  overlay s = true ->
  let handled := run (handle_api_response w response) s in
  outcome (handle_api_response w response) s = Returned tt
  /\ count_effects is_overlay_response (trace handled)
     = 1 + count_effects is_overlay_response (trace s)
  /\ count_effects is_copy (trace handled) <= 1 + count_effects is_copy (trace s)
  /\ count_effects is_thread_start (trace handled)
     = count_effects is_thread_start (trace s)
  /\ count_effects is_signal (trace handled) = count_effects is_signal (trace s)
  /\ same_fields s handled.
Proof.
  intros Hoverlay. cbv zeta.
  destruct s as [h sel pending index ov radios label cfg tr].
  simpl in Hoverlay. subst ov.
  unfold handle_api_response, overlay_call, same_fields. run_method.
  case_outcomes; repeat apply conj; try reflexivity; lia.
Qed.

Lemma response_is_shown_exactly_once_witness :
  count_effects is_overlay_response
    (trace (run (handle_api_response (calm_world 3 true) "Use a loop.")
              (listening_app empty_config)))
  = 1.
Proof.
  apply (response_is_shown_exactly_once (calm_world 3 true) "Use a loop."
           (listening_app empty_config) eq_refl).
Defined.

(** X6. While the overlay does not exist yet, the response handler raises
    an [AttributeError] for every response: its [except] clause calls the
    overlay again, outside any [try]. *)
Theorem response_without_overlay_raises (w : World) (response : string) (s : App) :
  overlay s = false ->
  outcome (handle_api_response w response) s = Raised (AttributeError "handle_response").
Proof.
  intros Hoverlay.
  destruct s as [h sel pending index ov radios label cfg tr].
  simpl in Hoverlay. subst ov.
  unfold handle_api_response, overlay_call. run_method.
  case_outcomes; reflexivity.
Qed.

Lemma response_without_overlay_raises_witness :
  outcome (handle_api_response (calm_world 3 true) "Use a loop.")
    (initial_app empty_config)
  = Raised (AttributeError "handle_response").
Proof.
  apply (response_without_overlay_raises (calm_world 3 true) "Use a loop."
           (initial_app empty_config) eq_refl).
Defined.

(** ** Streams that do not complete *)

Lemma forwarded_facts (chunks : list string) :
  forall (chunk_count : nat) (s : App),
  same_fields s (forwarded chunks chunk_count s)
  /\ count_effects is_content_chunk (trace (forwarded chunks chunk_count s))
     = length chunks + count_effects is_content_chunk (trace s)
  /\ count_effects is_finish_streaming (trace (forwarded chunks chunk_count s))
     = count_effects is_finish_streaming (trace s)
  /\ count_effects is_stream_processed (trace (forwarded chunks chunk_count s))
     = count_effects is_stream_processed (trace s)
  /\ count_effects is_overlay_response (trace (forwarded chunks chunk_count s))
     = count_effects is_overlay_response (trace s).
Proof.
  induction chunks as [| chunk chunks IH]; intros chunk_count s.
  - unfold same_fields. simpl. repeat apply conj; reflexivity.
  - simpl forwarded.
    destruct (IH (S chunk_count)
                (add_effect (OverlayContentChunk chunk)
                   (add_effect (Log (Log_chunk_appended (py_take 50 chunk)) INFO)
                      (add_effect (Log (Log_chunk (S chunk_count) false) INFO) s))))
      as (Hsame & Hchunks & Hfinish & Hprocessed & Hshown).
    rewrite Hchunks, Hfinish, Hprocessed, Hshown.
    unfold same_fields in *. simpl in *. repeat apply conj; try tauto; try lia.
Qed.

Lemma stream_loop_forwards (chunks : list string) (rest : Stream) :
  forall (full_response : string) (chunk_count : nat) (s : App),
  overlay s = true ->
  stream_loop (chunks_then chunks rest) full_response chunk_count s
  = stream_loop rest (full_response +:+ join chunks) (length chunks + chunk_count)
      (forwarded chunks chunk_count s).
Proof.
  induction chunks as [| chunk chunks IH]; intros full_response chunk_count s Hoverlay.
  - change (join []) with "". rewrite append_empty_r. reflexivity.
  - change (join (chunk :: chunks)) with (chunk +:+ join chunks).
    rewrite <- append_assoc.
    replace (length (chunk :: chunks) + chunk_count)
      with (length chunks + S chunk_count) by (simpl; lia).
    simpl forwarded. rewrite <- IH by exact Hoverlay.
    destruct s as [h sel pending index ov radios label cfg tr].
    simpl in Hoverlay. subst ov. reflexivity.
Qed.

(** X7. With the overlay in place, when the stream raises after some
    chunks, the streaming handler returns normally: every chunk received
    before was forwarded to the overlay, the overlay stream is finished
    once, the failure is logged at level ERROR, and, the text received so far
    not being empty and the renderer working, that text is rendered and shown
    instead; the complete-response step is not run. *)
Theorem broken_stream_shows_partial_text (w : World)
    (chunks : list string) (e : Exn) (after : Stream) (html : string) (s : App) :
  overlay s = true ->
  join chunks <> "" ->
  markdown_render w (join chunks) = Returned html ->
  let stream := chunks_then chunks (Raised e :: after) in
  let handler := _handle_streaming_response w stream in
  outcome handler s = Returned tt
  /\ (exists earlier,
        trace (run handler s)
        = OverlayHandleResponse html
          :: MarkdownRender (join chunks)
          :: Log (Log_stream_failed e) ERROR
          :: OverlayFinishStreaming
          :: earlier)
  /\ count_effects is_content_chunk (trace (run handler s))
     = length chunks + count_effects is_content_chunk (trace s)
  /\ count_effects is_finish_streaming (trace (run handler s))
     = 1 + count_effects is_finish_streaming (trace s)
  /\ count_effects is_stream_processed (trace (run handler s))
     = count_effects is_stream_processed (trace s).
Proof.
  intros Hoverlay Hnonempty Hrender. cbv zeta.
  set (started :=
         add_effect (Log Log_stream_begin INFO) (add_effect OverlayStartStreaming s)).
  assert (Hstarted : overlay started = true) by exact Hoverlay.
  destruct (forwarded_facts chunks 0 started)
    as (Hsame & Hchunks & Hfinish & Hprocessed & _).
  assert (Hov : overlay (forwarded chunks 0 started) = true).
  { destruct Hsame as (_ & _ & _ & _ & Hov & _). now rewrite Hov. }
  assert (Htruthy : str_truthy (join chunks) = true).
  { destruct (join chunks); [congruence | reflexivity]. }
  assert (Hhandler :
    _handle_streaming_response w (chunks_then chunks (Raised e :: after)) s
    = (Returned tt,
       add_effect (OverlayHandleResponse html)
         (add_effect (MarkdownRender (join chunks))
            (add_effect (Log (Log_stream_failed e) ERROR)
               (add_effect OverlayFinishStreaming (forwarded chunks 0 started)))))).
  { unfold _handle_streaming_response, overlay_call at 1. run_method.
    rewrite Hoverlay. simpl. fold started.
    rewrite (stream_loop_forwards chunks (Raised e :: after) "" 0 started Hstarted).
    change ("" +:+ join chunks) with (join chunks). simpl.
    unfold streaming_failed, overlay_call. run_method.
    rewrite Hov. simpl. rewrite Htruthy. simpl. rewrite Hrender. simpl.
    rewrite Hov. reflexivity. }
  unfold run, outcome. rewrite Hhandler. simpl.
  rewrite Hchunks, Hfinish, Hprocessed.
  repeat apply conj; try reflexivity. eexists. reflexivity.
Qed.

Lemma broken_stream_shows_partial_text_witness :
  outcome
    (_handle_streaming_response (calm_world 3 true)
       (chunks_then ["ab"; "cd"] [Raised (CollaboratorError "connection lost")]))
    (listening_app empty_config)
  = Returned tt.
Proof.
  assert (Hnonempty : join ["ab"; "cd"] <> "") by discriminate.
  apply (broken_stream_shows_partial_text (calm_world 3 true) ["ab"; "cd"]
           (CollaboratorError "connection lost") [] "<p>abcd</p>"
           (listening_app empty_config) eq_refl Hnonempty eq_refl).
Defined.

(** X8. With the overlay in place, when the stream ends without a
    completion item, the streaming handler returns normally after forwarding
    every chunk, but it never finishes the overlay stream, never runs the
    complete-response step and shows no final text. *)
Theorem stream_without_completion_is_left_open (w : World)
    (chunks : list string) (s : App) :
  overlay s = true ->
  let handler := _handle_streaming_response w (chunks_then chunks []) in
  outcome handler s = Returned tt
  /\ count_effects is_content_chunk (trace (run handler s))
     = length chunks + count_effects is_content_chunk (trace s)
  /\ count_effects is_finish_streaming (trace (run handler s))
     = count_effects is_finish_streaming (trace s)
  /\ count_effects is_stream_processed (trace (run handler s))
     = count_effects is_stream_processed (trace s)
  /\ count_effects is_overlay_response (trace (run handler s))
     = count_effects is_overlay_response (trace s).
Proof.
  intros Hoverlay. cbv zeta.
  set (started :=
         add_effect (Log Log_stream_begin INFO) (add_effect OverlayStartStreaming s)).
  assert (Hstarted : overlay started = true) by exact Hoverlay.
  destruct (forwarded_facts chunks 0 started)
    as (_ & Hchunks & Hfinish & Hprocessed & Hshown).
  assert (Hhandler :
    _handle_streaming_response w (chunks_then chunks []) s
    = (Returned tt, forwarded chunks 0 started)).
  { unfold _handle_streaming_response, overlay_call. run_method.
    rewrite Hoverlay. simpl. fold started.
    rewrite (stream_loop_forwards chunks [] "" 0 started Hstarted).
    reflexivity. }
  unfold run, outcome. rewrite Hhandler. simpl.
  rewrite Hchunks, Hfinish, Hprocessed, Hshown.
  repeat apply conj; reflexivity.
Qed.

Lemma stream_without_completion_is_left_open_witness :
  count_effects is_finish_streaming
    (trace (run (_handle_streaming_response (calm_world 3 true)
                   (chunks_then ["ab"; "cd"] []))
              (listening_app empty_config)))
  = 0.
Proof.
  apply (stream_without_completion_is_left_open (calm_world 3 true) ["ab"; "cd"]
           (listening_app empty_config) eq_refl).
Defined.

(** ** Saving a capture *)

(** A save returns normally, changes no field but the history, and records
    nothing but log lines. *)
Lemma save_screenshot_frame (w : World) (png : bytes) (s : App) :
  let saved := run (save_screenshot_to_history w png) s in
  outcome (save_screenshot_to_history w png) s = Returned tt
  /\ screenshot_selector saved = screenshot_selector s
  /\ pending_prompt saved = pending_prompt s
  /\ current_prompt_index saved = current_prompt_index s
  /\ overlay saved = overlay s
  /\ config_manager saved = config_manager s
  /\ (forall p, (forall m lvl, p (Log m lvl) = false) ->
        count_effects p (trace saved) = count_effects p (trace s)).
Proof.
  cbv zeta.
  destruct s as [h sel pending index ov radios label cfg tr].
  unfold save_screenshot_to_history, history_pop0, history_append. run_method.
  destruct (MAX_SCREENSHOT_HISTORY w <=? length h)%nat; [destruct h |]; simpl;
    repeat apply conj; try reflexivity; intros p Hp; rewrite ?Hp; reflexivity.
Qed.

(** X9. With limit 0 the history never takes a capture: on the empty
    history the eviction raises [IndexError], which is caught and logged at
    level ERROR, and the capture is dropped. *)
Theorem zero_limit_stores_nothing (w : World) (png : bytes) (s : App) :
  MAX_SCREENSHOT_HISTORY w = 0 ->
  screenshot_history s = [] ->
  save_screenshot_to_history w png s
  = (Returned tt, add_effect (Log (Log_screenshot_save_failed IndexError) ERROR) s).
Proof.
  intros Hlimit Hempty.
  destruct s as [h sel pending index ov radios label cfg tr].
  simpl in Hempty. subst h.
  unfold save_screenshot_to_history, history_pop0. run_method.
  rewrite Hlimit. reflexivity.
Qed.

Lemma zero_limit_stores_nothing_witness :
  screenshot_history
    (run (save_screenshot_to_history (calm_world 0 true) image_A)
       (listening_app empty_config))
  = [].
Proof.
  unfold run.
  rewrite (zero_limit_stores_nothing (calm_world 0 true) image_A
             (listening_app empty_config) eq_refl eq_refl).
  reflexivity.
Defined.

(** ** Capture flows *)

(** X10. A prompt request whose selection the user cancels leaves nothing
    behind: after the request, the start of the selector and the
    cancellation, no prompt is pending, the selector is closed and
    forgotten, the history is as before, and neither a capture nor a worker
    thread was started. *)
Theorem cancelled_request_leaves_nothing (w : World)
    (prompt : Prompt) (name : string) (s : App) :
  use_selector w = true ->
  selector_launch w = SelectorShown ->
  prompt !! "name" = Some name ->
  let requested := run (trigger_prompt w prompt) s in
  let shown := run (handle_screenshot_in_main_thread w true) requested in
  let cancelled := run on_screenshot_cancelled shown in
  outcome (handle_screenshot_in_main_thread w true) requested = Returned tt
  /\ outcome on_screenshot_cancelled shown = Returned tt
  /\ pending_prompt shown = Some prompt
  /\ screenshot_selector shown = Some ForPrompt
  /\ pending_prompt cancelled = None
  /\ screenshot_selector cancelled = None
  /\ screenshot_history cancelled = screenshot_history s
  /\ trace cancelled
     = SelectorClose
       :: Log Log_selector_cancelled INFO
       :: SelectorStart ForPrompt
       :: EmitTriggerScreenshot true
       :: Log (Log_trigger name) INFO
       :: trace s.
Proof.
  intros Hselector Hshown Hname. cbv zeta. unfold run, outcome.
  rewrite (trigger_prompt_selector _ _ _ _ Hselector Hname). simpl.
  unfold start_smart_screenshot, launch_selector. rewrite Hshown.
  repeat apply conj; reflexivity.
Qed.

Lemma cancelled_request_leaves_nothing_witness :
  pending_prompt
    (run on_screenshot_cancelled
       (run (handle_screenshot_in_main_thread (calm_world 3 true) true)
          (run (trigger_prompt (calm_world 3 true) prompt_explain)
             (listening_app empty_config))))
  = None.
Proof.
  apply (cancelled_request_leaves_nothing (calm_world 3 true) prompt_explain
           "explain" (listening_app empty_config) eq_refl eq_refl eq_refl).
Defined.

(** X11. A capture-only request that the user completes stores the
    capture and nothing more: after the request, the start of the selector
    and the capture, the history is the old one with the capture pushed, no
    prompt is pending, the selector is closed, and no worker thread was
    started. *)
Theorem capture_only_request_saves_capture (w : World) (png : bytes) (s : App) :
  use_selector w = true ->
  selector_launch w = SelectorShown ->
  let requested := run (capture_screenshot_only w) s in
  let shown := run (handle_screenshot_in_main_thread w false) requested in
  let saved := run (on_screenshot_only_taken w png) shown in
  outcome (capture_screenshot_only w) s = Returned tt
  /\ outcome (handle_screenshot_in_main_thread w false) requested = Returned tt
  /\ outcome (on_screenshot_only_taken w png) shown = Returned tt
  /\ screenshot_history saved
     = pushed (MAX_SCREENSHOT_HISTORY w) (screenshot_history s) png
  /\ pending_prompt saved = None
  /\ screenshot_selector saved = None
  /\ count_effects is_thread_start (trace saved)
     = count_effects is_thread_start (trace s)
  /\ count_effects is_capture_screen (trace saved)
     = count_effects is_capture_screen (trace s).
Proof.
  intros Hselector Hshown. cbv zeta.
  set (closed :=
         set_screenshot_selector None
           (add_effect SelectorClose
              (add_effect (Log Log_selector_only_done INFO)
                 (add_effect (SelectorStart ForHistory)
                    (set_screenshot_selector (Some ForHistory)
                       (add_effect (EmitTriggerScreenshot false)
                          (set_pending_prompt None s))))))).
  assert (Hrequested :
    capture_screenshot_only w s
    = (Returned tt, add_effect (EmitTriggerScreenshot false) (set_pending_prompt None s))).
  { unfold capture_screenshot_only. rewrite Hselector. reflexivity. }
  assert (Hstart : forall s0,
    handle_screenshot_in_main_thread w false s0
    = (Returned tt,
       add_effect (SelectorStart ForHistory)
         (set_screenshot_selector (Some ForHistory) s0))).
  { intros s0. unfold handle_screenshot_in_main_thread, start_smart_screenshot_only,
      launch_selector. rewrite Hshown. reflexivity. }
  assert (Htaken :
    on_screenshot_only_taken w png
      (add_effect (SelectorStart ForHistory)
         (set_screenshot_selector (Some ForHistory)
            (add_effect (EmitTriggerScreenshot false) (set_pending_prompt None s))))
    = save_screenshot_to_history w png closed).
  { reflexivity. }
  unfold run, outcome. rewrite Hrequested. cbn [fst snd].
  rewrite Hstart. cbn [fst snd]. rewrite Htaken.
  destruct (save_screenshot_frame w png closed)
    as (Hout & Hsel & Hpending & _ & _ & _ & Hcount).
  pose proof (save_history w png closed) as Hhistory.
  unfold run, outcome in Hout, Hsel, Hpending, Hcount, Hhistory.
  rewrite Hout, Hsel, Hpending, Hhistory.
  rewrite (Hcount is_thread_start) by reflexivity.
  rewrite (Hcount is_capture_screen) by reflexivity.
  repeat apply conj; reflexivity.
Qed.

Lemma capture_only_request_saves_capture_witness :
  screenshot_history
    (run (on_screenshot_only_taken (calm_world 3 true) image_A)
       (run (handle_screenshot_in_main_thread (calm_world 3 true) false)
          (run (capture_screenshot_only (calm_world 3 true))
             (listening_app empty_config))))
  = [image_A].
Proof.
  apply (capture_only_request_saves_capture (calm_world 3 true) image_A
           (listening_app empty_config) eq_refl eq_refl).
Defined.

(** X12. Without the selector, a capture-only request captures the screen
    itself and never raises: a capture that works is pushed to the history, a
    capture that fails is logged at level ERROR and the history stays as it
    was.  Either way no signal is emitted and a pending prompt is left alone
    (with the selector, the same request clears it). *)
Theorem capture_only_without_selector (w : World) (s : App) :
  use_selector w = false ->
  let captured := run (capture_screenshot_only w) s in
  outcome (capture_screenshot_only w) s = Returned tt
  /\ pending_prompt captured = pending_prompt s
  /\ count_effects is_signal (trace captured) = count_effects is_signal (trace s)
  /\ count_effects is_capture_screen (trace captured)
     = 1 + count_effects is_capture_screen (trace s)
  /\ match capture_screen w with
     | Returned png =>
         screenshot_history captured
         = pushed (MAX_SCREENSHOT_HISTORY w) (screenshot_history s) png
     | Raised e =>
         captured
         = add_effect (Log (Log_screenshot_save_failed e) ERROR)
             (add_effect CaptureScreen s)
     end.
Proof.
  intros Hselector. cbv zeta.
  unfold capture_screenshot_only. rewrite Hselector. run_method.
  destruct (capture_screen w) as [png | e]; simpl.
  - destruct (save_screenshot_frame w png (add_effect CaptureScreen s))
      as (Hout & _ & Hpending & _ & _ & _ & Hcount).
    pose proof (save_history w png (add_effect CaptureScreen s)) as Hhistory.
    unfold run, outcome in Hout, Hpending, Hcount, Hhistory.
    destruct (save_screenshot_to_history w png (add_effect CaptureScreen s))
      as [out saved].
    cbn [fst snd] in *. subst out. cbn [fst snd].
    rewrite (Hcount is_signal) by reflexivity.
    rewrite (Hcount is_capture_screen) by reflexivity.
    repeat apply conj; try reflexivity; assumption.
  - repeat apply conj; reflexivity.
Qed.

Lemma capture_only_without_selector_witness :
  screenshot_history
    (run (capture_screenshot_only (calm_world 3 false)) (listening_app empty_config))
  = [[Byte.x50; Byte.x4e; Byte.x47]].
Proof.
  apply (capture_only_without_selector (calm_world 3 false)
           (listening_app empty_config) eq_refl).
Defined.

(** X13. When the selector cannot start and no prompt is pending (none, or
    an empty dictionary), the prompt slot gives the request up: it logs the
    selector failure and returns, without capturing the screen and without
    starting a worker thread. *)
Theorem selector_failure_without_prompt_is_dropped (w : World) (e : Exn) (s : App) :
  selector_launch w = SelectorCtorRaises e \/ selector_launch w = SelectorStartRaises e ->
  prompt_truthy (pending_prompt s) = false ->
  let dropped := run (start_smart_screenshot w) s in
  outcome (start_smart_screenshot w) s = Returned tt
  /\ trace dropped = Log (Log_selector_failed e) ERROR :: trace s
  /\ screenshot_history dropped = screenshot_history s
  /\ pending_prompt dropped = pending_prompt s.
Proof.
  intros Hlaunch Hfalsy. cbv zeta.
  destruct s as [h sel pending index ov radios label cfg tr].
  simpl in Hfalsy.
  unfold start_smart_screenshot, launch_selector.
  destruct Hlaunch as [-> | ->]; run_method;
    (destruct pending as [prompt |]; [rewrite Hfalsy |]);
    repeat apply conj; reflexivity.
Qed.

Lemma selector_failure_without_prompt_is_dropped_witness :
  count_effects is_capture_screen
    (trace (run (start_smart_screenshot no_selector_world) (listening_app empty_config)))
  = 0.
Proof.
  destruct (selector_failure_without_prompt_is_dropped no_selector_world
              (CollaboratorError "no display") (listening_app empty_config)
              (or_intror eq_refl) eq_refl) as (_ & Htrace & _).
  rewrite Htrace. reflexivity.
Defined.

(** ** The worker and the object *)

(** X14. The worker thread reads and writes no field of the object: for
    every provider behaviour, all fields are as before, and the last thing it
    does is to schedule the history cleanup on the main thread, exactly
    once. *)
Theorem worker_touches_only_the_trace (w : World)
    (all_images : list bytes) (prompt : Prompt) (provider : string) (s : App) :
  let answered := run (_async_api_worker w all_images prompt provider) s in
  same_fields s answered
  /\ hd_error (trace answered) = Some SingleShotCleanup
  /\ count_effects is_cleanup_timer (trace answered)
     = 1 + count_effects is_cleanup_timer (trace s)
  /\ count_effects is_thread_start (trace answered)
     = count_effects is_thread_start (trace s).
Proof.
  cbv zeta.
  destruct s as [h sel pending index ov radios label cfg tr].
  unfold _async_api_worker, getitem, same_fields. run_method.
  destruct (get_service w provider) as [service | e]; simpl;
    [| repeat apply conj; reflexivity].
  destruct (prompt !! "content") as [content |]; simpl;
    [| repeat apply conj; reflexivity].
  destruct (service all_images content) as [[text |] | e]; simpl;
    [destruct (str_truthy text); simpl | |]; repeat apply conj; reflexivity.
Qed.

Lemma worker_keeps_history_and_prompt (w : World)
    (all_images : list bytes) (prompt : Prompt) (provider : string) (s : App) :
  screenshot_history (run (_async_api_worker w all_images prompt provider) s)
  = screenshot_history s
  /\ pending_prompt (run (_async_api_worker w all_images prompt provider) s)
     = pending_prompt s.
Proof.
  destruct s as [h sel pending index ov radios label cfg tr].
  unfold _async_api_worker, getitem. run_method.
  destruct (get_service w provider) as [service | e]; simpl; [| split; reflexivity].
  destruct (prompt !! "content") as [content |]; simpl; [| split; reflexivity].
  destruct (service all_images content) as [[text |] | e]; simpl;
    [destruct (str_truthy text); simpl | |]; split; reflexivity.
Qed.

Lemma save_all_frame (w : World) (pngs : list bytes) :
  forall s : App,
  pending_prompt (save_all w pngs s) = pending_prompt s
  /\ config_manager (save_all w pngs s) = config_manager s.
Proof.
  induction pngs as [| png pngs IH]; intros s; [split; reflexivity |].
  change (save_all w (png :: pngs) s)
    with (save_all w pngs (run (save_screenshot_to_history w png) s)).
  destruct (IH (run (save_screenshot_to_history w png) s)) as [Hpending Hconfig].
  destruct (save_screenshot_frame w png s) as (_ & _ & Hp & _ & _ & Hc & _).
  rewrite Hpending, Hconfig, Hp, Hc. split; reflexivity.
Qed.

Lemma on_screenshot_taken_dispatches (png : bytes) (prompt : Prompt) (s : App) :
  pending_prompt s = Some prompt ->
  prompt <> ∅ ->
  hd_error (trace (run (on_screenshot_taken png) s))
  = Some (ThreadStart (screenshot_history s ++ [png]) prompt (configured_provider s))
  /\ same_fields (set_screenshot_selector None (set_pending_prompt None s))
       (run (on_screenshot_taken png) s).
Proof.
  intros Hpending Hnonempty.
  destruct s as [h sel pending index ov radios label cfg tr].
  simpl in Hpending. subst pending.
  unfold on_screenshot_taken, close_selector, prompt_truthy, same_fields. run_method.
  destruct sel as [k |]; simpl;
    rewrite (bool_decide_eq_true_2 _ Hnonempty);
    repeat apply conj; reflexivity.
Qed.

(** X15. Captures saved to an empty history travel with the next prompt
    request and are then dropped: with a non-empty prompt pending, the
    capture that arrives is dispatched together with the last
    [MAX_SCREENSHOT_HISTORY] saved captures before it, in order, and once the
    worker has run (whatever the provider did) and the cleanup it scheduled
    has run, the history is empty and no prompt is pending. *)
Theorem saved_captures_go_with_next_request (w w_api : World)
    (pngs : list bytes) (png : bytes) (prompt : Prompt) (s : App) :
  screenshot_history s = [] ->
  pending_prompt s = Some prompt ->
  prompt <> ∅ ->
  let sent := last_n (MAX_SCREENSHOT_HISTORY w) pngs ++ [png] in
  let taken := run (on_screenshot_taken png) (save_all w pngs s) in
  let answered :=
    run (_async_api_worker w_api sent prompt (configured_provider s)) taken in
  let cleaned := run _cleanup_screenshot_history answered in
  hd_error (trace taken) = Some (ThreadStart sent prompt (configured_provider s))
  /\ screenshot_history answered = last_n (MAX_SCREENSHOT_HISTORY w) pngs
  /\ screenshot_history cleaned = []
  /\ pending_prompt cleaned = None.
Proof.
  intros Hempty Hpending Hnonempty. cbv zeta.
  destruct (save_all_frame w pngs s) as [Hsaved_pending Hsaved_config].
  assert (Hsaved_history :
    screenshot_history (save_all w pngs s) = last_n (MAX_SCREENSHOT_HISTORY w) pngs).
  { rewrite save_all_history by (rewrite Hempty; simpl; lia). now rewrite Hempty. }
  rewrite Hpending in Hsaved_pending.
  destruct (on_screenshot_taken_dispatches png prompt (save_all w pngs s)
              Hsaved_pending Hnonempty) as [Hhead Hsame].
  rewrite Hsaved_history in Hhead.
  unfold configured_provider in *. rewrite Hsaved_config in Hhead.
  destruct Hsame as (Hh & _ & Hp & _).
  simpl in Hh, Hp.
  set (taken := run (on_screenshot_taken png) (save_all w pngs s)) in *.
  destruct (worker_keeps_history_and_prompt w_api
              (last_n (MAX_SCREENSHOT_HISTORY w) pngs ++ [png]) prompt
              (default "Gemini" (cfg_provider (config_manager s))) taken)
    as (Hah & Hap).
  set (answered := run (_async_api_worker w_api _ prompt _) taken) in *.
  repeat apply conj.
  - exact Hhead.
  - now rewrite Hah, Hh.
  - destruct answered as [h sel pending index ov radios label cfg tr].
    unfold _cleanup_screenshot_history. run_method. destruct h; reflexivity.
  - assert (Hpa : pending_prompt answered = None) by now rewrite Hap, Hp.
    destruct answered as [h sel pending index ov radios label cfg tr].
    simpl in Hpa. subst pending.
    unfold _cleanup_screenshot_history. run_method. destruct h; reflexivity.
Qed.

Lemma saved_captures_go_with_next_request_witness :
  hd_error
    (trace
       (run (on_screenshot_taken [Byte.x50])
          (save_all (calm_world 3 true) [image_A; image_B; image_C; image_D]
             (set_pending_prompt (Some prompt_explain) (listening_app empty_config)))))
  = Some (ThreadStart [image_B; image_C; image_D; [Byte.x50]] prompt_explain "Gemini").
Proof.
  assert (Hnonempty : prompt_explain <> ∅).
  { intros Heq.
    assert (Hname : prompt_explain !! "name" = (∅ : Prompt) !! "name") by congruence.
    vm_compute in Hname. discriminate Hname. }
  apply (saved_captures_go_with_next_request (calm_world 3 true) offline_world
           [image_A; image_B; image_C; image_D] [Byte.x50] prompt_explain
           (set_pending_prompt (Some prompt_explain) (listening_app empty_config))
           eq_refl eq_refl Hnonempty).
Defined.

(** ** Toggling the provider, again *)

(** X16. Switching the provider never raises and does not depend on the
    toast: whether showing the toast works or fails, the new provider is
    stored in the configuration and the switch is logged last; a toast
    failure only adds a warning to the log. *)
Theorem provider_toggle_survives_toast (w : World) (s : App) :
  let new_provider :=
    if decide (configured_provider s = "Gemini") then "GPT" else "Gemini" in
  let toggled := run (handle_toggle_provider w) s in
  outcome (handle_toggle_provider w) s = Returned tt
  /\ cfg_provider (config_manager toggled) = Some new_provider
  /\ hd_error (trace toggled) = Some (Log (Log_provider_switched new_provider) INFO)
  /\ count_effects is_error_log (trace toggled) = count_effects is_error_log (trace s)
  /\ match toast_show_message w new_provider with
     | Returned _ => True
     | Raised e => In (Log (Log_toast_failed e) WARNING) (trace toggled)
     end.
Proof.
  cbv zeta.
  destruct s as [h sel pending index ov radios label cfg tr].
  unfold handle_toggle_provider, configured_provider. run_method.
  destruct radios as [keys |]; simpl;
    [destruct (decide (_ ∈ keys)); simpl |];
    destruct (toast_show_message w _); simpl;
    repeat apply conj; try reflexivity; try exact I; right; left; reflexivity.
Qed.

(** ** Switching the current prompt *)

(** Refreshing the display returns normally and leaves the configuration
    alone; it keeps an index that is in range. *)
Lemma display_frame (s : App) :
  outcome update_current_prompt_display s = Returned tt
  /\ config_manager (run update_current_prompt_display s) = config_manager s
  /\ (index_in_range (current_prompt_index s)
        (default [] (cfg_prompts (config_manager s))) = true ->
      current_prompt_index (run update_current_prompt_display s)
      = current_prompt_index s).
Proof.
  destruct s as [h sel pending index ov radios label cfg tr].
  unfold update_current_prompt_display, set_label, prompts_getitem. run_method.
  destruct (default [] (cfg_prompts cfg)) as [| first rest] eqn:Hprompts; simpl.
  { destruct label; repeat apply conj; try reflexivity; discriminate. }
  destruct (index_in_range index (first :: rest)) eqn:Hrange; simpl.
  - destruct (index_in_range_lookup _ _ Hrange) as [prompt Hlookup].
    rewrite Hlookup. simpl. destruct label; repeat apply conj; reflexivity.
  - destruct label, (bool_decide (first <> ∅)); simpl;
      repeat apply conj; try reflexivity; discriminate.
Qed.

(** X17. Switching to prompt [index] checks the index against the
    configured prompts and never raises: an index in range becomes the
    current one both in memory and in the configuration, and the prompts
    themselves are not touched; an index out of range (negative, or not below
    the number of prompts) changes nothing and only logs a warning that
    names the one-based position. *)
Theorem switch_prompt_checks_bounds (w : World) (index : Z) (s : App) :
  let prompts := default [] (cfg_prompts (config_manager s)) in
  let switched := run (switch_prompt w index) s in
  outcome (switch_prompt w index) s = Returned tt
  /\ if index_in_range index prompts then
       current_prompt_index switched = index
       /\ cfg_current_prompt_index (config_manager switched) = Some index
       /\ cfg_prompts (config_manager switched) = cfg_prompts (config_manager s)
     else
       switched
       = add_effect
           (Log (Log_text ("⚠️ 提示词索引 " +:+ str_of_Z (index + 1) +:+ " 超出范围"))
              WARNING) s.
Proof.
  cbv zeta.
  destruct s as [h sel pending current ov radios label cfg tr].
  unfold switch_prompt, prompts_getitem. run_method.
  destruct (index_in_range index (default [] (cfg_prompts cfg))) eqn:Hrange; simpl;
    [| split; reflexivity].
  destruct (index_in_range_lookup _ _ Hrange) as [prompt Hlookup].
  rewrite Hlookup. simpl.
  match goal with
  | |- context [update_current_prompt_display ?s0] =>
      destruct (display_frame s0) as (Hout & Hconfig & Hindex);
      specialize (Hindex Hrange);
      unfold run, outcome in Hout, Hconfig, Hindex;
      destruct (update_current_prompt_display s0) as [out shown]
  end.
  cbn [fst snd] in Hout, Hconfig, Hindex. subst out.
  simpl in Hconfig, Hindex. simpl.
  destruct (toast_show_message w _) as [[] | toast_error]; simpl;
    rewrite Hconfig, Hindex; repeat apply conj; reflexivity.
Qed.

Lemma switch_prompt_state (w : World) (index : Z) (s : App) :
  index_in_range index (default [] (cfg_prompts (config_manager s))) = true ->
  current_prompt_index (run (switch_prompt w index) s) = index
  /\ default [] (cfg_prompts (config_manager (run (switch_prompt w index) s)))
     = default [] (cfg_prompts (config_manager s)).
Proof.
  intros Hrange.
  destruct s as [h sel pending current ov radios label cfg tr].
  unfold switch_prompt, prompts_getitem. run_method.
  simpl in Hrange. rewrite Hrange. simpl.
  destruct (index_in_range_lookup _ _ Hrange) as [prompt Hlookup].
  rewrite Hlookup. simpl.
  match goal with
  | |- context [update_current_prompt_display ?s0] =>
      destruct (display_frame s0) as (Hout & Hconfig & Hindex);
      specialize (Hindex Hrange);
      unfold run, outcome in Hout, Hconfig, Hindex;
      destruct (update_current_prompt_display s0) as [out shown]
  end.
  cbn [fst snd] in Hout, Hconfig, Hindex. subst out.
  simpl in Hconfig, Hindex. simpl.
  destruct (toast_show_message w _) as [[] | toast_error]; simpl;
    rewrite Hconfig, Hindex; split; reflexivity.
Qed.

(** X18. After a switch to an index in range, sending the current prompt
    sends the prompt at that index: the index is found in range, nothing is
    reset, and the prompt request is made for the prompt stored at [index]. *)
Theorem send_after_switch_sends_that_prompt (w w' : World) (index : Z) (s : App) :
  index_in_range index (default [] (cfg_prompts (config_manager s))) = true ->
  let switched := run (switch_prompt w index) s in
  exists prompt,
    default [] (cfg_prompts (config_manager s)) !! Z.to_nat index = Some prompt
    /\ run (send_current_prompt w') switched
       = run (trigger_prompt w' prompt)
           (add_effect
              (Log (Log_send_prompt (index + 1) (prompt_name prompt (index + 1))) INFO)
              switched)
    /\ current_prompt_index (run (send_current_prompt w') switched) = index.
Proof.
  intros Hrange. cbv zeta.
  destruct (index_in_range_lookup _ _ Hrange) as [prompt Hlookup].
  exists prompt. split; [exact Hlookup |].
  destruct (switch_prompt_state w index s Hrange) as (Hcurrent & Hprompts).
  set (switched := run (switch_prompt w index) s) in *.
  assert (Hsend :
    send_current_prompt w' switched
    = trigger_prompt w' prompt
        (add_effect
           (Log (Log_send_prompt (index + 1) (prompt_name prompt (index + 1))) INFO)
           switched)).
  { destruct switched as [h sel pending current ov radios label cfg tr].
    simpl in Hcurrent, Hprompts. subst current.
    unfold send_current_prompt, prompts_getitem. run_method.
    rewrite Hprompts.
    set (prompts := default [] (cfg_prompts (config_manager s))) in *.
    clearbody prompts.
    destruct prompts as [| first rest]; [discriminate Hlookup |].
    simpl. rewrite Hrange. simpl. rewrite Hlookup. simpl.
    match goal with
    | |- context [trigger_prompt w' prompt ?s0] =>
        destruct (trigger_prompt_keeps_index w' prompt s0) as (Hout & _);
        unfold outcome in Hout;
        destruct (trigger_prompt w' prompt s0) as [out sent]
    end.
    cbn [fst] in Hout. subst out. reflexivity. }
  unfold run. rewrite Hsend. split; [reflexivity |].
  destruct (trigger_prompt_keeps_index w' prompt
              (add_effect
                 (Log (Log_send_prompt (index + 1) (prompt_name prompt (index + 1))) INFO)
                 switched)) as (_ & Hindex & _).
  unfold run in Hindex. rewrite Hindex. exact Hcurrent.
Qed.

Lemma send_after_switch_sends_that_prompt_witness :
  pending_prompt
    (run (send_current_prompt (calm_world 3 true))
       (run (switch_prompt (calm_world 3 true) 1) (listening_app two_prompts)))
  = Some prompt_fix.
Proof.
  destruct (send_after_switch_sends_that_prompt (calm_world 3 true) (calm_world 3 true)
              1 (listening_app two_prompts) eq_refl)
    as (prompt & Hlookup & Hsend & _).
  rewrite Hsend.
  assert (Hprompt : prompt = prompt_fix) by (simpl in Hlookup; congruence).
  rewrite Hprompt. reflexivity.
Defined.

(** ** Validation of the settings form *)

Lemma str_truthy_true (s : string) : str_truthy s = true <-> s <> "".
Proof. destruct s; simpl; split; congruence. Qed.

Lemma str_truthy_false (s : string) : str_truthy s = false <-> s = "".
Proof. destruct s; simpl; split; congruence. Qed.

(** X19. The settings pass the validation exactly when a provider is
    chosen, the API key and the base URL of the chosen provider are filled in
    if it is Gemini or GPT (the fields of the other provider are not looked
    at, and any other provider name needs none), and the proxy is empty or
    accepted by the proxy check.  A rejection always comes with a title and a
    message, an acceptance with neither. *)
Theorem validation_accepts_exactly
    (validate_proxy_url : string -> bool * string) (settings : BasicSettings) :
  (fst (fst (_validate_basic_settings validate_proxy_url settings)) = true
   <-> settings_acceptable validate_proxy_url settings)
  /\ match _validate_basic_settings validate_proxy_url settings with
     | (true, None, None) => True
     | (false, Some _, Some _) => True
     | _ => False
     end.
Proof.
  destruct settings as [provider proxy opacity show_log gemini gpt].
  destruct gemini as [gemini_key gemini_url gemini_proxy gemini_model].
  destruct gpt as [gpt_key gpt_url gpt_proxy gpt_model].
  unfold _validate_basic_settings, settings_acceptable. simpl.
  destruct provider as [provider |]; simpl.
  2: { split; [| exact I]. split; [discriminate |].
       intros (p & Hp & _). discriminate Hp. }
  destruct (str_truthy provider) eqn:Hprovider; simpl.
  2: { apply str_truthy_false in Hprovider. subst provider.
       split; [| exact I]. split; [discriminate |].
       intros (p & Hp & Hne & _). congruence. }
  apply str_truthy_true in Hprovider.
  assert (Hproxy :
    (fst (fst (if str_truthy proxy
               then let '(valid, error) := validate_proxy_url proxy in
                    if valid then (true, None, None)
                    else (false, Some "代理设置错误", Some error)
               else (true, None (A:=string), None (A:=string)))) = true
     <-> (proxy <> "" -> fst (validate_proxy_url proxy) = true))
    /\ match (if str_truthy proxy
              then let '(valid, error) := validate_proxy_url proxy in
                   if valid then (true, None, None)
                   else (false, Some "代理设置错误", Some error)
              else (true, None, None)) with
       | (true, None, None) => True
       | (false, Some _, Some _) => True
       | _ => False
       end).
  { destruct (str_truthy proxy) eqn:Hp.
    - apply str_truthy_true in Hp.
      destruct (validate_proxy_url proxy) as [[|] error]; simpl;
        (split; [split; [auto | intros H; try reflexivity; now apply H] | exact I]).
    - apply str_truthy_false in Hp. subst proxy. simpl.
      split; [split; [intros _ H; congruence | reflexivity] | exact I]. }
  destruct Hproxy as [Hiff Hshape].
  destruct (decide (provider = "Gemini")) as [-> | Hgemini].
  - destruct (str_truthy gemini_key) eqn:Hkey; simpl.
    + destruct (str_truthy gemini_url) eqn:Hurl; simpl.
      * apply str_truthy_true in Hkey, Hurl.
        split; [| exact Hshape]. rewrite Hiff. split.
        -- intros Hp. exists "Gemini". repeat apply conj; auto; discriminate.
        -- intros (p & Hp & _ & _ & _ & Hpr). exact Hpr.
      * apply str_truthy_false in Hurl. subst gemini_url.
        split; [| exact I]. split; [discriminate |].
        intros (p & Hp & _ & Hg & _). injection Hp as <-.
        destruct (Hg eq_refl) as [_ Hu]. congruence.
    + apply str_truthy_false in Hkey. subst gemini_key.
      split; [| exact I]. split; [discriminate |].
      intros (p & Hp & _ & Hg & _). injection Hp as <-.
      destruct (Hg eq_refl) as [Hk _]. congruence.
  - destruct (decide (provider = "GPT")) as [-> | Hgpt].
    + destruct (str_truthy gpt_key) eqn:Hkey; simpl.
      * destruct (str_truthy gpt_url) eqn:Hurl; simpl.
        -- apply str_truthy_true in Hkey, Hurl.
           split; [| exact Hshape]. rewrite Hiff. split.
           ++ intros Hp. exists "GPT". repeat apply conj; auto; discriminate.
           ++ intros (p & Hp & _ & _ & _ & Hpr). exact Hpr.
        -- apply str_truthy_false in Hurl. subst gpt_url.
           split; [| exact I]. split; [discriminate |].
           intros (p & Hp & _ & _ & Hg & _). injection Hp as <-.
           destruct (Hg eq_refl) as [_ Hu]. congruence.
      * apply str_truthy_false in Hkey. subst gpt_key.
        split; [| exact I]. split; [discriminate |].
        intros (p & Hp & _ & _ & Hg & _). injection Hp as <-.
        destruct (Hg eq_refl) as [Hk _]. congruence.
    + split; [| exact Hshape]. rewrite Hiff. split.
      * intros Hp. exists provider. repeat apply conj; auto; intros; congruence.
      * intros (p & Hp & _ & _ & _ & Hpr). exact Hpr.
Qed.

(** ** The prompt manager *)

Ltac ui_method :=
  unfold urun, uoutcome, ubind, uret, uraise, uread, uupdate, ueffect,
    pm_get_prompts, pm_store_prompts; simpl.

Lemma keeps_uret {A} (a : A) : keeps_config (uret a).
Proof. intros s. split; reflexivity. Qed.

Lemma keeps_uraise {A} (e : Exn) : keeps_config (@uraise A e).
Proof. intros s. split; reflexivity. Qed.

Lemma keeps_uread {A} (f : PromptManagerWidget -> A) : keeps_config (uread f).
Proof. intros s. split; reflexivity. Qed.

Lemma keeps_uupdate (f : PromptManagerWidget -> PromptManagerWidget) :
  (forall s, pm_config (f s) = pm_config s /\ pm_trace (f s) = pm_trace s) ->
  keeps_config (uupdate f).
Proof. intros Hf s. apply Hf. Qed.

Lemma keeps_ubind {A B} (m : Ui A) (k : A -> Ui B) :
  keeps_config m -> (forall a, keeps_config (k a)) -> keeps_config (ubind m k).
Proof.
  intros Hm Hk s. unfold urun, ubind. specialize (Hm s). unfold urun in Hm.
  destruct (m s) as [[a | e] s1]; simpl in *.
  - destruct (Hk a s1) as [Hc Ht]. unfold urun in Hc, Ht.
    rewrite Hc, Ht. exact Hm.
  - exact Hm.
Qed.

Lemma keeps_ugetitem (d : Prompt) (key : string) : keeps_config (ugetitem d key).
Proof. unfold ugetitem. destruct (d !! key); [apply keeps_uret | apply keeps_uraise]. Qed.

Ltac keeps :=
  repeat first
    [ apply keeps_ubind; [| intros ?]
    | apply keeps_uret
    | apply keeps_uraise
    | apply keeps_uread
    | apply keeps_ugetitem
    | apply keeps_uupdate; intros ?; split; reflexivity ].

Lemma keeps_update_char_count : keeps_config update_char_count.
Proof. unfold update_char_count. keeps. Qed.

Lemma keeps_clear_prompt_fields : keeps_config clear_prompt_fields.
Proof. unfold clear_prompt_fields. keeps. Qed.

Lemma keeps_on_prompt_selected (index : Z) : keeps_config (on_prompt_selected index).
Proof.
  unfold on_prompt_selected. destruct (0 <=? index)%Z; keeps.
  destruct (snd <$> _); keeps. destruct (prompt_truthy _); keeps.
Qed.

Lemma keeps_add_items (prompts : list Prompt) : keeps_config (add_items prompts).
Proof. induction prompts as [| p prompts IH]; simpl; keeps. exact IH. Qed.

Lemma keeps_load_prompts_list : keeps_config load_prompts_list.
Proof.
  unfold load_prompts_list, pm_get_prompts. keeps.
  - apply keeps_add_items.
  - match goal with |- keeps_config (match ?l with _ => _ end) => destruct l end.
    + apply keeps_clear_prompt_fields.
    + apply keeps_ubind; [keeps | intros ?; apply keeps_on_prompt_selected].
Qed.

Lemma well_formed_nonempty (p : Prompt) : well_formed p -> prompt_truthy (Some p) = true.
Proof.
  intros ([name Hname] & _). simpl. apply bool_decide_eq_true_2.
  intros ->. rewrite lookup_empty in Hname. discriminate Hname.
Qed.

Lemma new_prompt_well_formed (name hotkey content : string) :
  well_formed (new_prompt name hotkey content)
  /\ new_prompt name hotkey content !! "hotkey" = Some hotkey.
Proof.
  unfold well_formed, new_prompt. repeat apply conj.
  - exists name. apply lookup_insert_eq.
  - exists hotkey. rewrite lookup_insert_ne by discriminate. apply lookup_insert_eq.
  - exists content. rewrite !lookup_insert_ne by discriminate. apply lookup_insert_eq.
  - rewrite lookup_insert_ne by discriminate. apply lookup_insert_eq.
Qed.

Lemma add_items_spec (prompts : list Prompt) :
  Forall well_formed prompts ->
  forall s,
  add_items prompts s
  = (Returned tt,
     pm_set_combo (prompts_combo s ++ map item_of prompts) (combo_index s) s).
Proof.
  induction 1 as [| p prompts Hp _ IH]; intros s.
  - simpl. rewrite app_nil_r. destruct s; reflexivity.
  - destruct Hp as ([name Hname] & [hotkey Hhotkey] & _).
    simpl. unfold ubind, ugetitem, uupdate. rewrite Hname, Hhotkey. simpl.
    rewrite IH. simpl. unfold item_of at 2. rewrite Hname, Hhotkey. simpl.
    rewrite <- app_assoc. reflexivity.
Qed.

Lemma load_prompts_list_spec (s : PromptManagerWidget) :
  Forall well_formed (stored_prompts s) ->
  load_prompts_list s = (Returned tt, reloaded s).
Proof.
  intros Hwf. unfold load_prompts_list, reloaded, pm_get_prompts.
  unfold ubind at 1, uupdate at 1. unfold ubind at 1, uread at 1.
  cbn [pm_config pm_set_combo]. fold (stored_prompts s).
  unfold ubind at 1. rewrite (add_items_spec _ Hwf). cbn [prompts_combo pm_set_combo app].
  destruct (stored_prompts s) as [| first rest] eqn:Hstored.
  - reflexivity.
  - apply Forall_cons in Hwf as [Hfirst _].
    pose proof (well_formed_nonempty _ Hfirst) as Htruthy.
    destruct Hfirst as ([name Hname] & [hotkey Hhotkey] & [content Hcontent]).
    unfold ubind at 1, uupdate at 1, on_prompt_selected.
    cbn [Z.leb Z.compare prompts_combo combo_index pm_set_combo map].
    unfold ubind at 1, uread at 1. cbn [prompts_combo pm_set_combo].
    change (snd <$> (item_of first :: map item_of rest) !! Z.to_nat 0)
      with (Some first).
    cbv iota. rewrite Htruthy.
    unfold ubind, ugetitem, uupdate, update_char_count, uread, showing.
    rewrite Hname, Hhotkey, Hcontent. reflexivity.
Qed.

Lemma reloaded_facts (s : PromptManagerWidget) :
  pm_config (reloaded s) = pm_config s
  /\ pm_trace (reloaded s) = pm_trace s
  /\ map snd (prompts_combo (reloaded s)) = stored_prompts s.
Proof.
  unfold reloaded. destruct (stored_prompts s) as [| first rest] eqn:Hstored.
  - repeat split; reflexivity.
  - repeat split; try reflexivity.
    simpl. f_equal. rewrite map_map. simpl. apply map_id.
Qed.

Lemma hotkey_taken_spec (prompts : list Prompt) (hotkey : string) :
  Forall well_formed prompts ->
  forall s,
  hotkey_taken prompts hotkey s
  = (Returned (bool_decide (Some hotkey ∈ hotkeys prompts)), s).
Proof.
  induction 1 as [| p prompts Hp _ IH]; intros s.
  - change (hotkeys []) with (@nil (option string)).
    rewrite bool_decide_eq_false_2 by apply not_elem_of_nil. reflexivity.
  - destruct Hp as (_ & [h Hh] & _).
    change (hotkeys (p :: prompts)) with (p !! "hotkey" :: hotkeys prompts).
    rewrite Hh.
    change (hotkey_taken (p :: prompts) hotkey s)
      with (ubind (ugetitem p "hotkey")
              (fun h0 => if decide (h0 = hotkey) then uret true
                         else hotkey_taken prompts hotkey) s).
    unfold ubind, ugetitem. rewrite Hh. cbn [uret].
    destruct (decide (h = hotkey)) as [-> | Hne].
    + rewrite bool_decide_eq_true_2 by (apply elem_of_cons; now left). reflexivity.
    + rewrite IH. f_equal. f_equal.
      apply bool_decide_ext. rewrite elem_of_cons. split; [auto |].
      intros [Heq | Hin]; [congruence | exact Hin].
Qed.

Lemma hotkey_taken_by_other_spec (prompts : list Prompt) (index : Z) (hotkey : string) :
  Forall well_formed prompts ->
  forall (i : Z) (s : PromptManagerWidget),
  exists b : bool,
    hotkey_taken_by_other prompts i index hotkey s = (Returned b, s)
    /\ (b = true <->
        exists j p, prompts !! j = Some p
                    /\ (i + Z.of_nat j)%Z <> index
                    /\ p !! "hotkey" = Some hotkey).
Proof.
  induction 1 as [| p prompts Hp _ IH]; intros i s.
  - exists false. split; [reflexivity |]. split; [discriminate |].
    intros (j & q & Hq & _). rewrite lookup_nil in Hq. discriminate Hq.
  - destruct Hp as (_ & [h Hh] & _). simpl.
    destruct (IH (i + 1)%Z s) as (b & Hrest & Hb).
    assert (Hshift :
      (exists j q, prompts !! j = Some q
                   /\ (i + 1 + Z.of_nat j)%Z <> index /\ q !! "hotkey" = Some hotkey)
      -> exists j q, (p :: prompts) !! j = Some q
                     /\ (i + Z.of_nat j)%Z <> index /\ q !! "hotkey" = Some hotkey).
    { intros (j & q & Hq & Hj & Hk). exists (S j), q.
      repeat split; [exact Hq | lia | exact Hk]. }
    destruct (decide (i = index)) as [-> | Hi].
    + exists b. split; [exact Hrest |]. rewrite Hb. split; [exact Hshift |].
      intros (j & q & Hq & Hj & Hk). destruct j as [| j].
      * exfalso. apply Hj. lia.
      * exists j, q. repeat split; [exact Hq | lia | exact Hk].
    + unfold ubind, ugetitem. rewrite Hh. simpl.
      destruct (decide (h = hotkey)) as [-> | Hne].
      * exists true. split; [reflexivity |]. split; [| reflexivity].
        intros _. exists 0, p. repeat split; [lia | exact Hh].
      * exists b. split; [exact Hrest |]. rewrite Hb. split; [exact Hshift |].
        intros (j & q & Hq & Hj & Hk). destruct j as [| j].
        -- simpl in Hq. injection Hq as <-. congruence.
        -- exists j, q. repeat split; [exact Hq | lia | exact Hk].
Qed.

Lemma clear_prompt_fields_spec (s : PromptManagerWidget) :
  clear_prompt_fields s = (Returned tt, cleared s).
Proof. reflexivity. Qed.

Lemma incomplete_true (name hotkey content : string) :
  incomplete name hotkey content = true <-> name = "" \/ hotkey = "" \/ content = "".
Proof.
  unfold incomplete. destruct name, hotkey, content; simpl; split; intros H;
    try reflexivity; try discriminate; auto;
    destruct H as [H | [H | H]]; discriminate H.
Qed.

(** What [add_prompt] does on well-formed stored prompts. *)
Lemma add_prompt_spec (strip : string -> string) (s : PromptManagerWidget) :
  Forall well_formed (stored_prompts s) ->
  let name := strip (prompt_name_edit s) in
  let hotkey := strip (prompt_hotkey_edit s) in
  let content := strip (prompt_content_edit s) in
  add_prompt strip s
  = (Returned tt,
     if incomplete name hotkey content then
       pm_add_effect (PmWarning "警告" "请填写完整信息") s
     else if bool_decide (Some hotkey ∈ hotkeys (stored_prompts s)) then
       pm_add_effect (PmWarning "警告" "快捷键已存在") s
     else
       pm_add_effect (PmInformation "成功" ("已添加提示词: " +:+ name))
         (pm_add_effect (PmLog ("添加提示词: " +:+ name))
            (cleared
               (reloaded
                  (pm_set_config
                     (cfg_set_prompts
                        (stored_prompts s ++ [new_prompt name hotkey content])
                        (pm_config s)) s))))).
Proof.
  intros Hwf. cbv zeta. unfold add_prompt.
  unfold ubind at 1, uread at 1. unfold ubind at 1, uread at 1.
  unfold ubind at 1, uread at 1.
  destruct (incomplete _ _ _); [reflexivity |].
  unfold ubind at 1, pm_get_prompts at 1, uread at 1. fold (stored_prompts s).
  unfold ubind at 1. rewrite (hotkey_taken_spec _ _ Hwf).
  destruct (bool_decide _); [reflexivity |].
  unfold ubind at 1, pm_store_prompts, uupdate at 1.
  unfold ubind at 1. rewrite load_prompts_list_spec.
  - reflexivity.
  - unfold stored_prompts at 1. cbn [pm_config pm_set_config cfg_prompts cfg_set_prompts default].
    apply Forall_app. split; [exact Hwf |].
    apply Forall_cons. split; [apply new_prompt_well_formed | apply Forall_nil_2].
Qed.

(** X20. Adding a prompt with an empty name, hotkey or content (after
    stripping) is refused: a warning is shown and nothing else changes, the
    stored prompts in particular. *)
Theorem add_prompt_rejects_incomplete (strip : string -> string) (s : PromptManagerWidget) :
  strip (prompt_name_edit s) = ""
  \/ strip (prompt_hotkey_edit s) = ""
  \/ strip (prompt_content_edit s) = "" ->
  add_prompt strip s
  = (Returned tt, pm_add_effect (PmWarning "警告" "请填写完整信息") s).
Proof.
  intros Hempty. apply incomplete_true in Hempty. unfold add_prompt.
  unfold ubind at 1, uread at 1. unfold ubind at 1, uread at 1.
  unfold ubind at 1, uread at 1. rewrite Hempty. reflexivity.
Qed.

Lemma add_prompt_rejects_incomplete_witness :
  stored_prompts (urun (add_prompt no_strip) (typed "review" "" "Review this" sample_manager))
  = [prompt_one; prompt_two].
Proof.
  unfold urun.
  rewrite (add_prompt_rejects_incomplete no_strip
             (typed "review" "" "Review this" sample_manager)
             (or_intror (or_introl eq_refl))).
  reflexivity.
Defined.

(** X21. Adding a prompt whose hotkey is already that of a stored prompt is
    refused: a warning is shown and nothing else changes. *)
Theorem add_prompt_rejects_taken_hotkey (strip : string -> string)
    (s : PromptManagerWidget) :
  Forall well_formed (stored_prompts s) ->
  strip (prompt_name_edit s) <> "" ->
  strip (prompt_hotkey_edit s) <> "" ->
  strip (prompt_content_edit s) <> "" ->
  Some (strip (prompt_hotkey_edit s)) ∈ hotkeys (stored_prompts s) ->
  add_prompt strip s
  = (Returned tt, pm_add_effect (PmWarning "警告" "快捷键已存在") s).
Proof.
  intros Hwf Hname Hhotkey Hcontent Htaken.
  rewrite (add_prompt_spec strip s Hwf).
  destruct (incomplete _ _ _) eqn:Hinc.
  - apply incomplete_true in Hinc. tauto.
  - rewrite (bool_decide_eq_true_2 _ Htaken). reflexivity.
Qed.

(** X22. Adding a complete prompt with a fresh hotkey stores it after the
    prompts already there, with exactly the stripped name, hotkey and
    content; the combo box then lists the stored prompts, the edit fields
    are empty, and the addition is logged and announced. *)
Theorem add_prompt_appends (strip : string -> string) (s : PromptManagerWidget) :
  Forall well_formed (stored_prompts s) ->
  strip (prompt_name_edit s) <> "" ->
  strip (prompt_hotkey_edit s) <> "" ->
  strip (prompt_content_edit s) <> "" ->
  Some (strip (prompt_hotkey_edit s)) ∉ hotkeys (stored_prompts s) ->
  let name := strip (prompt_name_edit s) in
  let added := urun (add_prompt strip) s in
  uoutcome (add_prompt strip) s = Returned tt
  /\ stored_prompts added
     = stored_prompts s
       ++ [new_prompt name (strip (prompt_hotkey_edit s)) (strip (prompt_content_edit s))]
  /\ map snd (prompts_combo added) = stored_prompts added
  /\ prompt_name_edit added = ""
  /\ prompt_hotkey_edit added = ""
  /\ prompt_content_edit added = ""
  /\ char_count_label added = 0
  /\ pm_trace added
     = PmInformation "成功" ("已添加提示词: " +:+ name)
       :: PmLog ("添加提示词: " +:+ name)
       :: pm_trace s.
Proof.
  intros Hwf Hname Hhotkey Hcontent Hfresh. cbv zeta.
  unfold urun, uoutcome. rewrite (add_prompt_spec strip s Hwf).
  destruct (incomplete _ _ _) eqn:Hinc.
  { apply incomplete_true in Hinc. tauto. }
  rewrite (bool_decide_eq_false_2 _ Hfresh). cbn [fst snd].
  match goal with
  | |- context [reloaded ?s1] =>
      destruct (reloaded_facts s1) as (Hconfig & Htrace & Hcombo);
      set (r := reloaded s1) in *
  end.
  assert (Hstored :
    forall e1 e2,
    stored_prompts (pm_add_effect e1 (pm_add_effect e2 (cleared r)))
    = stored_prompts s
      ++ [new_prompt (strip (prompt_name_edit s)) (strip (prompt_hotkey_edit s))
            (strip (prompt_content_edit s))]).
  { intros e1 e2.
    change (stored_prompts (pm_add_effect e1 (pm_add_effect e2 (cleared r))))
      with (default [] (cfg_prompts (pm_config r))).
    rewrite Hconfig. reflexivity. }
  repeat apply conj; try reflexivity.
  - apply Hstored.
  - rewrite Hstored.
    change (map snd (prompts_combo r)
            = stored_prompts s
              ++ [new_prompt (strip (prompt_name_edit s)) (strip (prompt_hotkey_edit s))
                    (strip (prompt_content_edit s))]).
    rewrite Hcombo. reflexivity.
  - change (PmInformation "成功" ("已添加提示词: " +:+ strip (prompt_name_edit s))
            :: PmLog ("添加提示词: " +:+ strip (prompt_name_edit s)) :: pm_trace r
            = PmInformation "成功" ("已添加提示词: " +:+ strip (prompt_name_edit s))
              :: PmLog ("添加提示词: " +:+ strip (prompt_name_edit s)) :: pm_trace s).
    rewrite Htrace. reflexivity.
Qed.

Lemma sample_prompts_well_formed : Forall well_formed [prompt_one; prompt_two].
Proof.
  apply Forall_cons. split; [apply new_prompt_well_formed |].
  apply Forall_cons. split; [apply new_prompt_well_formed | apply Forall_nil_2].
Qed.

Lemma sample_hotkeys : hotkeys [prompt_one; prompt_two] = [Some "alt+1"; Some "alt+2"].
Proof.
  unfold hotkeys, prompt_one, prompt_two. simpl.
  rewrite !(proj2 (new_prompt_well_formed _ _ _)). reflexivity.
Qed.

Lemma add_prompt_rejects_taken_hotkey_witness :
  stored_prompts
    (urun (add_prompt no_strip) (typed "review" "alt+1" "Review this" sample_manager))
  = [prompt_one; prompt_two].
Proof.
  assert (Hstored :
    stored_prompts (typed "review" "alt+1" "Review this" sample_manager)
    = [prompt_one; prompt_two]) by reflexivity.
  assert (Hwf :
    Forall well_formed
      (stored_prompts (typed "review" "alt+1" "Review this" sample_manager))).
  { rewrite Hstored. apply sample_prompts_well_formed. }
  assert (Htaken :
    Some (no_strip (prompt_hotkey_edit (typed "review" "alt+1" "Review this" sample_manager)))
    ∈ hotkeys (stored_prompts (typed "review" "alt+1" "Review this" sample_manager))).
  { rewrite Hstored, sample_hotkeys. apply elem_of_cons. now left. }
  unfold urun.
  rewrite (add_prompt_rejects_taken_hotkey no_strip
             (typed "review" "alt+1" "Review this" sample_manager) Hwf
             ltac:(discriminate) ltac:(discriminate) ltac:(discriminate) Htaken).
  reflexivity.
Defined.

Lemma add_prompt_appends_witness :
  stored_prompts
    (urun (add_prompt no_strip) (typed "review" "alt+3" "Review this" sample_manager))
  = [prompt_one; prompt_two; new_prompt "review" "alt+3" "Review this"].
Proof.
  assert (Hstored :
    stored_prompts (typed "review" "alt+3" "Review this" sample_manager)
    = [prompt_one; prompt_two]) by reflexivity.
  assert (Hwf :
    Forall well_formed
      (stored_prompts (typed "review" "alt+3" "Review this" sample_manager))).
  { rewrite Hstored. apply sample_prompts_well_formed. }
  assert (Hfresh :
    Some (no_strip (prompt_hotkey_edit (typed "review" "alt+3" "Review this" sample_manager)))
    ∉ hotkeys (stored_prompts (typed "review" "alt+3" "Review this" sample_manager))).
  { rewrite Hstored, sample_hotkeys. rewrite !not_elem_of_cons.
    repeat split; try discriminate. apply not_elem_of_nil. }
  destruct (add_prompt_appends no_strip
              (typed "review" "alt+3" "Review this" sample_manager) Hwf
              ltac:(discriminate) ltac:(discriminate) ltac:(discriminate) Hfresh)
    as (_ & Happended & _).
  rewrite Happended, Hstored. reflexivity.
Defined.

(** What [update_prompt] does on well-formed stored prompts, once an entry
    is selected and the fields are complete. *)
Lemma update_prompt_spec (strip : string -> string) (s : PromptManagerWidget) :
  Forall well_formed (stored_prompts s) ->
  (0 <= combo_index s)%Z ->
  incomplete (strip (prompt_name_edit s)) (strip (prompt_hotkey_edit s))
    (strip (prompt_content_edit s)) = false ->
  let name := strip (prompt_name_edit s) in
  let hotkey := strip (prompt_hotkey_edit s) in
  let content := strip (prompt_content_edit s) in
  exists b : bool,
    (b = true <-> taken_by_other (stored_prompts s) (combo_index s) hotkey)
    /\ update_prompt strip s
       = if b then
           (Returned tt, pm_add_effect (PmWarning "警告" "快捷键已存在") s)
         else if (combo_index s <? Z.of_nat (length (stored_prompts s)))%Z then
           (Returned tt,
            pm_add_effect (PmInformation "成功" ("已更新提示词: " +:+ name))
              (pm_add_effect (PmLog ("更新提示词: " +:+ name))
                 (reloaded
                    (pm_set_config
                       (cfg_set_prompts
                          (<[Z.to_nat (combo_index s) := new_prompt name hotkey content]>
                             (stored_prompts s))
                          (pm_config s)) s))))
         else (Raised IndexError, s).
Proof.
  intros Hwf Hindex Hcomplete. cbv zeta.
  destruct (hotkey_taken_by_other_spec (stored_prompts s) (combo_index s)
              (strip (prompt_hotkey_edit s)) Hwf 0%Z s) as (b & Hloop & Hb).
  exists b. split.
  { rewrite Hb. unfold taken_by_other.
    split; intros (j & p & Hp & Hj & Hk); exists j, p;
      (repeat split; [exact Hp | lia | exact Hk]). }
  unfold update_prompt. unfold ubind at 1, uread at 1.
  destruct (Z.ltb_spec (combo_index s) 0) as [Hneg | _]; [lia |].
  unfold ubind at 1, uread at 1. unfold ubind at 1, uread at 1.
  unfold ubind at 1, uread at 1. rewrite Hcomplete.
  unfold ubind at 1, pm_get_prompts at 1, uread at 1. fold (stored_prompts s).
  unfold ubind at 1. rewrite Hloop.
  destruct b; [reflexivity |].
  unfold ubind at 1, setitem.
  destruct (combo_index s <? Z.of_nat (length (stored_prompts s)))%Z; [| reflexivity].
  unfold uret at 1. unfold ubind at 1, pm_store_prompts, uupdate at 1.
  unfold ubind at 1. rewrite load_prompts_list_spec.
  - reflexivity.
  - unfold stored_prompts at 1.
    cbn [pm_config pm_set_config cfg_prompts cfg_set_prompts default].
    apply Forall_insert; [exact Hwf | apply new_prompt_well_formed].
Qed.

(** X23. Updating the selected prompt with complete fields and a hotkey no
    other stored prompt has replaces exactly the selected entry by the
    stripped name, hotkey and content (the entry may keep its own hotkey);
    the number of prompts stays, and the update is logged and announced. *)
Theorem update_prompt_replaces_entry (strip : string -> string)
    (s : PromptManagerWidget) :
  Forall well_formed (stored_prompts s) ->
  (0 <= combo_index s < Z.of_nat (length (stored_prompts s)))%Z ->
  strip (prompt_name_edit s) <> "" ->
  strip (prompt_hotkey_edit s) <> "" ->
  strip (prompt_content_edit s) <> "" ->
  ~ taken_by_other (stored_prompts s) (combo_index s) (strip (prompt_hotkey_edit s)) ->
  let name := strip (prompt_name_edit s) in
  let updated := urun (update_prompt strip) s in
  uoutcome (update_prompt strip) s = Returned tt
  /\ stored_prompts updated
     = <[Z.to_nat (combo_index s) :=
           new_prompt name (strip (prompt_hotkey_edit s)) (strip (prompt_content_edit s))]>
         (stored_prompts s)
  /\ length (stored_prompts updated) = length (stored_prompts s)
  /\ pm_trace updated
     = PmInformation "成功" ("已更新提示词: " +:+ name)
       :: PmLog ("更新提示词: " +:+ name)
       :: pm_trace s.
Proof.
  intros Hwf Hrange Hname Hhotkey Hcontent Hfree. cbv zeta.
  assert (Hcomplete :
    incomplete (strip (prompt_name_edit s)) (strip (prompt_hotkey_edit s))
      (strip (prompt_content_edit s)) = false).
  { destruct (incomplete _ _ _) eqn:Hinc; [| reflexivity].
    apply incomplete_true in Hinc. tauto. }
  destruct (update_prompt_spec strip s Hwf (proj1 Hrange) Hcomplete)
    as (b & Hb & Hupdate).
  destruct b; [exfalso; apply Hfree, Hb; reflexivity |].
  destruct (Z.ltb_spec (combo_index s) (Z.of_nat (length (stored_prompts s))))
    as [_ | Hstale]; [| lia].
  unfold urun, uoutcome. rewrite Hupdate. cbn [fst snd].
  match goal with
  | |- context [reloaded ?s1] =>
      destruct (reloaded_facts s1) as (Hconfig & Htrace & _);
      set (r := reloaded s1) in *
  end.
  assert (Hstored :
    forall e1 e2,
    stored_prompts (pm_add_effect e1 (pm_add_effect e2 r))
    = <[Z.to_nat (combo_index s) :=
          new_prompt (strip (prompt_name_edit s)) (strip (prompt_hotkey_edit s))
            (strip (prompt_content_edit s))]> (stored_prompts s)).
  { intros e1 e2.
    change (stored_prompts (pm_add_effect e1 (pm_add_effect e2 r)))
      with (default [] (cfg_prompts (pm_config r))).
    rewrite Hconfig. reflexivity. }
  repeat apply conj; try reflexivity.
  - apply Hstored.
  - rewrite Hstored. apply length_insert.
  - change (PmInformation "成功" ("已更新提示词: " +:+ strip (prompt_name_edit s))
            :: PmLog ("更新提示词: " +:+ strip (prompt_name_edit s)) :: pm_trace r
            = PmInformation "成功" ("已更新提示词: " +:+ strip (prompt_name_edit s))
              :: PmLog ("更新提示词: " +:+ strip (prompt_name_edit s)) :: pm_trace s).
    rewrite Htrace. reflexivity.
Qed.

(** X24. Updating is refused when another stored prompt already has the
    hotkey: a warning is shown and nothing else changes. *)
Theorem update_prompt_rejects_hotkey_of_other (strip : string -> string)
    (s : PromptManagerWidget) :
  Forall well_formed (stored_prompts s) ->
  (0 <= combo_index s)%Z ->
  strip (prompt_name_edit s) <> "" ->
  strip (prompt_hotkey_edit s) <> "" ->
  strip (prompt_content_edit s) <> "" ->
  taken_by_other (stored_prompts s) (combo_index s) (strip (prompt_hotkey_edit s)) ->
  update_prompt strip s
  = (Returned tt, pm_add_effect (PmWarning "警告" "快捷键已存在") s).
Proof.
  intros Hwf Hindex Hname Hhotkey Hcontent Htaken.
  assert (Hcomplete :
    incomplete (strip (prompt_name_edit s)) (strip (prompt_hotkey_edit s))
      (strip (prompt_content_edit s)) = false).
  { destruct (incomplete _ _ _) eqn:Hinc; [| reflexivity].
    apply incomplete_true in Hinc. tauto. }
  destruct (update_prompt_spec strip s Hwf Hindex Hcomplete) as (b & Hb & Hupdate).
  destruct b; [exact Hupdate |].
  apply Hb in Htaken. discriminate Htaken.
Qed.

(** X25. When the selected index is not below the number of stored prompts
    (the combo box is out of step with the configuration), updating with
    complete fields and a free hotkey raises [IndexError] and changes
    nothing, whereas deleting checks the index and silently does nothing. *)
Theorem stale_index_update_raises_delete_ignores (strip : string -> string)
    (confirmed : bool) (s : PromptManagerWidget) :
  Forall well_formed (stored_prompts s) ->
  (Z.of_nat (length (stored_prompts s)) <= combo_index s)%Z ->
  strip (prompt_name_edit s) <> "" ->
  strip (prompt_hotkey_edit s) <> "" ->
  strip (prompt_content_edit s) <> "" ->
  ~ taken_by_other (stored_prompts s) (combo_index s) (strip (prompt_hotkey_edit s)) ->
  update_prompt strip s = (Raised IndexError, s)
  /\ delete_prompt confirmed s = (Returned tt, s).
Proof.
  intros Hwf Hstale Hname Hhotkey Hcontent Hfree.
  assert (Hindex : (0 <= combo_index s)%Z) by lia.
  assert (Hcomplete :
    incomplete (strip (prompt_name_edit s)) (strip (prompt_hotkey_edit s))
      (strip (prompt_content_edit s)) = false).
  { destruct (incomplete _ _ _) eqn:Hinc; [| reflexivity].
    apply incomplete_true in Hinc. tauto. }
  split.
  - destruct (update_prompt_spec strip s Hwf Hindex Hcomplete) as (b & Hb & Hupdate).
    destruct b; [exfalso; apply Hfree, Hb; reflexivity |].
    destruct (Z.ltb_spec (combo_index s) (Z.of_nat (length (stored_prompts s))))
      as [Hlt | _]; [lia | exact Hupdate].
  - unfold delete_prompt. unfold ubind at 1, uread at 1.
    destruct (Z.ltb_spec (combo_index s) 0) as [Hneg | _]; [lia |].
    unfold ubind at 1, pm_get_prompts, uread at 1. fold (stored_prompts s).
    destruct (Z.ltb_spec (combo_index s) (Z.of_nat (length (stored_prompts s))))
      as [Hlt | _]; [lia | reflexivity].
Qed.

(** What [delete_prompt] does on well-formed stored prompts when an entry
    within the list is selected. *)
Lemma delete_prompt_spec (confirmed : bool) (s : PromptManagerWidget)
    (p : Prompt) (name : string) :
  Forall well_formed (stored_prompts s) ->
  (0 <= combo_index s)%Z ->
  stored_prompts s !! Z.to_nat (combo_index s) = Some p ->
  p !! "name" = Some name ->
  let question := PmQuestion "确认" ("确定要删除提示词 '" +:+ name +:+ "' 吗？") in
  delete_prompt confirmed s
  = (Returned tt,
     if confirmed then
       pm_add_effect (PmInformation "成功" ("已删除提示词: " +:+ name))
         (pm_add_effect (PmLog ("删除提示词: " +:+ name))
            (cleared
               (reloaded
                  (pm_set_config
                     (cfg_set_prompts
                        (delete (Z.to_nat (combo_index s)) (stored_prompts s))
                        (pm_config s))
                     (pm_add_effect question s)))))
     else pm_add_effect question s).
Proof.
  intros Hwf Hindex Hlookup Hname. cbv zeta.
  pose proof (lookup_lt_Some _ _ _ Hlookup) as Hlt.
  unfold delete_prompt. unfold ubind at 1, uread at 1.
  destruct (Z.ltb_spec (combo_index s) 0) as [Hneg | _]; [lia |].
  unfold ubind at 1, pm_get_prompts, uread at 1. fold (stored_prompts s).
  destruct (Z.ltb_spec (combo_index s) (Z.of_nat (length (stored_prompts s))))
    as [_ | Hstale]; [| lia].
  rewrite Hlookup. unfold ubind at 1, ugetitem. rewrite Hname. unfold uret at 1.
  unfold ubind at 1, ueffect at 1, uupdate at 1.
  destruct confirmed; [| reflexivity].
  unfold ubind at 1, pm_store_prompts, uupdate at 1.
  unfold ubind at 1. rewrite load_prompts_list_spec.
  - reflexivity.
  - unfold stored_prompts at 1.
    cbn [pm_config pm_set_config pm_add_effect cfg_prompts cfg_set_prompts default].
    apply Forall_delete. exact Hwf.
Qed.

(** X26. Deleting the selected prompt asks for confirmation, naming the
    prompt.  Confirmed, it removes exactly the selected entry from the stored
    prompts, reloads the list, empties the fields, and logs and announces
    the deletion; declined, it changes nothing beyond having asked. *)
Theorem delete_prompt_removes_entry (confirmed : bool) (s : PromptManagerWidget)
    (p : Prompt) (name : string) :
  Forall well_formed (stored_prompts s) ->
  (0 <= combo_index s)%Z ->
  stored_prompts s !! Z.to_nat (combo_index s) = Some p ->
  p !! "name" = Some name ->
  let question := PmQuestion "确认" ("确定要删除提示词 '" +:+ name +:+ "' 吗？") in
  let deleted := urun (delete_prompt confirmed) s in
  uoutcome (delete_prompt confirmed) s = Returned tt
  /\ if confirmed then
       stored_prompts deleted
       = delete (Z.to_nat (combo_index s)) (stored_prompts s)
       /\ map snd (prompts_combo deleted) = stored_prompts deleted
       /\ prompt_name_edit deleted = ""
       /\ prompt_hotkey_edit deleted = ""
       /\ prompt_content_edit deleted = ""
       /\ pm_trace deleted
          = PmInformation "成功" ("已删除提示词: " +:+ name)
            :: PmLog ("删除提示词: " +:+ name)
            :: question
            :: pm_trace s
     else deleted = pm_add_effect question s.
Proof.
  intros Hwf Hindex Hlookup Hname. cbv zeta.
  unfold urun, uoutcome.
  rewrite (delete_prompt_spec confirmed s p name Hwf Hindex Hlookup Hname).
  cbn [fst snd]. split; [reflexivity |].
  destruct confirmed; [| reflexivity].
  match goal with
  | |- context [reloaded ?s1] =>
      destruct (reloaded_facts s1) as (Hconfig & Htrace & Hcombo);
      set (r := reloaded s1) in *
  end.
  assert (Hstored :
    forall e1 e2,
    stored_prompts (pm_add_effect e1 (pm_add_effect e2 (cleared r)))
    = delete (Z.to_nat (combo_index s)) (stored_prompts s)).
  { intros e1 e2.
    change (stored_prompts (pm_add_effect e1 (pm_add_effect e2 (cleared r))))
      with (default [] (cfg_prompts (pm_config r))).
    rewrite Hconfig. reflexivity. }
  repeat apply conj; try reflexivity.
  - apply Hstored.
  - rewrite Hstored.
    change (map snd (prompts_combo r)
            = delete (Z.to_nat (combo_index s)) (stored_prompts s)).
    rewrite Hcombo. reflexivity.
  - change (PmInformation "成功" ("已删除提示词: " +:+ name)
            :: PmLog ("删除提示词: " +:+ name) :: pm_trace r
            = PmInformation "成功" ("已删除提示词: " +:+ name)
              :: PmLog ("删除提示词: " +:+ name)
              :: PmQuestion "确认" ("确定要删除提示词 '" +:+ name +:+ "' 吗？")
              :: pm_trace s).
    rewrite Htrace. reflexivity.
Qed.

(** ** The hotkeys of the stored prompts stay distinct *)

Lemma hotkeys_app (l k : list Prompt) : hotkeys (l ++ k) = hotkeys l ++ hotkeys k.
Proof. unfold hotkeys. apply map_app. Qed.

Lemma hotkeys_insert (l : list Prompt) (i : nat) (p : Prompt) :
  hotkeys (<[i := p]> l) = <[i := p !! "hotkey"]> (hotkeys l).
Proof.
  revert i. induction l as [| q l IH]; intros [| i]; simpl; try reflexivity.
  f_equal. apply IH.
Qed.

Lemma hotkeys_delete (l : list Prompt) (i : nat) :
  hotkeys (delete i l) = delete i (hotkeys l).
Proof.
  revert i. induction l as [| q l IH]; intros [| i]; simpl; try reflexivity.
  f_equal. apply IH.
Qed.

Lemma hotkeys_lookup (l : list Prompt) (i : nat) (h : option string) :
  hotkeys l !! i = Some h -> exists p, l !! i = Some p /\ p !! "hotkey" = h.
Proof.
  revert i. induction l as [| q l IH]; intros [| i] Hi; simpl in *; try discriminate.
  - injection Hi as <-. exists q. split; reflexivity.
  - apply IH. exact Hi.
Qed.

Lemma NoDup_insert_fresh {A} (l : list A) (i : nat) (x : A) :
  NoDup l ->
  (forall j, j <> i -> l !! j <> Some x) ->
  NoDup (<[i := x]> l).
Proof.
  rewrite !NoDup_alt. intros Hdup Hfresh a b y Ha Hb.
  apply list_lookup_insert_Some in Ha, Hb.
  destruct Ha as [(<- & <- & _) | (Hai & Ha)], Hb as [(<- & Hxy & _) | (Hbi & Hb)].
  - reflexivity.
  - exfalso. apply (Hfresh b); [congruence | exact Hb].
  - subst y. exfalso. apply (Hfresh a); [congruence | exact Ha].
  - apply (Hdup a b y Ha Hb).
Qed.

Lemma update_prompt_unselected (strip : string -> string) (s : PromptManagerWidget) :
  (combo_index s < 0)%Z ->
  update_prompt strip s
  = (Returned tt, pm_add_effect (PmWarning "警告" "请先选择要更新的提示词") s).
Proof.
  intros Hneg. unfold update_prompt. unfold ubind at 1, uread at 1.
  destruct (Z.ltb_spec (combo_index s) 0) as [_ | Hge]; [reflexivity | lia].
Qed.

Lemma update_prompt_incomplete (strip : string -> string) (s : PromptManagerWidget) :
  (0 <= combo_index s)%Z ->
  incomplete (strip (prompt_name_edit s)) (strip (prompt_hotkey_edit s))
    (strip (prompt_content_edit s)) = true ->
  update_prompt strip s
  = (Returned tt, pm_add_effect (PmWarning "警告" "请填写完整信息") s).
Proof.
  intros Hindex Hinc. unfold update_prompt. unfold ubind at 1, uread at 1.
  destruct (Z.ltb_spec (combo_index s) 0) as [Hneg | _]; [lia |].
  unfold ubind at 1, uread at 1. unfold ubind at 1, uread at 1.
  unfold ubind at 1, uread at 1. rewrite Hinc. reflexivity.
Qed.

Lemma delete_prompt_unselected (confirmed : bool) (s : PromptManagerWidget) :
  (combo_index s < 0)%Z ->
  delete_prompt confirmed s
  = (Returned tt, pm_add_effect (PmWarning "警告" "请先选择要删除的提示词") s).
Proof.
  intros Hneg. unfold delete_prompt. unfold ubind at 1, uread at 1.
  destruct (Z.ltb_spec (combo_index s) 0) as [_ | Hge]; [reflexivity | lia].
Qed.

Lemma delete_prompt_stale (confirmed : bool) (s : PromptManagerWidget) :
  (Z.of_nat (length (stored_prompts s)) <= combo_index s)%Z ->
  delete_prompt confirmed s = (Returned tt, s).
Proof.
  intros Hstale. unfold delete_prompt. unfold ubind at 1, uread at 1.
  destruct (Z.ltb_spec (combo_index s) 0) as [Hneg | _]; [lia |].
  unfold ubind at 1, pm_get_prompts, uread at 1. fold (stored_prompts s).
  destruct (Z.ltb_spec (combo_index s) (Z.of_nat (length (stored_prompts s))))
    as [Hlt | _]; [lia | reflexivity].
Qed.

(** X27. The prompt manager never stores two prompts with the same hotkey
    and never stores a prompt without a name, a hotkey or a content: if the
    stored prompts have the three keys and pairwise distinct hotkeys, they
    still do after [add_prompt], after [update_prompt] and after
    [delete_prompt], whatever the fields hold, whichever entry is selected
    and however the methods end. *)
Theorem stored_hotkeys_stay_distinct (strip : string -> string) (confirmed : bool)
    (s : PromptManagerWidget) :
  Forall well_formed (stored_prompts s) ->
  NoDup (hotkeys (stored_prompts s)) ->
  (Forall well_formed (stored_prompts (urun (add_prompt strip) s))
   /\ NoDup (hotkeys (stored_prompts (urun (add_prompt strip) s))))
  /\ (Forall well_formed (stored_prompts (urun (update_prompt strip) s))
      /\ NoDup (hotkeys (stored_prompts (urun (update_prompt strip) s))))
  /\ (Forall well_formed (stored_prompts (urun (delete_prompt confirmed) s))
      /\ NoDup (hotkeys (stored_prompts (urun (delete_prompt confirmed) s)))).
Proof.
  intros Hwf Hdup.
  assert (Hkept : forall e, stored_prompts (pm_add_effect e s) = stored_prompts s)
    by reflexivity.
  assert (Hreload : forall prompts cfg s0 e1 e2,
    stored_prompts
      (pm_add_effect e1 (pm_add_effect e2
         (reloaded (pm_set_config (cfg_set_prompts prompts cfg) s0))))
    = prompts).
  { intros prompts cfg s0 e1 e2.
    destruct (reloaded_facts (pm_set_config (cfg_set_prompts prompts cfg) s0))
      as (Hconfig & _).
    change (default [] (cfg_prompts (pm_config
              (reloaded (pm_set_config (cfg_set_prompts prompts cfg) s0))))
            = prompts).
    rewrite Hconfig. reflexivity. }
  assert (Hreload_cleared : forall prompts cfg s0 e1 e2,
    stored_prompts
      (pm_add_effect e1 (pm_add_effect e2
         (cleared
            (reloaded (pm_set_config (cfg_set_prompts prompts cfg) s0)))))
    = prompts).
  { intros prompts cfg s0 e1 e2. apply (Hreload prompts cfg s0 e1 e2). }
  repeat apply conj.
  - (* add_prompt *)
    unfold urun. rewrite (add_prompt_spec strip s Hwf). cbn [snd].
    destruct (incomplete _ _ _); cbv iota; [rewrite Hkept; exact Hwf |].
    destruct (bool_decide _); cbv iota; [rewrite Hkept; exact Hwf |].
    rewrite Hreload_cleared. apply Forall_app. split; [exact Hwf |].
    apply Forall_cons. split; [apply new_prompt_well_formed | apply Forall_nil_2].
  - unfold urun. rewrite (add_prompt_spec strip s Hwf). cbn [snd].
    destruct (incomplete _ _ _); cbv iota; [rewrite Hkept; exact Hdup |].
    destruct (bool_decide (Some (strip (prompt_hotkey_edit s)) ∈ _)) eqn:Htaken;
      cbv iota; [rewrite Hkept; exact Hdup |].
    apply bool_decide_eq_false_1 in Htaken.
    rewrite Hreload_cleared, hotkeys_app. apply NoDup_app. repeat split.
    + exact Hdup.
    + intros h Hh Hin. simpl in Hin.
      rewrite (proj2 (new_prompt_well_formed _ _ _)) in Hin.
      apply list_elem_of_singleton in Hin. subst h. exact (Htaken Hh).
    + apply NoDup_singleton.
  - (* update_prompt *)
    unfold urun.
    destruct (Z.lt_ge_cases (combo_index s) 0) as [Hneg | Hindex].
    { rewrite (update_prompt_unselected strip s Hneg). exact Hwf. }
    destruct (incomplete (strip (prompt_name_edit s)) (strip (prompt_hotkey_edit s))
                (strip (prompt_content_edit s))) eqn:Hinc.
    { rewrite (update_prompt_incomplete strip s Hindex Hinc). exact Hwf. }
    destruct (update_prompt_spec strip s Hwf Hindex Hinc) as (b & Hb & Hupdate).
    rewrite Hupdate. destruct b; cbv iota; [exact Hwf |].
    destruct (combo_index s <? Z.of_nat (length (stored_prompts s)))%Z; cbv iota;
      [| exact Hwf].
    cbn [snd]. rewrite Hreload.
    apply Forall_insert; [exact Hwf | apply new_prompt_well_formed].
  - unfold urun.
    destruct (Z.lt_ge_cases (combo_index s) 0) as [Hneg | Hindex].
    { rewrite (update_prompt_unselected strip s Hneg). exact Hdup. }
    destruct (incomplete (strip (prompt_name_edit s)) (strip (prompt_hotkey_edit s))
                (strip (prompt_content_edit s))) eqn:Hinc.
    { rewrite (update_prompt_incomplete strip s Hindex Hinc). exact Hdup. }
    destruct (update_prompt_spec strip s Hwf Hindex Hinc) as (b & Hb & Hupdate).
    rewrite Hupdate. destruct b; cbv iota; [exact Hdup |].
    destruct (combo_index s <? Z.of_nat (length (stored_prompts s)))%Z; cbv iota;
      [| exact Hdup].
    cbn [snd]. rewrite Hreload, hotkeys_insert.
    rewrite (proj2 (new_prompt_well_formed _ _ _)).
    apply NoDup_insert_fresh; [exact Hdup |].
    intros j Hj Hlookup.
    apply hotkeys_lookup in Hlookup as (p & Hp & Hk).
    assert (Hfalse : false = true); [| discriminate Hfalse].
    apply Hb. exists j, p. repeat split; [exact Hp | lia | exact Hk].
  - (* delete_prompt *)
    unfold urun.
    destruct (Z.lt_ge_cases (combo_index s) 0) as [Hneg | Hindex].
    { rewrite (delete_prompt_unselected confirmed s Hneg). exact Hwf. }
    destruct (Z.lt_ge_cases (combo_index s) (Z.of_nat (length (stored_prompts s))))
      as [Hlt | Hstale].
    2: { rewrite (delete_prompt_stale confirmed s Hstale). exact Hwf. }
    destruct (lookup_lt_is_Some_2 (stored_prompts s) (Z.to_nat (combo_index s)))
      as [p Hp]; [lia |].
    pose proof (proj1 (Forall_lookup _ _) Hwf _ _ Hp) as ([name Hname] & _).
    rewrite (delete_prompt_spec confirmed s p name Hwf Hindex Hp Hname). cbn [snd].
    destruct confirmed; cbv iota; [| exact Hwf].
    rewrite Hreload_cleared. apply Forall_delete. exact Hwf.
  - unfold urun.
    destruct (Z.lt_ge_cases (combo_index s) 0) as [Hneg | Hindex].
    { rewrite (delete_prompt_unselected confirmed s Hneg). exact Hdup. }
    destruct (Z.lt_ge_cases (combo_index s) (Z.of_nat (length (stored_prompts s))))
      as [Hlt | Hstale].
    2: { rewrite (delete_prompt_stale confirmed s Hstale). exact Hdup. }
    destruct (lookup_lt_is_Some_2 (stored_prompts s) (Z.to_nat (combo_index s)))
      as [p Hp]; [lia |].
    pose proof (proj1 (Forall_lookup _ _) Hwf _ _ Hp) as ([name Hname] & _).
    rewrite (delete_prompt_spec confirmed s p name Hwf Hindex Hp Hname). cbn [snd].
    destruct confirmed; cbv iota; [| exact Hdup].
    rewrite Hreload_cleared, hotkeys_delete.
    apply (sublist_NoDup _ _ Hdup), sublist_delete.
Qed.

(** ** Adding and deleting again *)

Lemma user_selects_frame (index : Z) (s : PromptManagerWidget) :
  pm_config (urun (user_selects index) s) = pm_config s
  /\ combo_index (urun (user_selects index) s) = index
  /\ (Forall well_formed (map snd (prompts_combo s)) ->
      uoutcome (user_selects index) s = Returned tt).
Proof.
  unfold user_selects, on_prompt_selected, update_char_count. ui_method.
  destruct (0 <=? index)%Z; simpl; [| repeat split; reflexivity].
  destruct (prompts_combo s !! Z.to_nat index) as [[text p] |] eqn:Hitem; simpl;
    [| repeat split; reflexivity].
  destruct (bool_decide (p <> ∅)); simpl; [| repeat split; reflexivity].
  unfold ugetitem.
  destruct (p !! "name") as [name |] eqn:Hname; simpl.
  2: { repeat split; try reflexivity. intros Hwf.
       apply (proj1 (Forall_lookup _ _)) with (i := Z.to_nat index) (x := p) in Hwf.
       - destruct Hwf as ([n Hn] & _). congruence.
       - rewrite list_lookup_fmap, Hitem. reflexivity. }
  destruct (p !! "hotkey") as [hotkey |] eqn:Hhotkey; simpl.
  2: { repeat split; try reflexivity. intros Hwf.
       apply (proj1 (Forall_lookup _ _)) with (i := Z.to_nat index) (x := p) in Hwf.
       - destruct Hwf as (_ & [n Hn] & _). congruence.
       - rewrite list_lookup_fmap, Hitem. reflexivity. }
  destruct (p !! "content") as [content |] eqn:Hcontent; simpl.
  2: { repeat split; try reflexivity. intros Hwf.
       apply (proj1 (Forall_lookup _ _)) with (i := Z.to_nat index) (x := p) in Hwf.
       - destruct Hwf as (_ & _ & [n Hn]). congruence.
       - rewrite list_lookup_fmap, Hitem. reflexivity. }
  repeat split; reflexivity.
Qed.

(** X28. Adding a prompt and then deleting it gives back the stored
    prompts: after a successful [add_prompt], when the user selects the new,
    last entry and confirms its deletion, the configuration holds the
    prompts it held before the addition. *)
Theorem add_then_delete_restores (strip : string -> string) (s : PromptManagerWidget) :
  Forall well_formed (stored_prompts s) ->
  strip (prompt_name_edit s) <> "" ->
  strip (prompt_hotkey_edit s) <> "" ->
  strip (prompt_content_edit s) <> "" ->
  Some (strip (prompt_hotkey_edit s)) ∉ hotkeys (stored_prompts s) ->
  let added := urun (add_prompt strip) s in
  let last := Z.of_nat (length (stored_prompts s)) in
  let selected := urun (user_selects last) added in
  let deleted := urun (delete_prompt true) selected in
  uoutcome (user_selects last) added = Returned tt
  /\ uoutcome (delete_prompt true) selected = Returned tt
  /\ stored_prompts deleted = stored_prompts s.
Proof.
  intros Hwf Hname Hhotkey Hcontent Hfresh. cbv zeta.
  set (new := new_prompt (strip (prompt_name_edit s)) (strip (prompt_hotkey_edit s))
                (strip (prompt_content_edit s))).
  assert (Hwf' : Forall well_formed (stored_prompts s ++ [new])).
  { apply Forall_app. split; [exact Hwf |].
    apply Forall_cons. split; [apply new_prompt_well_formed | apply Forall_nil_2]. }
  assert (Hadded :
    stored_prompts (urun (add_prompt strip) s) = stored_prompts s ++ [new]
    /\ map snd (prompts_combo (urun (add_prompt strip) s)) = stored_prompts s ++ [new]).
  { unfold urun. rewrite (add_prompt_spec strip s Hwf). cbn [snd].
    destruct (incomplete _ _ _) eqn:Hinc.
    { apply incomplete_true in Hinc. tauto. }
    rewrite (bool_decide_eq_false_2 _ Hfresh).
    match goal with
    | |- context [reloaded ?s1] =>
        destruct (reloaded_facts s1) as (Hconfig & _ & Hcombo);
        set (r := reloaded s1) in *
    end.
    split.
    - change (default [] (cfg_prompts (pm_config r)) = stored_prompts s ++ [new]).
      rewrite Hconfig. reflexivity.
    - change (map snd (prompts_combo r) = stored_prompts s ++ [new]).
      rewrite Hcombo. reflexivity. }
  destruct Hadded as [Hstored Hcombo].
  set (added := urun (add_prompt strip) s) in *.
  destruct (user_selects_frame (Z.of_nat (length (stored_prompts s))) added)
    as (Hconfig & Hindex & Hreturns).
  set (selected := urun (user_selects (Z.of_nat (length (stored_prompts s)))) added) in *.
  assert (Hselected : stored_prompts selected = stored_prompts s ++ [new]).
  { unfold stored_prompts at 1. rewrite Hconfig. exact Hstored. }
  assert (Hlookup : stored_prompts selected !! Z.to_nat (combo_index selected) = Some new).
  { rewrite Hindex, Hselected, Nat2Z.id. now apply list_lookup_middle. }
  assert (Hnew_name : new !! "name" = Some (strip (prompt_name_edit s))).
  { unfold new, new_prompt. apply lookup_insert_eq. }
  assert (Hwf_selected : Forall well_formed (stored_prompts selected))
    by (rewrite Hselected; exact Hwf').
  assert (Hnonneg : (0 <= combo_index selected)%Z) by (rewrite Hindex; lia).
  repeat apply conj.
  - apply Hreturns. rewrite Hcombo. exact Hwf'.
  - unfold uoutcome.
    rewrite (delete_prompt_spec true selected new _ Hwf_selected Hnonneg Hlookup Hnew_name).
    reflexivity.
  - unfold urun.
    rewrite (delete_prompt_spec true selected new _ Hwf_selected Hnonneg Hlookup Hnew_name).
    cbn [snd].
    match goal with
    | |- context [reloaded ?s1] =>
        destruct (reloaded_facts s1) as (Hconfig' & _);
        set (r := reloaded s1) in *
    end.
    change (default [] (cfg_prompts (pm_config r)) = stored_prompts s).
    rewrite Hconfig'.
    cbn [pm_config pm_set_config cfg_prompts cfg_set_prompts default].
    rewrite Hindex, Hselected, Nat2Z.id, delete_middle. apply app_nil_r.
Qed.

(** ** The prompt manager on the sample prompts *)

Lemma sample_stored (name hotkey content : string) (index : Z) :
  stored_prompts
    (pm_set_combo (prompts_combo sample_manager) index
       (typed name hotkey content sample_manager))
  = [prompt_one; prompt_two].
Proof. reflexivity. Qed.

Lemma sample_free (hotkey : string) :
  hotkey <> "alt+2" -> ~ taken_by_other [prompt_one; prompt_two] 0 hotkey.
Proof.
  intros Hne (i & p & Hp & Hi & Hk).
  destruct i as [| [| i]]; simpl in Hp; try discriminate Hp.
  - apply Hi. reflexivity.
  - injection Hp as <-.
    unfold prompt_two in Hk. rewrite (proj2 (new_prompt_well_formed _ _ _)) in Hk.
    congruence.
Qed.

Lemma update_prompt_replaces_entry_witness :
  stored_prompts
    (urun (update_prompt no_strip)
       (pm_set_combo (prompts_combo sample_manager) 0
          (typed "explain more" "alt+1" "Explain in detail" sample_manager)))
  = [new_prompt "explain more" "alt+1" "Explain in detail"; prompt_two].
Proof.
  set (s := pm_set_combo (prompts_combo sample_manager) 0
              (typed "explain more" "alt+1" "Explain in detail" sample_manager)).
  pose proof (sample_stored "explain more" "alt+1" "Explain in detail" 0) as Hstored.
  fold s in Hstored.
  assert (Hwf : Forall well_formed (stored_prompts s))
    by (rewrite Hstored; apply sample_prompts_well_formed).
  assert (Hrange : (0 <= combo_index s < Z.of_nat (length (stored_prompts s)))%Z)
    by (rewrite Hstored; simpl; lia).
  assert (Hfree : ~ taken_by_other (stored_prompts s) (combo_index s)
                      (no_strip (prompt_hotkey_edit s))).
  { rewrite Hstored. apply sample_free. discriminate. }
  destruct (update_prompt_replaces_entry no_strip s Hwf Hrange
              ltac:(discriminate) ltac:(discriminate) ltac:(discriminate) Hfree)
    as (_ & Hupdated & _).
  rewrite Hupdated, Hstored. reflexivity.
Defined.

Lemma update_prompt_rejects_hotkey_of_other_witness :
  stored_prompts
    (urun (update_prompt no_strip)
       (pm_set_combo (prompts_combo sample_manager) 0
          (typed "explain" "alt+2" "Explain this code" sample_manager)))
  = [prompt_one; prompt_two].
Proof.
  set (s := pm_set_combo (prompts_combo sample_manager) 0
              (typed "explain" "alt+2" "Explain this code" sample_manager)).
  pose proof (sample_stored "explain" "alt+2" "Explain this code" 0) as Hstored.
  fold s in Hstored.
  assert (Hwf : Forall well_formed (stored_prompts s))
    by (rewrite Hstored; apply sample_prompts_well_formed).
  assert (Htaken : taken_by_other (stored_prompts s) (combo_index s)
                     (no_strip (prompt_hotkey_edit s))).
  { rewrite Hstored. exists 1, prompt_two.
    repeat apply conj; [reflexivity | discriminate | apply new_prompt_well_formed]. }
  unfold urun.
  rewrite (update_prompt_rejects_hotkey_of_other no_strip s Hwf
             ltac:(simpl; lia) ltac:(discriminate) ltac:(discriminate)
             ltac:(discriminate) Htaken).
  exact Hstored.
Defined.

Lemma stale_index_update_raises_delete_ignores_witness :
  uoutcome (update_prompt no_strip)
    (pm_set_combo (prompts_combo sample_manager) 5
       (typed "review" "alt+3" "Review this" sample_manager))
  = Raised IndexError.
Proof.
  set (s := pm_set_combo (prompts_combo sample_manager) 5
              (typed "review" "alt+3" "Review this" sample_manager)).
  pose proof (sample_stored "review" "alt+3" "Review this" 5) as Hstored.
  fold s in Hstored.
  assert (Hwf : Forall well_formed (stored_prompts s))
    by (rewrite Hstored; apply sample_prompts_well_formed).
  assert (Hstale : (Z.of_nat (length (stored_prompts s)) <= combo_index s)%Z)
    by (rewrite Hstored; simpl; lia).
  assert (Hfree : ~ taken_by_other (stored_prompts s) (combo_index s)
                      (no_strip (prompt_hotkey_edit s))).
  { rewrite Hstored. intros (i & p & Hp & _ & Hk).
    destruct i as [| [| i]]; simpl in Hp; try discriminate Hp;
      injection Hp as <-;
      unfold prompt_one, prompt_two in Hk;
      rewrite (proj2 (new_prompt_well_formed _ _ _)) in Hk; discriminate Hk. }
  destruct (stale_index_update_raises_delete_ignores no_strip true s Hwf Hstale
              ltac:(discriminate) ltac:(discriminate) ltac:(discriminate) Hfree)
    as [Hupdate _].
  unfold uoutcome. rewrite Hupdate. reflexivity.
Defined.

Lemma delete_prompt_removes_entry_witness :
  stored_prompts (urun (delete_prompt true) sample_manager) = [prompt_two].
Proof.
  assert (Hwf : Forall well_formed (stored_prompts sample_manager))
    by apply sample_prompts_well_formed.
  assert (Hname : prompt_one !! "name" = Some "explain") by apply lookup_insert_eq.
  assert (Hindex : combo_index sample_manager = 0%Z) by reflexivity.
  assert (Hnonneg : (0 <= combo_index sample_manager)%Z) by (rewrite Hindex; lia).
  assert (Hlookup :
    stored_prompts sample_manager !! Z.to_nat (combo_index sample_manager)
    = Some prompt_one) by (rewrite Hindex; reflexivity).
  destruct (delete_prompt_removes_entry true sample_manager prompt_one "explain" Hwf
              Hnonneg Hlookup Hname) as (_ & Hdeleted & _).
  rewrite Hdeleted, Hindex. reflexivity.
Defined.

Lemma stored_hotkeys_stay_distinct_witness :
  NoDup
    (hotkeys
       (stored_prompts
          (urun (add_prompt no_strip)
             (typed "review" "alt+3" "Review this" sample_manager)))).
Proof.
  set (s := typed "review" "alt+3" "Review this" sample_manager).
  assert (Hstored : stored_prompts s = [prompt_one; prompt_two]) by reflexivity.
  assert (Hwf : Forall well_formed (stored_prompts s))
    by (rewrite Hstored; apply sample_prompts_well_formed).
  assert (Hdup : NoDup (hotkeys (stored_prompts s))).
  { rewrite Hstored, sample_hotkeys.
    apply NoDup_cons. split.
    - rewrite list_elem_of_singleton. discriminate.
    - apply NoDup_singleton. }
  apply (stored_hotkeys_stay_distinct no_strip true s Hwf Hdup).
Defined.

Lemma add_then_delete_restores_witness :
  stored_prompts
    (urun (delete_prompt true)
       (urun (user_selects 2)
          (urun (add_prompt no_strip)
             (typed "review" "alt+3" "Review this" sample_manager))))
  = [prompt_one; prompt_two].
Proof.
  set (s := typed "review" "alt+3" "Review this" sample_manager).
  assert (Hstored : stored_prompts s = [prompt_one; prompt_two]) by reflexivity.
  assert (Hwf : Forall well_formed (stored_prompts s))
    by (rewrite Hstored; apply sample_prompts_well_formed).
  assert (Hfresh : Some (no_strip (prompt_hotkey_edit s)) ∉ hotkeys (stored_prompts s)).
  { rewrite Hstored, sample_hotkeys. rewrite !not_elem_of_cons.
    repeat split; try discriminate. apply not_elem_of_nil. }
  destruct (add_then_delete_restores no_strip s Hwf
              ltac:(discriminate) ltac:(discriminate) ltac:(discriminate) Hfresh)
    as (_ & _ & Hrestored).
  rewrite Hstored in Hrestored. exact Hrestored.
Defined.
